(** * Trade-metrics pipeline: a shallow embedding of the three scripts

    [nafta-exports.py] and [nafta-imports.py] harmonise one raw trade report
    each (value cleaning, Year / Month / Month_Num / Date derivation);
    [combined.py] joins the two harmonised tables and derives the trade
    indicators.

    The scripts are written against pandas.  A column operation of the
    scripts is modelled row by row, and a pandas / numpy / Python primitive
    by a function that follows its documented behaviour:

    - an object (text) cell is a [string]; a cell that pandas holds as NaN
      is [None];
    - a float64 cell is a [spec_float] at precision 53 and [emax] 1024
      (IEEE 754 binary64, the Standard Library's executable specification);
      NaN is at the same time the float NaN and the "missing" marker, as in
      pandas;
    - a character is a code point below 256, and the character classes of
      [re] and of [float] are Python's classes on that range;
    - [Series.str.extract] is [re.search] with the first group, [Series.map]
      of a dict gives NaN outside the keys, [astype(float)] is [float] on
      every cell, an outer [merge] matches equal keys (NaN keys included)
      and lists the keys in lexicographic order, and a grouped [sum] skips
      NaN and adds the values of a group in the order of the rows with the
      compensated summation of pandas' [group_sum];
    - the raw tables are taken as they are in memory after [read_csv], with
      text columns and no empty cell; writing a table and reading it back
      ([to_csv] then [read_csv]) is taken to return the same table.  What
      [read_csv] makes of a column whose cells are all numbers, and what
      the scripts do with it, is the matter of the section on the types of
      the columns;
    - where the labels of a report matter (the renaming of the value column
      by [nafta-imports.py]), a report is a list of labelled text columns,
      with distinct labels and as many cells in every column;
    - a chart of [combined.py] is the data that it draws: the lines with
      their legend labels and points, and the horizontal line.

    [hts.py] holds a catalogue of HTS codes by category and writes a
    reference sheet, a figure and a guide from it.  The figure is the four
    lists that it draws, the scores of the two mappings being rationals; the
    guide is a constant text and is not spelled out; the directory that the
    script writes to is taken to exist. *)

From Stdlib Require Import Bool Ascii String List NArith ZArith QArith Qabs Lia.
From Stdlib Require Import Permutation.
From Stdlib Require Import SpecFloat.
Import ListNotations.

Local Open Scope list_scope.
Local Open Scope string_scope.

(** ** Characters and the classes of [re] *)

Definition code (c : ascii) : N := N_of_ascii c.

Definition between (lo hi : N) (c : ascii) : bool :=
  (N.leb lo (code c) && N.leb (code c) hi)%bool.

(** [\d] on code points below 256: the ten ASCII digits. *)
Definition is_digit (c : ascii) : bool := between 48 57 c.

(** [\w] on code points below 256: what [str.isalnum] accepts, and [_]. *)
Definition is_word (c : ascii) : bool :=
  (between 48 57 c || between 65 90 c || between 95 95 c || between 97 122 c
   || between 170 170 c || between 178 179 c || between 181 181 c
   || between 185 186 c || between 188 190 c || between 192 214 c
   || between 216 246 c || between 248 255 c)%bool.

(** [\s] on code points below 256: what [str.isspace] accepts. *)
Definition is_space (c : ascii) : bool :=
  (between 9 13 c || between 28 32 c || between 133 133 c
   || between 160 160 c)%bool.

(** ** A backtracking matcher for the two patterns of the scripts

    Both patterns are a capture group followed by an uncaptured tail, and
    each is a sequence of character classes under a quantifier. *)

Inductive atom : Type :=
| Exactly (n : nat) (cls : ascii -> bool)   (* cls{n} *)
| OneOrMore (cls : ascii -> bool).          (* cls+, greedy *)

Record pattern : Type := { group : list atom; tail : list atom }.

(** r'(\d{4})' *)
Definition year_pattern : pattern :=
  {| group := [Exactly 4 is_digit]; tail := [] |}.

(** r'(\w+)\s+\d{4}' *)
Definition month_pattern : pattern :=
  {| group := [OneOrMore is_word];
     tail := [OneOrMore is_space; Exactly 4 is_digit] |}.

(** The rest of [s] after [n] characters of class [cls]. *)
Fixpoint take_class (n : nat) (cls : ascii -> bool) (s : string)
  : option string :=
  match n with
  | O => Some s
  | S n' =>
      match s with
      | EmptyString => None
      | String c s' => if cls c then take_class n' cls s' else None
      end
  end.

(** Match the atoms at the start of [s]; the result gives the number of
    characters each atom consumed.  [OneOrMore] tries the longer repetition
    first and gives characters back only when what follows fails. *)
Fixpoint match_here (p : list atom) : string -> option (list nat) :=
  match p with
  | [] => fun _ => Some []
  | Exactly n cls :: p' =>
      fun s =>
        match take_class n cls s with
        | Some s' => option_map (cons n) (match_here p' s')
        | None => None
        end
  | OneOrMore cls :: p' =>
      fix more (s : string) : option (list nat) :=
        match s with
        | EmptyString => None
        | String c s' =>
            if cls c then
              match more s' with
              | Some (k :: ks) => Some (S k :: ks)
              | _ => option_map (cons 1%nat) (match_here p' s')
              end
            else None
        end
  end.

(** The text of the capture group when the pattern matches at the start. *)
Definition match_group (p : pattern) (s : string) : option string :=
  match match_here (group p ++ tail p)%list s with
  | Some ks =>
      Some (substring 0 (list_sum (firstn (List.length (group p)) ks)) s)
  | None => None
  end.

(** [re.search]: the leftmost position at which the pattern matches. *)
Fixpoint search (p : pattern) (s : string) : option string :=
  match match_group p s with
  | Some g => Some g
  | None =>
      match s with
      | EmptyString => None
      | String _ s' => search p s'
      end
  end.

(** [Series.str.extract(pat)] on one cell: the first group of the first
    match, or NaN. *)
Definition str_extract (p : pattern) (s : string) : option string :=
  search p s.

(** ** The period normaliser (nafta-exports.py 24-42, nafta-imports.py 32-49) *)

Definition month_map (m : string) : option string :=
  if m =? "January" then Some "01"
  else if m =? "February" then Some "02"
  else if m =? "March" then Some "03"
  else if m =? "April" then Some "04"
  else if m =? "May" then Some "05"
  else if m =? "June" then Some "06"
  else if m =? "July" then Some "07"
  else if m =? "August" then Some "08"
  else if m =? "September" then Some "09"
  else if m =? "October" then Some "10"
  else if m =? "November" then Some "11"
  else if m =? "December" then Some "12"
  else if m =? "Annual" then Some "00"
  else None.

Definition calendar_months : list string :=
  ["January"; "February"; "March"; "April"; "May"; "June"; "July"; "August";
   "September"; "October"; "November"; "December"].

Definition fillna {A : Type} (x : option A) (v : A) : A :=
  match x with Some a => a | None => v end.

(** [df['Time'].str.extract(r'(\d{4})').fillna(df['Time'])].
    [str.extract] returns a one-column frame whose column is labelled 0, and
    [DataFrame.fillna] with a Series takes the fill value of a column from
    the Series entry under the column's label: the holes of the Year column
    are filled with the Time of the row labelled 0, the first row
    ([time0]). *)
Definition Year_of (time0 : string) (t : string) : string :=
  fillna (str_extract year_pattern t) time0.

(** [df['Time'].str.extract(r'(\w+)\s+\d{4}').fillna('Annual')] *)
Definition Month_of (t : string) : string :=
  fillna (str_extract month_pattern t) "Annual".

(** [df['Month'].map(month_map)]: a value that is not a key gives NaN. *)
Definition Month_Num_of (month : string) : option string := month_map month.

(** [np.where(Month == 'Annual', Year, Year + '-' + Month_Num + '-01')];
    the concatenation with a NaN Month_Num is NaN. *)
Definition Date_of (year month : string) (month_num : option string)
  : option string :=
  if month =? "Annual" then Some year
  else
    match month_num with
    | Some n => Some (year ++ "-" ++ n ++ "-01")
    | None => None
    end.

(** ** binary64 *)

Definition prec : Z := 53.
Definition emax : Z := 1024.

Definition float : Type := spec_float.

Definition nan : float := S754_nan.
Definition fadd : float -> float -> float := SFadd prec emax.
Definition fsub : float -> float -> float := SFsub prec emax.
Definition fdiv : float -> float -> float := SFdiv prec emax.

Definition isna (x : float) : bool :=
  match x with S754_nan => true | _ => false end.

(** The float nearest to the integer [z] (ties to even). *)
Definition float_of_Z (z : Z) : float := binary_normalize prec emax z 0 false.

(** ** [float(str)], the conversion behind [astype(float)] on a text column

    Grammar of the Python reference: surrounding whitespace is stripped; an
    optional sign; then [inf], [infinity] or [nan] in any letter case, or a
    decimal number with an optional exponent; digits may be separated by
    single underscores.  The value is the binary64 nearest to the decimal
    (ties to even), an infinity beyond the largest finite float. *)

(** Whitespace stripped by [float]: code points below 127 are stripped when
    C's [isspace] holds, the others when [str.isspace] holds. *)
Definition is_float_space (c : ascii) : bool :=
  (between 9 13 c || between 32 32 c || between 133 133 c
   || between 160 160 c)%bool.

Fixpoint lstrip (s : string) : string :=
  match s with
  | EmptyString => EmptyString
  | String c s' => if is_float_space c then lstrip s' else s
  end.

Fixpoint rstrip (s : string) : string :=
  match s with
  | EmptyString => EmptyString
  | String c s' =>
      match rstrip s' with
      | EmptyString =>
          if is_float_space c then EmptyString else String c EmptyString
      | r => String c r
      end
  end.

Definition to_lower (c : ascii) : ascii :=
  if between 65 90 c then ascii_of_N (code c + 32) else c.

Fixpoint lower (s : string) : string :=
  match s with
  | EmptyString => EmptyString
  | String c s' => String (to_lower c) (lower s')
  end.

Definition digit_val (c : ascii) : N := (code c - 48)%N.

(** What follows the first digit of a digitpart: [(["_"] digit)*].  [acc]
    is the number read so far and [n] the count of its digits. *)
Fixpoint digits_more (acc : N) (n : nat) (s : string) : N * nat * string :=
  match s with
  | EmptyString => (acc, n, s)
  | String c s' =>
      if is_digit c then digits_more (10 * acc + digit_val c)%N (S n) s'
      else if (c =? "_")%char then
        match s' with
        | String d s'' =>
            if is_digit d
            then digits_more (10 * acc + digit_val d)%N (S n) s''
            else (acc, n, s)
        | EmptyString => (acc, n, s)
        end
      else (acc, n, s)
  end.

(** [digitpart ::= digit (["_"] digit)*], read after the digits [acc]. *)
Definition digitpart (acc : N) (s : string) : option (N * nat * string) :=
  match s with
  | String c s' =>
      if is_digit c then Some (digits_more (10 * acc + digit_val c)%N 1 s')
      else None
  | EmptyString => None
  end.

(** [number ::= [digitpart] "." digitpart | digitpart ["."]]: all the digits
    as one integer, the count of the digits after the point, and the rest. *)
Definition number (s : string) : option (N * nat * string) :=
  match digitpart 0 s with
  | Some (i, _, String "." r) =>
      match digitpart i r with
      | Some res => Some res
      | None => Some (i, O, r)
      end
  | Some (i, _, r) => Some (i, O, r)
  | None =>
      match s with
      | String "." r => digitpart 0 r
      | _ => None
      end
  end.

Definition sign (s : string) : bool * string :=
  match s with
  | String "-" r => (true, r)
  | String "+" r => (false, r)
  | _ => (false, s)
  end.

(** [exponent ::= ("e" | "E") [sign] digitpart], up to the end of the text;
    an empty text is the exponent 0. *)
Definition exponent (s : string) : option Z :=
  match s with
  | EmptyString => Some 0%Z
  | String c r =>
      if ((c =? "e") || (c =? "E"))%char then
        let (neg, r') := sign r in
        match digitpart 0 r' with
        | Some (v, _, EmptyString) =>
            Some (if neg then Z.opp (Z.of_N v) else Z.of_N v)
        | _ => None
        end
      else None
  end.

(** The binary64 nearest to [m * 10 ^ e], with the sign [neg]. *)
Definition float_of_decimal (neg : bool) (m : N) (e : Z) : float :=
  match m with
  | N0 => S754_zero neg
  | Npos p =>
      match e with
      | Zneg k =>
          let '(q, e', l) :=
            SFdiv_core_binary prec emax (Zpos p) 0 (Z.pow_pos 10 k) 0 in
          binary_round_aux prec emax neg q e' l
      | Z0 => binary_round prec emax neg p 0
      | Zpos k => binary_round prec emax neg (p * Pos.pow 10 k) 0
      end
  end.

(** [float(s)]; [None] stands for the [ValueError] that Python raises. *)
Definition float_of_string (s : string) : option float :=
  let (neg, body) := sign (rstrip (lstrip s)) in
  let word := lower body in
  if ((word =? "inf") || (word =? "infinity"))%bool
  then Some (S754_infinity neg)
  else if word =? "nan" then Some nan
  else
    match number body with
    | Some (m, k, r) =>
        match exponent r with
        | Some e => Some (float_of_decimal neg m (e - Z.of_nat k))
        | None => None
        end
    | None => None
    end.

(** [Series.str.replace(',', '')] on one cell. *)
Fixpoint remove_commas (s : string) : string :=
  match s with
  | EmptyString => EmptyString
  | String c s' =>
      if (c =? ",")%char then remove_commas s' else String c (remove_commas s')
  end.

(** Line 21 (exports) and line 29 (imports) on one cell:
    [.str.replace(',', '').astype(float)]. *)
Definition clean_value (v : string) : option float :=
  float_of_string (remove_commas v).

(** ** Errors and the file store

    A script runs against the files of the working directory and either
    finishes or stops at the first exception; what it wrote before stays
    written. *)

Inductive exn : Type :=
| ValueError (cell : string)         (* could not convert string to float *)
| FileNotFoundError (path : string)
| KeyError (path : string)           (* the file has not the expected columns *)
| AttributeError (message : string). (* [.str] on a column that is no text *)

Inductive result (A : Type) : Type :=
| Ok (a : A)
| Raise (e : exn).

Arguments Ok {A} a.
Arguments Raise {A} e.

(** ** Tables *)

Module Raw.
(** A raw report after [read_csv]; the value column is
    ['Value ($US)'] in the exports report and
    ['Customs Value (Gen) ($US)'], renamed, in the imports report. *)
Record t : Type := mk { Time : string; Country : string; Value : string }.
End Raw.

Module Norm.
(** A harmonised table, in the column order of [column_order]. *)
Record t : Type := mk {
  Time : string;
  Date : option string;
  Year : string;
  Month : string;
  Month_Num : option string;
  Country : string;
  Value : float
}.
End Norm.

Module Side.
(** One side of the join, after the selection and the renaming of
    combined.py 25-30; [Value] is the Exports or the Imports column. *)
Record t : Type := mk {
  Time : string;
  Date : option string;
  Year : string;
  Month : string;
  Country : string;
  Value : float
}.
End Side.

Module Merged.
Record t : Type := mk {
  Time : string;
  Date : option string;
  Year : string;
  Month : string;
  Country : string;
  Exports : float;
  Imports : float
}.
End Merged.

Module Fact.
Record t : Type := mk {
  Time : string;
  Date : option string;
  Year : string;
  Month : string;
  Country : string;
  Exports : float;
  Imports : float;
  Trade_Balance : float;
  Trade_Volume : float;
  Export_Import_Ratio : float;
  Export_Share : float;
  Import_Share : float;
  RCA_Index : float
}.
End Fact.

(** ** The record harmoniser (nafta-exports.py 21-46, nafta-imports.py 29-53) *)

(** [astype(float)] on a whole column: the first cell that is not a float
    literal raises, and no column is produced. *)
Fixpoint astype_float (col : list string) : result (list float) :=
  match col with
  | [] => Ok []
  | v :: col' =>
      match float_of_string v with
      | None => Raise (ValueError v)
      | Some x =>
          match astype_float col' with
          | Ok xs => Ok (x :: xs)
          | Raise e => Raise e
          end
      end
  end.

(** The Time of the row labelled 0. *)
Definition time0 (df : list Raw.t) : string :=
  match df with
  | r :: _ => Raw.Time r
  | [] => ""
  end.

(** Lines 24-46 on one row, the Value column being cleaned already. *)
Definition normalized_row (t0 : string) (r : Raw.t) (v : float) : Norm.t :=
  let year := Year_of t0 (Raw.Time r) in
  let month := Month_of (Raw.Time r) in
  let month_num := Month_Num_of month in
  {| Norm.Time := Raw.Time r;
     Norm.Date := Date_of year month month_num;
     Norm.Year := year;
     Norm.Month := month;
     Norm.Month_Num := month_num;
     Norm.Country := Raw.Country r;
     Norm.Value := v |}.

Definition harmonize (df : list Raw.t) : result (list Norm.t) :=
  match astype_float (map (fun r => remove_commas (Raw.Value r)) df) with
  | Raise e => Raise e
  | Ok values =>
      Ok (map (fun rv => normalized_row (time0 df) (fst rv) (snd rv))
              (combine df values))
  end.

(** ** The trade metrics engine (combined.py 24-47) *)

(** [df[['Time', 'Date', 'Year', 'Month', 'Country', 'Value ($US)']]] and
    the renaming of the value column. *)
Definition select (r : Norm.t) : Side.t :=
  {| Side.Time := Norm.Time r;
     Side.Date := Norm.Date r;
     Side.Year := Norm.Year r;
     Side.Month := Norm.Month r;
     Side.Country := Norm.Country r;
     Side.Value := Norm.Value r |}.

(** The join key: on=['Time', 'Date', 'Year', 'Month', 'Country']. *)
Definition key : Type :=
  (string * option string * string * string * string)%type.

Definition key_of (r : Side.t) : key :=
  (Side.Time r, Side.Date r, Side.Year r, Side.Month r, Side.Country r).

Definition key_eq_dec (k1 k2 : key) : {k1 = k2} + {k1 <> k2}.
Proof. repeat decide equality. Defined.

Definition key_eqb (k1 k2 : key) : bool :=
  if key_eq_dec k1 k2 then true else false.

(** Keys are ordered column by column, text by code points, NaN last. *)
Definition then_compare (c1 c2 : comparison) : comparison :=
  match c1 with Eq => c2 | _ => c1 end.

Definition cell_compare (a b : option string) : comparison :=
  match a, b with
  | Some x, Some y => String.compare x y
  | Some _, None => Lt
  | None, Some _ => Gt
  | None, None => Eq
  end.

Definition key_compare (k1 k2 : key) : comparison :=
  let '(t1, d1, y1, m1, c1) := k1 in
  let '(t2, d2, y2, m2, c2) := k2 in
  then_compare (String.compare t1 t2)
    (then_compare (cell_compare d1 d2)
       (then_compare (String.compare y1 y2)
          (then_compare (String.compare m1 m2) (String.compare c1 c2)))).

Definition key_leb (k1 k2 : key) : bool :=
  match key_compare k1 k2 with Gt => false | _ => true end.

Fixpoint insert_key (k : key) (ks : list key) : list key :=
  match ks with
  | [] => [k]
  | k' :: ks' => if key_leb k k' then k :: ks else k' :: insert_key k ks'
  end.

Definition sort_keys (ks : list key) : list key := fold_right insert_key [] ks.

Definition has_key (k : key) (r : Side.t) : bool := key_eqb (key_of r) k.

Definition left_only (l : Side.t) : Merged.t :=
  {| Merged.Time := Side.Time l; Merged.Date := Side.Date l;
     Merged.Year := Side.Year l; Merged.Month := Side.Month l;
     Merged.Country := Side.Country l;
     Merged.Exports := Side.Value l; Merged.Imports := nan |}.

Definition right_only (r : Side.t) : Merged.t :=
  {| Merged.Time := Side.Time r; Merged.Date := Side.Date r;
     Merged.Year := Side.Year r; Merged.Month := Side.Month r;
     Merged.Country := Side.Country r;
     Merged.Exports := nan; Merged.Imports := Side.Value r |}.

Definition both (l r : Side.t) : Merged.t :=
  {| Merged.Time := Side.Time l; Merged.Date := Side.Date l;
     Merged.Year := Side.Year l; Merged.Month := Side.Month l;
     Merged.Country := Side.Country l;
     Merged.Exports := Side.Value l; Merged.Imports := Side.Value r |}.

(** The rows of the join for one key: every left row with every right row
    of that key, or the rows of the only side that has the key, the cell of
    the other side being NaN. *)
Definition join_group (left right : list Side.t) (k : key) : list Merged.t :=
  match filter (has_key k) left, filter (has_key k) right with
  | [], rs => map right_only rs
  | ls, [] => map left_only ls
  | ls, rs => flat_map (fun l => map (both l) rs) ls
  end.

(** The keys of the join: the union of the keys of both sides, each once,
    in the lexicographic order of the keys. *)
Definition join_key_list (left right : list Side.t) : list key :=
  sort_keys (nodup key_eq_dec (map key_of left ++ map key_of right)%list).

(** [pd.merge(exports_df, imports_df, on=[...], how='outer')]; NaN keys
    match each other. *)
Definition merge_outer (left right : list Side.t) : list Merged.t :=
  flat_map (join_group left right) (join_key_list left right).

(** One step of the compensated (Kahan) summation of pandas' grouped sum:
    [y = val - compensation; t = sumx + y;
     compensation = t - sumx - y; sumx = t], the compensation being set to
    0 when it comes out as NaN. *)
Definition kahan_step (st : float * float) (val : float) : float * float :=
  let (sumx, compensation) := st in
  let y := fsub val compensation in
  let t := fadd sumx y in
  let compensation := fsub (fsub t sumx) y in
  (t, if isna compensation then S754_zero false else compensation).

(** The grouped sum of a float column: it skips NaN and adds the other
    values in the order of the rows, with compensation; the sum of no
    value is 0. *)
Definition nansum (xs : list float) : float :=
  fst (fold_left (fun st x => if isna x then st else kahan_step st x) xs
         (S754_zero false, S754_zero false)).

(** [merged.groupby('Time')[col].transform('sum')] at a row whose Time is
    [time]. *)
Definition group_sum (col : Merged.t -> float) (merged : list Merged.t)
    (time : string) : float :=
  nansum (map col (filter (fun r => Merged.Time r =? time) merged)).

(** Lines 37-45 at one row of [merged]. *)
Definition metrics (merged : list Merged.t) (r : Merged.t) : Fact.t :=
  let Exports := Merged.Exports r in
  let Imports := Merged.Imports r in
  let Export_Share :=
    fdiv Exports (group_sum Merged.Exports merged (Merged.Time r)) in
  let Import_Share :=
    fdiv Imports (group_sum Merged.Imports merged (Merged.Time r)) in
  {| Fact.Time := Merged.Time r; Fact.Date := Merged.Date r;
     Fact.Year := Merged.Year r; Fact.Month := Merged.Month r;
     Fact.Country := Merged.Country r;
     Fact.Exports := Exports; Fact.Imports := Imports;
     Fact.Trade_Balance := fsub Exports Imports;
     Fact.Trade_Volume := fadd Exports Imports;
     Fact.Export_Import_Ratio := fdiv Exports Imports;
     Fact.Export_Share := Export_Share;
     Fact.Import_Share := Import_Share;
     Fact.RCA_Index := fdiv Export_Share Import_Share |}.

Definition calculate_trade_metrics (exports_df imports_df : list Norm.t)
  : list Fact.t :=
  let exports_df := map select exports_df in
  let imports_df := map select imports_df in
  let merged := merge_outer exports_df imports_df in
  map (metrics merged) merged.

(** ** Column labels and the written table *)

Inductive value : Type :=
| Text (s : option string)
| Number (x : float).

Record DataFrame : Type := { columns : list string; data : list (list value) }.

(** [df.rename(columns={old: new})] on the labels. *)
Definition rename_column (old new : string) (cols : list string)
  : list string :=
  map (fun c => if c =? old then new else c) cols.

(** The labels of [pd.merge(left, right, on=keys)]: the labels of the left
    table, then the labels of the right table that are not keys. *)
Definition merge_columns (keys left right : list string) : list string :=
  (left ++ filter (fun c => negb (existsb (String.eqb c) keys)) right)%list.

(** nafta-exports.py 45, nafta-imports.py 52. *)
Definition column_order : list string :=
  ["Time"; "Date"; "Year"; "Month"; "Month_Num"; "Country"; "Value ($US)"].

(** combined.py 25-26. *)
Definition selected_columns : list string :=
  ["Time"; "Date"; "Year"; "Month"; "Country"; "Value ($US)"].

(** combined.py 34. *)
Definition join_keys : list string :=
  ["Time"; "Date"; "Year"; "Month"; "Country"].

(** The labels of [merged] after lines 37-45. *)
Definition metrics_columns : list string :=
  (merge_columns join_keys
     (rename_column "Value ($US)" "Exports" selected_columns)
     (rename_column "Value ($US)" "Imports" selected_columns)
   ++ ["Trade_Balance"; "Trade_Volume"; "Export_Import_Ratio";
       "Export_Share"; "Import_Share"; "RCA_Index"])%list.

Definition Norm_cells (r : Norm.t) : list value :=
  [Text (Some (Norm.Time r)); Text (Norm.Date r); Text (Some (Norm.Year r));
   Text (Some (Norm.Month r)); Text (Norm.Month_Num r);
   Text (Some (Norm.Country r)); Number (Norm.Value r)].

Definition Fact_cells (r : Fact.t) : list value :=
  [Text (Some (Fact.Time r)); Text (Fact.Date r); Text (Some (Fact.Year r));
   Text (Some (Fact.Month r)); Text (Some (Fact.Country r));
   Number (Fact.Exports r); Number (Fact.Imports r);
   Number (Fact.Trade_Balance r); Number (Fact.Trade_Volume r);
   Number (Fact.Export_Import_Ratio r); Number (Fact.Export_Share r);
   Number (Fact.Import_Share r); Number (Fact.RCA_Index r)].

(** The harmonised table as [to_csv] writes it. *)
Definition harmonised_frame (rows : list Norm.t) : DataFrame :=
  {| columns := column_order; data := map Norm_cells rows |}.

(** The fact table as [to_csv] writes it. *)
Definition trade_metrics_frame (rows : list Fact.t) : DataFrame :=
  {| columns := metrics_columns; data := map Fact_cells rows |}.

(** The cell of a written row under a label, if the table has the label. *)
Fixpoint cell_under (label : string) (cols : list string) (row : list value)
  : option value :=
  match cols, row with
  | c :: cols', v :: row' =>
      if c =? label then Some v else cell_under label cols' row'
  | _, _ => None
  end.

(** ** The three scripts *)

Inductive artifact : Type :=
| RawReport (rows : list Raw.t)
| HarmonisedTable (rows : list Norm.t)
| MetricsTable (rows : list Fact.t).

Definition store : Type := string -> option artifact.

Definition Run (A : Type) : Type := store -> result A * store.

Definition ret {A : Type} (a : A) : Run A := fun st => (Ok a, st).

Definition bind {A B : Type} (m : Run A) (k : A -> Run B) : Run B :=
  fun st =>
    match m st with
    | (Ok a, st') => k a st'
    | (Raise e, st') => (Raise e, st')
    end.

Notation "x <- m ;; k" := (bind m (fun x => k))
  (at level 61, m at next level, right associativity).
Notation "m ;; k" := (bind m (fun _ => k))
  (at level 61, right associativity).

Definition lift {A : Type} (r : result A) : Run A := fun st => (r, st).

Definition read_raw (path : string) : Run (list Raw.t) :=
  fun st =>
    match st path with
    | Some (RawReport rows) => (Ok rows, st)
    | Some _ => (Raise (KeyError path), st)
    | None => (Raise (FileNotFoundError path), st)
    end.

Definition read_harmonised (path : string) : Run (list Norm.t) :=
  fun st =>
    match st path with
    | Some (HarmonisedTable rows) => (Ok rows, st)
    | Some _ => (Raise (KeyError path), st)
    | None => (Raise (FileNotFoundError path), st)
    end.

Definition to_csv (path : string) (a : artifact) : Run unit :=
  fun st => (Ok tt, fun p => if p =? path then Some a else st p).

Definition exports_input_path : string :=
  "csv files/Standard Report - Exports.csv".
Definition imports_input_path : string :=
  "csv files/Standard Report - Imports.csv".
Definition exports_path : string := "processed_exports.csv".
Definition imports_path : string := "processed_imports.csv".
Definition metrics_path : string := "nafta_trade_metrics.csv".

(** nafta-exports.py *)
Definition nafta_exports : Run unit :=
  exports <- read_raw exports_input_path ;;
  exports <- lift (harmonize exports) ;;
  to_csv exports_path (HarmonisedTable exports).

(** nafta-imports.py *)
Definition nafta_imports : Run unit :=
  imports <- read_raw imports_input_path ;;
  imports <- lift (harmonize imports) ;;
  to_csv imports_path (HarmonisedTable imports).

(** combined.py up to the writing of the fact table at line 57.  The
    charts of lines 64-106, which the script goes on to save under plots/,
    are [figures] below; their files are no part of the store. *)
Definition combined : Run unit :=
  exports <- read_harmonised exports_path ;;
  imports <- read_harmonised imports_path ;;
  to_csv metrics_path (MetricsTable (calculate_trade_metrics exports imports)).

(** The three scripts in their order, the run stopping at the first
    exception. *)
Definition pipeline : Run unit :=
  nafta_exports ;; nafta_imports ;; combined.

(** The store that holds the two raw reports and nothing else. *)
Definition initial_store (exports imports : list Raw.t) : store :=
  fun p =>
    if p =? exports_input_path then Some (RawReport exports)
    else if p =? imports_input_path then Some (RawReport imports)
    else None.

(** The pipeline as a function of the two raw reports. *)
Definition trade_metrics (exports imports : list Raw.t)
  : result (list Fact.t) :=
  match harmonize exports with
  | Raise e => Raise e
  | Ok exports' =>
      match harmonize imports with
      | Raise e => Raise e
      | Ok imports' => Ok (calculate_trade_metrics exports' imports')
      end
  end.

(** ** Vocabulary of the statements *)

Fixpoint all_in (cls : ascii -> bool) (s : string) : bool :=
  match s with
  | EmptyString => true
  | String c s' => (cls c && all_in cls s')%bool
  end.

(** A four-digit year. *)
Definition four_digits (y : string) : Prop :=
  String.length y = 4%nat /\ all_in is_digit y = true.

(** A non-empty run of characters of one class. *)
Definition run_of (cls : ascii -> bool) (w : string) : Prop :=
  w <> EmptyString /\ all_in cls w = true.

Definition no_digit (s : string) : bool :=
  all_in (fun c => negb (is_digit c)) s.

(** The calendar table of the specification. *)
Definition calendar_table : list (string * string) :=
  [("January", "01"); ("February", "02"); ("March", "03"); ("April", "04");
   ("May", "05"); ("June", "06"); ("July", "07"); ("August", "08");
   ("September", "09"); ("October", "10"); ("November", "11");
   ("December", "12")].

(** The columns that the specification gives to the fact table. *)
Definition specified_columns : list string :=
  ["Time"; "Date"; "Year"; "Month"; "Month_Num"; "Country"; "Exports";
   "Imports"; "Trade_Balance"; "Trade_Volume"; "Export_Import_Ratio";
   "Export_Share"; "Import_Share"; "RCA_Index"].


Definition is_finite (x : float) : bool :=
  match x with
  | S754_zero _ | S754_finite _ _ _ => true
  | _ => false
  end.

(** A cell that holds a value. *)
Definition present (x : float) : bool := negb (isna x).

(** What a division by a zero gives: an infinity that carries the product
    of the signs, NaN for a zero or a NaN dividend. *)
Definition quotient_by_zero (x : float) (s : bool) : float :=
  match x with
  | S754_finite sx _ _ | S754_infinity sx => S754_infinity (xorb sx s)
  | S754_zero _ | S754_nan => nan
  end.


(** The rows of a harmonised report (no row when the harmoniser raises). *)
Definition harmonized (df : list Raw.t) : list Norm.t :=
  match harmonize df with
  | Ok rows => rows
  | Raise _ => []
  end.

(** The table [merged] of [calculate_trade_metrics]. *)
Definition merged_of (e i : list Norm.t) : list Merged.t :=
  merge_outer (map select e) (map select i).

(** The joined row under a fact row. *)
Definition Fact_base (r : Fact.t) : Merged.t :=
  {| Merged.Time := Fact.Time r; Merged.Date := Fact.Date r;
     Merged.Year := Fact.Year r; Merged.Month := Fact.Month r;
     Merged.Country := Fact.Country r;
     Merged.Exports := Fact.Exports r; Merged.Imports := Fact.Imports r |}.

Definition Merged_key (m : Merged.t) : key :=
  (Merged.Time m, Merged.Date m, Merged.Year m, Merged.Month m,
   Merged.Country m).

Definition Fact_key (r : Fact.t) : key := Merged_key (Fact_base r).
Definition Norm_key (r : Norm.t) : key := key_of (select r).

(** The pair (Time, Country). *)
Definition key2 : Type := (string * string)%type.

Definition key2_eq_dec (k1 k2 : key2) : {k1 = k2} + {k1 <> k2}.
Proof. repeat decide equality. Defined.

Definition time_country (k : key) : key2 :=
  let '(t, _, _, _, c) := k in (t, c).

Definition Norm_key2 (r : Norm.t) : key2 := (Norm.Time r, Norm.Country r).
Definition Fact_key2 (r : Fact.t) : key2 := (Fact.Time r, Fact.Country r).

(** The rows of a table that carry the Time label [t]. *)
Definition time_group (t : string) (out : list Fact.t) : list Fact.t :=
  filter (fun r => Fact.Time r =? t) out.

(** Date, Year and Month are determined by Time in a table. *)
Definition temporal_by_time (rows : list Norm.t) : Prop :=
  forall r r', In r rows -> In r' rows -> Norm.Time r = Norm.Time r' ->
    Norm.Date r = Norm.Date r' /\ Norm.Year r = Norm.Year r'
    /\ Norm.Month r = Norm.Month r'.

(** A fact row whose Imports and every indicator that reads Imports are
    missing. *)
Definition imports_missing (r : Fact.t) : Prop :=
  Fact.Imports r = nan /\ Fact.Trade_Balance r = nan
  /\ Fact.Trade_Volume r = nan /\ Fact.Export_Import_Ratio r = nan
  /\ Fact.Import_Share r = nan /\ Fact.RCA_Index r = nan.

(** A fact row whose Exports and every indicator that reads Exports are
    missing. *)
Definition exports_missing (r : Fact.t) : Prop :=
  Fact.Exports r = nan /\ Fact.Trade_Balance r = nan
  /\ Fact.Trade_Volume r = nan /\ Fact.Export_Import_Ratio r = nan
  /\ Fact.Export_Share r = nan /\ Fact.RCA_Index r = nan.

(** The two value columns of the fact table and their shares. *)
Inductive side : Type := ExportsSide | ImportsSide.

Definition side_value (s : side) (r : Fact.t) : float :=
  match s with
  | ExportsSide => Fact.Exports r
  | ImportsSide => Fact.Imports r
  end.

Definition side_share (s : side) (r : Fact.t) : float :=
  match s with
  | ExportsSide => Fact.Export_Share r
  | ImportsSide => Fact.Import_Share r
  end.




(** A harmonised row without its Month_Num. *)
Definition forget_Month_Num (r : Norm.t) : Norm.t :=
  {| Norm.Time := Norm.Time r; Norm.Date := Norm.Date r;
     Norm.Year := Norm.Year r; Norm.Month := Norm.Month r;
     Norm.Month_Num := None; Norm.Country := Norm.Country r;
     Norm.Value := Norm.Value r |}.

(** The Imports and the Import_Share of each country. *)
Definition imports_columns (rows : list Fact.t)
  : list (string * float * float) :=
  map (fun r => (Fact.Country r, Fact.Imports r, Fact.Import_Share r)) rows.

(** ** Sample reports *)

(** The end-to-end scenario of the specification. *)
Definition scenario_exports : list Raw.t := [Raw.mk "2021" "Canada" "1,000"].
Definition scenario_imports : list Raw.t := [Raw.mk "2021" "Canada" "500"].

Definition scenario_row : Fact.t :=
  {| Fact.Time := "2021"; Fact.Date := Some "2021"; Fact.Year := "2021";
     Fact.Month := "Annual"; Fact.Country := "Canada";
     Fact.Exports := float_of_Z 1000; Fact.Imports := float_of_Z 500;
     Fact.Trade_Balance := float_of_Z 500;
     Fact.Trade_Volume := float_of_Z 1500;
     Fact.Export_Import_Ratio := float_of_Z 2;
     Fact.Export_Share := float_of_Z 1;
     Fact.Import_Share := float_of_Z 1;
     Fact.RCA_Index := float_of_Z 1 |}.

(** A year with its annual row and the rows of one of its months. *)
Definition annual_and_monthly : list Raw.t :=
  [Raw.mk "2021" "Canada" "1,000"; Raw.mk "March 2021" "Canada" "100";
   Raw.mk "March 2021" "Mexico" "300"].



(** Exports of 100 and of -100 against imports of 0. *)
Definition exports_100 : list Raw.t := [Raw.mk "2021" "Canada" "100"].
Definition exports_minus_100 : list Raw.t := [Raw.mk "2021" "Canada" "-100"].
Definition imports_0 : list Raw.t := [Raw.mk "2021" "Canada" "0"].

Definition zero_imports_row : Merged.t :=
  {| Merged.Time := "2021"; Merged.Date := Some "2021";
     Merged.Year := "2021"; Merged.Month := "Annual";
     Merged.Country := "Canada";
     Merged.Exports := float_of_Z 100; Merged.Imports := S754_zero false |}.

(** Reports that share one key only. *)
Definition one_sided_exports : list Raw.t :=
  [Raw.mk "2021" "Canada" "1,000"; Raw.mk "2021" "Mexico" "200"].
Definition one_sided_imports : list Raw.t :=
  [Raw.mk "2021" "Canada" "500"; Raw.mk "2022" "Canada" "7"].

(** Exports of two countries, imports of one of them. *)
Definition canada_mexico_exports : list Raw.t :=
  [Raw.mk "2021" "Canada" "100"; Raw.mk "2021" "Mexico" "50"].
Definition mexico_imports : list Raw.t := [Raw.mk "2021" "Mexico" "30"].
Definition canada_zero_imports : list Raw.t :=
  Raw.mk "2021" "Canada" "0" :: mexico_imports.

(** Two tables that give different dates to the same period. *)
Definition dated_by_year : list Norm.t :=
  [Norm.mk "2021" (Some "2021") "2021" "Annual" (Some "00") "Canada"
     (float_of_Z 1)].
Definition dated_by_day : list Norm.t :=
  [Norm.mk "2021" (Some "2021-01-01") "2021" "Annual" (Some "00") "Canada"
     (float_of_Z 2)].

(** Two reports with a label that holds no year, under different first
    labels. *)
Definition exports_with_foo : list Raw.t :=
  [Raw.mk "2021" "Canada" "1"; Raw.mk "foo" "Canada" "2"].
Definition imports_with_foo : list Raw.t :=
  [Raw.mk "2020" "Canada" "3"; Raw.mk "foo" "Canada" "4"].



(** ** The charts (combined.py 64-106) *)

(** A plotted line: its legend label and its points. *)
Module Plot.
Record line : Type := mk { label : string; x : list string; y : list float }.
Record figure : Type := Figure {
  title : string;
  xlabel : string;
  ylabel : string;
  lines : list line;
  axhline : option (float * string)
}.
End Plot.

(** [trade_metrics[trade_metrics['Month'] == 'Annual']] *)
Definition annual_data (trade_metrics : list Fact.t) : list Fact.t :=
  filter (fun r => Fact.Month r =? "Annual") trade_metrics.

(** [Series.unique()]: the values in the order of their first appearance. *)
Fixpoint unique (l : list string) : list string :=
  match l with
  | [] => []
  | v :: l' => v :: filter (fun w => negb (w =? v)) (unique l')
  end.

(** [annual_data[annual_data['Country'] == country]] *)
Definition country_data (annual_data : list Fact.t) (country : string)
  : list Fact.t :=
  filter (fun r => Fact.Country r =? country) annual_data.

(** The loop [for country in annual_data['Country'].unique(): ... plt.plot(
    country_data['Year'], country_data[...], marker='o', label=country)]. *)
Definition plot_by_country (column : Fact.t -> float)
    (annual_data : list Fact.t) : list Plot.line :=
  map (fun country =>
         let country_data := country_data annual_data country in
         Plot.mk country (map Fact.Year country_data)
           (map column country_data))
      (unique (map Fact.Country annual_data)).

(** 1e9 *)
Definition billion : float := float_of_Z 1000000000.

(** The three figures, as they are when [savefig] is called. *)
Definition annual_trade_balance (trade_metrics : list Fact.t) : Plot.figure :=
  {| Plot.title := "Annual Trade Balance by Country";
     Plot.xlabel := "Year";
     Plot.ylabel := "Trade Balance (Billion USD)";
     Plot.lines :=
       plot_by_country (fun r => fdiv (Fact.Trade_Balance r) billion)
         (annual_data trade_metrics);
     Plot.axhline := None |}.

Definition export_import_ratio (trade_metrics : list Fact.t) : Plot.figure :=
  {| Plot.title :=
       "Export-Import Ratio by Country (Values > 1 indicate trade surplus)";
     Plot.xlabel := "Year";
     Plot.ylabel := "Export/Import Ratio";
     Plot.lines :=
       plot_by_country Fact.Export_Import_Ratio (annual_data trade_metrics);
     Plot.axhline :=
       Some (float_of_Z 1, "Balance point (Exports = Imports)") |}.

Definition rca_index (trade_metrics : list Fact.t) : Plot.figure :=
  {| Plot.title := "Revealed Comparative Advantage Index by Country";
     Plot.xlabel := "Year";
     Plot.ylabel := "RCA Index (>1 indicates comparative advantage)";
     Plot.lines := plot_by_country Fact.RCA_Index (annual_data trade_metrics);
     Plot.axhline := Some (float_of_Z 1, "Neutral advantage") |}.

(** The three figures in the order in which combined.py saves them. *)
Definition figures (trade_metrics : list Fact.t)
  : list (string * Plot.figure) :=
  [("plots/annual_trade_balance.png", annual_trade_balance trade_metrics);
   ("plots/export_import_ratio.png", export_import_ratio trade_metrics);
   ("plots/rca_index.png", rca_index trade_metrics)].

(** The points of a line, each with the label of the line. *)
Definition points (l : Plot.line) : list (string * string * float) :=
  map (fun p => (Plot.label l, fst p, snd p)) (combine (Plot.x l) (Plot.y l)).

(** The point that a row of the fact table gives. *)
Definition point_of (column : Fact.t -> float) (r : Fact.t)
  : string * string * float :=
  (Fact.Country r, Fact.Year r, column r).

Definition chart_exports : list Raw.t :=
  [Raw.mk "2020" "Canada" "10"; Raw.mk "2020" "Mexico" "20";
   Raw.mk "May 2020" "China" "5"; Raw.mk "2021" "Canada" "30"].
Definition chart_imports : list Raw.t :=
  [Raw.mk "2020" "Canada" "5"; Raw.mk "2021" "Canada" "15";
   Raw.mk "2021" "Mexico" "4"].

(** ** The reports as labelled columns
    (nafta-exports.py 21-46, nafta-imports.py 19-53) *)

(** A report as [read_csv] gives it: its columns in their order, each with
    its label and its cells, which are text. *)
Definition frame : Type := list (string * list string).

Definition labels (df : frame) : list string := map fst df.

(** [df[label]] *)
Fixpoint getitem (label : string) (df : frame) : result (list string) :=
  match df with
  | [] => Raise (KeyError label)
  | (l, cells) :: df' => if l =? label then Ok cells else getitem label df'
  end.

(** [df.drop(label, axis=1)] *)
Definition drop (label : string) (df : frame) : frame :=
  filter (fun c => negb (fst c =? label)) df.

(** [df.rename(columns={old: new})] *)
Definition rename (old new : string) (df : frame) : frame :=
  map (fun c => (if fst c =? old then new else fst c, snd c)) df.

(** nafta-imports.py 19-25. *)
Definition prepare_imports (imports : frame) : frame :=
  let imports :=
    if existsb (String.eqb "Unnamed: 3") (labels imports)
    then drop "Unnamed: 3" imports
    else imports in
  rename "Customs Value (Gen) ($US)" "Value ($US)" imports.

(** The rows of the table that [df[column_order]] selects. *)
Definition table_rows
    (times : list string) (dates : list (option string))
    (years months : list string) (month_nums : list (option string))
    (countries : list string) (values : list float) : list Norm.t :=
  map (fun '(t, (d, (y, (m, (mn, (c, v)))))) => Norm.mk t d y m mn c v)
    (combine times (combine dates (combine years (combine months
       (combine month_nums (combine countries values)))))).

(** Lines 21-46 of nafta-exports.py (29-53 of nafta-imports.py), column
    by column, in the order in which the script reads the columns. *)
Definition harmonize_frame (df : frame) : result (list Norm.t) :=
  match getitem "Value ($US)" df with
  | Raise e => Raise e
  | Ok cells =>
      match astype_float (map remove_commas cells) with
      | Raise e => Raise e
      | Ok values =>
          match getitem "Time" df with
          | Raise e => Raise e
          | Ok times =>
              let years := map (Year_of (hd "" times)) times in
              let months := map Month_of times in
              let month_nums := map Month_Num_of months in
              let dates :=
                map (fun '(y, (m, mn)) => Date_of y m mn)
                  (combine years (combine months month_nums)) in
              match getitem "Country" df with
              | Raise e => Raise e
              | Ok countries =>
                  Ok (table_rows times dates years months month_nums
                        countries values)
              end
          end
      end
  end.

(** The two preparation scripts on a report. *)
Definition nafta_exports_on (exports : frame) : result (list Norm.t) :=
  harmonize_frame exports.

Definition nafta_imports_on (imports : frame) : result (list Norm.t) :=
  harmonize_frame (prepare_imports imports).





(** ** The catalogue of strategic HTS codes (hts.py) *)

Module Hts.

(** The entry of a category; [codes] is a dict from code to description,
    in the order of insertion. *)
Record info : Type := mk_info {
  description : string;
  trade_impact : string;
  dependency_level : string;
  codes : list (string * string)
}.

(** A row of the reference sheet. *)
Record row : Type := mk_row {
  HTS_Code : string;
  Description : string;
  Category : string;
  Trade_Impact : string;
  Dependency_Level : string;
  Strategic_Note : string
}.

(** The four lists that [create_hts_priority_matrix] fills and draws. *)
Record matrix : Type := mk_matrix {
  categories : list string;
  trade_impacts : list Q;
  dependency_levels : list Q;
  code_counts : list nat
}.

(** What the script writes: the reference sheet, the figure of the
    priority matrix (by the data it draws) and the guide, whose text is a
    constant of the script. *)
Inductive file : Type :=
| Reference (rows : list row)
| Priority_matrix (m : matrix)
| Guide.

Definition files : Type := string -> option file.

End Hts.

(** [define_strategic_hts_codes()], hts.py 16-142. *)
Definition define_strategic_hts_codes : list (string * Hts.info) :=
  [
  ("SEMICONDUCTORS & ELECTRONICS",
   {| Hts.description :=
        "Critical for technology sector, concentrated in Asia";
      Hts.trade_impact := "High - Major driver of China deficit";
      Hts.dependency_level := "Critical";
      Hts.codes :=
       [
        ("8541",
         "Semiconductors, diodes, transistors, photovoltaic cells");
        ("8542",
         "Electronic integrated circuits (microprocessors, memory chips)");
        ("8471",
         "Computers and computer equipment");
        ("8473",
         "Computer parts and accessories");
        ("8517",
         "Telecommunications equipment (phones, networking)");
        ("8528",
         "Reception/transmission apparatus for TV, radio");
        ("9013",
         "Lasers, optical instruments");
        ("8534",
         "Printed circuit boards")] |});
  ("CRITICAL MINERALS & MATERIALS",
   {| Hts.description :=
        "Essential for clean energy, defense, technology";
      Hts.trade_impact := "Medium-High - Strategic vulnerability";
      Hts.dependency_level := "Critical";
      Hts.codes :=
       [
        ("2805",
         "Rare earth metals (lithium, cobalt, etc.)");
        ("2844",
         "Radioactive elements (uranium, thorium)");
        ("7108",
         "Gold and other precious metals");
        ("2603",
         "Copper ores and concentrates");
        ("2607",
         "Lead ores and concentrates");
        ("2608",
         "Zinc ores and concentrates");
        ("8107",
         "Cadmium and articles thereof");
        ("8109",
         "Zirconium and articles thereof");
        ("2825",
         "Hydrazine, hydroxides (battery materials)")] |});
  ("PHARMACEUTICALS & MEDICAL",
   {| Hts.description :=
        "Health security and pharmaceutical dependencies";
      Hts.trade_impact := "Medium-High - Exposed during COVID-19";
      Hts.dependency_level := "High";
      Hts.codes :=
       [
        ("3004",
         "Pharmaceutical products (medicines)");
        ("3002",
         "Human/animal blood, vaccines, toxins");
        ("3006",
         "Pharmaceutical goods (first aid, contraceptives)");
        ("3001",
         "Glands, organs for therapeutic use");
        ("9021",
         "Medical/surgical appliances (pacemakers, hearing aids)");
        ("9018",
         "Medical/surgical instruments");
        ("3822",
         "Diagnostic reagents");
        ("2941",
         "Antibiotics")] |});
  ("ADVANCED MACHINERY & EQUIPMENT",
   {| Hts.description :=
        "Industrial competitiveness and manufacturing capability";
      Hts.trade_impact := "Medium - Manufacturing dependency";
      Hts.dependency_level := "Medium-High";
      Hts.codes :=
       [
        ("8456",
         "Machine tools (laser cutting, 3D printing)");
        ("8477",
         "Injection molding machinery");
        ("8479",
         "Industrial machinery and robots");
        ("8486",
         "Semiconductor manufacturing equipment");
        ("8543",
         "Electrical machines and apparatus");
        ("9031",
         "Measuring/testing instruments");
        ("8428",
         "Lifting/loading machinery");
        ("8441",
         "Paper/textile manufacturing machinery")] |});
  ("ENERGY & BATTERIES",
   {| Hts.description :=
        "Energy transition and storage dependencies";
      Hts.trade_impact := "High - Clean energy transition";
      Hts.dependency_level := "High";
      Hts.codes :=
       [
        ("8507",
         "Electric batteries and storage");
        ("8541",
         "Photovoltaic cells and solar panels");
        ("8502",
         "Electric generators and generating sets");
        ("8503",
         "Parts for electric generators");
        ("2710",
         "Petroleum oils and fuels");
        ("8504",
         "Electrical transformers and converters")] |});
  ("TEXTILES & APPAREL",
   {| Hts.description :=
        "Consumer goods, labor-intensive manufacturing";
      Hts.trade_impact := "High - Large volume, price-sensitive";
      Hts.dependency_level := "Medium";
      Hts.codes :=
       [
        ("6109",
         "T-shirts, singlets, tank tops");
        ("6203",
         "Men's suits, jackets, trousers");
        ("6204",
         "Women's suits, jackets, dresses");
        ("6403",
         "Footwear with rubber/plastic soles");
        ("6402",
         "Other footwear");
        ("6307",
         "Made-up textile articles");
        ("5208",
         "Cotton fabrics");
        ("6302",
         "Bed linen, table linen")] |});
  ("FOOD & AGRICULTURE",
   {| Hts.description :=
        "Food security and seasonal import dependencies";
      Hts.trade_impact := "Medium - Seasonal and specialty items";
      Hts.dependency_level := "Medium";
      Hts.codes :=
       [
        ("0306",
         "Shellfish (shrimp, lobster, crab)");
        ("0303",
         "Frozen fish");
        ("0804",
         "Dates, figs, pineapples, avocados");
        ("0901",
         "Coffee and coffee substitutes");
        ("1701",
         "Cane/beet sugar");
        ("2401",
         "Tobacco and tobacco products");
        ("0713",
         "Dried legumes");
        ("1806",
         "Chocolate and cocoa preparations")] |});
  ("TOYS & CONSUMER GOODS",
   {| Hts.description :=
        "Discretionary consumer spending, manufacturing offshoring";
      Hts.trade_impact := "Medium - Large volume consumer items";
      Hts.dependency_level := "Low-Medium";
      Hts.codes :=
       [
        ("9503",
         "Toys and sporting goods");
        ("9401",
         "Furniture and seating");
        ("6913",
         "Statuettes, ornamental ceramics");
        ("4202",
         "Luggage, handbags, wallets");
        ("9504",
         "Video games and playing cards");
        ("6601",
         "Umbrellas and walking sticks");
        ("9505",
         "Party supplies and decorations")] |})].

(** [s.split(sep)[0]] for a separator that is not empty: [s] up to the
    first occurrence of [sep], all of [s] when it has none. *)
Fixpoint split_head (sep s : string) : string :=
  match s with
  | EmptyString => EmptyString
  | String c s' =>
      if prefix sep s then EmptyString else String c (split_head sep s')
  end.

(** hts.py 157-158; the scores 3, 2.5, 2, 1.5 and 1 as rationals. *)
Definition impact_mapping (k : string) : option Q :=
  if k =? "High" then Some 3%Q
  else if k =? "Medium-High" then Some (5 # 2)%Q
  else if k =? "Medium" then Some 2%Q
  else if k =? "Low-Medium" then Some (3 # 2)%Q
  else if k =? "Low" then Some 1%Q
  else None.

Definition dependency_mapping (k : string) : option Q :=
  if k =? "Critical" then Some 3%Q
  else if k =? "High" then Some (5 # 2)%Q
  else if k =? "Medium-High" then Some 2%Q
  else if k =? "Medium" then Some (3 # 2)%Q
  else if k =? "Low" then Some 1%Q
  else None.

(** [mapping[k]], which raises KeyError at a key that is missing. *)
Definition lookup (mapping : string -> option Q) (k : string) : result Q :=
  match mapping k with
  | Some v => Ok v
  | None => Raise (KeyError k)
  end.

(** The body of the loop of lines 160-164 at one category. *)
Definition append_category (m : Hts.matrix) (entry : string * Hts.info)
  : result Hts.matrix :=
  let (category, info) := entry in
  match lookup impact_mapping (split_head " - " (Hts.trade_impact info)) with
  | Raise e => Raise e
  | Ok impact =>
      match lookup dependency_mapping (Hts.dependency_level info) with
      | Raise e => Raise e
      | Ok dependency =>
          Ok {| Hts.categories := (Hts.categories m ++ [category])%list;
                Hts.trade_impacts := (Hts.trade_impacts m ++ [impact])%list;
                Hts.dependency_levels :=
                  (Hts.dependency_levels m ++ [dependency])%list;
                Hts.code_counts :=
                  (Hts.code_counts m
                   ++ [List.length (Hts.codes info)])%list |}
      end
  end.

(** The loop of lines 160-164. *)
Fixpoint fill_matrix (m : Hts.matrix)
    (strategic_codes : list (string * Hts.info)) : result Hts.matrix :=
  match strategic_codes with
  | [] => Ok m
  | entry :: rest =>
      match append_category m entry with
      | Raise e => Raise e
      | Ok m' => fill_matrix m' rest
      end
  end.

(** Lines 152-164 on a catalogue. *)
Definition priority_matrix (strategic_codes : list (string * Hts.info))
  : result Hts.matrix :=
  fill_matrix (Hts.mk_matrix [] [] [] []) strategic_codes.

(** Lines 451-461 on a catalogue. *)
Definition reference_data (strategic_codes : list (string * Hts.info))
  : list Hts.row :=
  flat_map
    (fun entry : string * Hts.info =>
       let (category, info) := entry in
       map (fun item : string * string =>
              let (code, description) := item in
              {| Hts.HTS_Code := code;
                 Hts.Description := description;
                 Hts.Category := category;
                 Hts.Trade_Impact := Hts.trade_impact info;
                 Hts.Dependency_Level := Hts.dependency_level info;
                 Hts.Strategic_Note := Hts.description info |})
           (Hts.codes info))
    strategic_codes.

Definition reference_path : string :=
  "/tmp/outputs/strategic_hts_codes_reference.csv".
Definition priority_matrix_path : string :=
  "/tmp/outputs/strategic_hts_priority_matrix.png".
Definition guide_path : string := "/tmp/outputs/hts_implementation_guide.md".

Definition write (path : string) (f : Hts.file) (fs : Hts.files) : Hts.files :=
  fun p => if p =? path then Some f else fs p.

(** The three steps of the script; each reads the catalogue anew. *)
Definition create_hts_code_reference (fs : Hts.files)
  : result unit * Hts.files :=
  (Ok tt,
   write reference_path
     (Hts.Reference (reference_data define_strategic_hts_codes)) fs).

Definition create_hts_priority_matrix (fs : Hts.files)
  : result unit * Hts.files :=
  match priority_matrix define_strategic_hts_codes with
  | Raise e => (Raise e, fs)
  | Ok m => (Ok tt, write priority_matrix_path (Hts.Priority_matrix m) fs)
  end.

Definition create_implementation_guide (fs : Hts.files)
  : result unit * Hts.files :=
  (Ok tt, write guide_path Hts.Guide fs).

(** [main()], hts.py 490-511. *)
Definition main (fs : Hts.files) : result unit * Hts.files :=
  match create_hts_code_reference fs with
  | (Raise e, fs) => (Raise e, fs)
  | (Ok _, fs) =>
      match create_hts_priority_matrix fs with
      | (Raise e, fs) => (Raise e, fs)
      | (Ok _, fs) => create_implementation_guide fs
      end
  end.

(** The categories that list a code. *)
Definition listing (code : string)
    (strategic_codes : list (string * Hts.info)) : list (string * Hts.info) :=
  filter (fun entry =>
            existsb (String.eqb code) (map fst (Hts.codes (snd entry))))
    strategic_codes.

(** A category whose two levels are keys of the mappings. *)
Definition known_levels (entry : string * Hts.info) : Prop :=
  impact_mapping (split_head " - " (Hts.trade_impact (snd entry))) <> None
  /\ dependency_mapping (Hts.dependency_level (snd entry)) <> None.

(** The key at which a category that is not [known_levels] raises. *)
Definition unknown_level (entry : string * Hts.info) : string :=
  let impact := split_head " - " (Hts.trade_impact (snd entry)) in
  match impact_mapping impact with
  | None => impact
  | Some _ => Hts.dependency_level (snd entry)
  end.

Definition inside_the_axes (x : Q) : Prop := (1 <= x /\ x <= 3)%Q.

Definition two_known_categories : list (string * Hts.info) :=
  firstn 2 define_strategic_hts_codes.

(** ** Vocabulary of the further statements *)

(** The text that one atom consumes. *)
Definition accepts (a : atom) (seg : string) : Prop :=
  match a with
  | Exactly n cls => String.length seg = n /\ all_in cls seg = true
  | OneOrMore cls => run_of cls seg
  end.

Definition concat_all (segs : list string) : string :=
  fold_right append "" segs.

(** The label holds four digits in a row. *)
Definition has_four_digits (t : string) : Prop :=
  exists a y b, t = a ++ y ++ b /\ four_digits y.

(** The label holds a whitespace character. *)
Definition no_space (t : string) : bool :=
  all_in (fun c => negb (is_space c)) t.

Definition report_with_plain_label : list Raw.t :=
  [Raw.mk "FY 12345/2021" "Canada" "1"; Raw.mk "to date" "Mexico" "2"].

Definition report_without_space : list Raw.t :=
  [Raw.mk "March2021" "Canada" "1"; Raw.mk "Q1 2021" "Mexico" "2"].

(** The ordinals of the month table. *)
Definition ordinals : list string :=
  ["00"; "01"; "02"; "03"; "04"; "05"; "06"; "07"; "08"; "09"; "10"; "11";
   "12"].

Definition report_of_three_kinds : list Raw.t :=
  [Raw.mk "2021" "Canada" "1"; Raw.mk "May 2021" "Canada" "2";
   Raw.mk "Blah 2021" "Canada" "3"].


(** The number that the digits of a text spell, whatever stands between
    the digits. *)
Fixpoint decimal_from (acc : N) (s : string) : N :=
  match s with
  | EmptyString => acc
  | String c s' =>
      if is_digit c then decimal_from (10 * acc + digit_val c)%N s'
      else decimal_from acc s'
  end.

Definition decimal_value (s : string) : N := decimal_from 0 s.

Definition digit_or_comma (c : ascii) : bool :=
  (is_digit c || (c =? ",")%char)%bool.

Definition is_zero (x : float) : bool :=
  match x with S754_zero _ => true | _ => false end.

Definition is_infinite (x : float) : bool :=
  match x with S754_infinity _ => true | _ => false end.

Definition zero_zero_exports : list Raw.t :=
  [Raw.mk "2021" "Canada" "0"; Raw.mk "2021" "Mexico" "1e308"].
Definition zero_zero_imports : list Raw.t :=
  [Raw.mk "2021" "Canada" "0"; Raw.mk "2021" "Mexico" "-1e308"].

Definition balanced_report : list Raw.t :=
  [Raw.mk "2021" "Canada" "1,234,567.89"].

(** The number of joined rows of a key that the left side has [l] times
    and the right side [r] times. *)
Definition rows_per_key (l r : nat) : nat :=
  match l, r with
  | O, _ => r
  | _, O => l
  | _, _ => l * r
  end.

Definition twice_canada : list Raw.t :=
  [Raw.mk "2021" "Canada" "1"; Raw.mk "2021" "Canada" "2"].
Definition thrice_canada : list Raw.t :=
  [Raw.mk "2021" "Canada" "10"; Raw.mk "2021" "Canada" "20";
   Raw.mk "2021" "Canada" "30"].

(** The opposite of a float. *)
Definition fneg : float -> float := SFopp.

(** A text that does not begin with a blank or a sign. *)
Definition unsigned (s : string) : bool :=
  match s with
  | EmptyString => true
  | String c _ =>
      negb (is_float_space c || (c =? "-")%char || (c =? "+")%char)
  end.

(** ** The types of the columns of a report
    (line 11 of nafta-exports.py and of nafta-imports.py)

    [pd.read_csv(input_path)] is called without [dtype]: it gives a column
    the type int64 or float64 when all its cells are numbers and the type
    object (text) otherwise, and [Series.str] exists on a text column
    only.  The inference is a parameter of the definitions below; the
    statements use of it that a column of whole numbers is int64. *)

Inductive dtype : Type := int64 | float64 | object.

(** [Series.str] on a column of the type [d]. *)
Definition str_accessor (d : dtype) : result unit :=
  match d with
  | object => Ok tt
  | int64 | float64 =>
      Raise (AttributeError "Can only use .str accessor with string values!")
  end.

(** [df[label].str]: the cells of the column, when it is a text column. *)
Definition str_column (infer : list string -> dtype) (label : string)
    (df : frame) : result (list string) :=
  match getitem label df with
  | Raise e => Raise e
  | Ok cells =>
      match str_accessor (infer cells) with
      | Raise e => Raise e
      | Ok _ => Ok cells
      end
  end.

(** Lines 21-46 of nafta-exports.py (29-53 of nafta-imports.py) on a
    report as it is read: [.str.replace] on the Value column, then
    [astype(float)], then [.str.extract] on the Time column, and from
    there as on text columns. *)
Definition harmonize_read (infer : list string -> dtype) (df : frame)
  : result (list Norm.t) :=
  match str_column infer "Value ($US)" df with
  | Raise e => Raise e
  | Ok cells =>
      match astype_float (map remove_commas cells) with
      | Raise e => Raise e
      | Ok _ =>
          match str_column infer "Time" df with
          | Raise e => Raise e
          | Ok _ => harmonize_frame df
          end
      end
  end.

(** The two preparation scripts on the report that they read. *)
Definition nafta_exports_read (infer : list string -> dtype)
    (exports : frame) : result (list Norm.t) :=
  harmonize_read infer exports.

Definition nafta_imports_read (infer : list string -> dtype)
    (imports : frame) : result (list Norm.t) :=
  harmonize_read infer (prepare_imports imports).

(** A cell that is a whole number within int64, written with digits
    only. *)
Definition whole_number (c : string) : bool :=
  (negb (c =? "") && all_in is_digit c
   && (decimal_value c <? 2 ^ 63)%N)%bool.

(** The inference gives a column of whole numbers the type int64. *)
Definition whole_numbers_are_int64 (infer : list string -> dtype) : Prop :=
  forall cells,
    cells <> [] -> forallb whole_number cells = true -> infer cells = int64.

(** An inference with that property, which takes every other column for
    text. *)
Definition infer_whole_numbers (cells : list string) : dtype :=
  match cells with
  | [] => object
  | _ :: _ => if forallb whole_number cells then int64 else object
  end.

(** The files of the end-to-end scenario of the specification. *)
Definition scenario_exports_file : frame :=
  [("Time", ["2021"]); ("Country", ["Canada"]); ("Value ($US)", ["1,000"])].
Definition scenario_imports_file : frame :=
  [("Time", ["2021"]); ("Country", ["Canada"]);
   ("Customs Value (Gen) ($US)", ["500"])].

(** * Properties *)

(** ** The primitives on concrete inputs *)

(** The matcher follows [re.search]: leftmost match, greedy repetition. *)
Example extract_examples :
  str_extract month_pattern "March 2021" = Some "March"
  /\ str_extract month_pattern "Q1   2021 March 1999" = Some "Q1"
  /\ str_extract month_pattern "a b 20211" = Some "b"
  /\ str_extract month_pattern "ab12345 x" = None
  /\ str_extract month_pattern "2021" = None
  /\ str_extract year_pattern "ab12345 x" = Some "1234"
  /\ str_extract year_pattern "March 2021" = Some "2021"
  /\ str_extract year_pattern "foo" = None.
Proof. repeat split. Qed.

(** [float]: correct rounding, ties to even, subnormals, overflow, and the
    texts that are no float literals. *)
Example float_of_string_examples :
  float_of_string "0.1" = Some (S754_finite false 7205759403792794 (-56))
  /\ float_of_string "1e23" = Some (S754_finite false 5960464477539062 24)
  /\ float_of_string "9007199254740993"
     = Some (S754_finite false 4503599627370496 1)
  /\ float_of_string "2.5e-324" = Some (S754_finite false 1 (-1074))
  /\ float_of_string "1e400" = Some (S754_infinity false)
  /\ float_of_string "-0" = Some (S754_zero true)
  /\ float_of_string " 12 " = Some (float_of_Z 12)
  /\ float_of_string "1_000" = Some (float_of_Z 1000)
  /\ float_of_string "1.5E+2" = Some (float_of_Z 150)
  /\ float_of_string "-Infinity" = Some (S754_infinity true)
  /\ float_of_string "NaN" = Some nan
  /\ float_of_string "" = None
  /\ float_of_string "." = None
  /\ float_of_string "1__0" = None
  /\ float_of_string "1e" = None
  /\ float_of_string "1 2" = None
  /\ float_of_string "0x10" = None.
Proof. vm_compute. repeat split. Qed.

(** The year of a label without four digits is filled from the first row
    of the report. *)
Example year_fallback_example :
  map Norm.Year (harmonized exports_with_foo) = ["2021"; "2021"]
  /\ map Norm.Year (harmonized imports_with_foo) = ["2020"; "2020"].
Proof. vm_compute. split; reflexivity. Qed.

(** The outer join lists the keys in order and pairs the sides. *)
Example merge_outer_example :
  map (fun m => (Merged.Time m, Merged.Country m,
                 present (Merged.Exports m), present (Merged.Imports m)))
    (merged_of (harmonized one_sided_exports) (harmonized one_sided_imports))
  = [("2021", "Canada", true, true); ("2021", "Mexico", true, false);
     ("2022", "Canada", false, true)].
Proof. vm_compute. reflexivity. Qed.

(** The grouped sum skips the missing values and is 0 on none; it is
    compensated: 2^53 + 1 + 1 is 2^53 + 2, where adding one value after
    the other with rounding gives 2^53. *)
Example nansum_examples :
  nansum [float_of_Z 1; nan; float_of_Z 2] = float_of_Z 3
  /\ nansum [nan; nan] = S754_zero false
  /\ nansum [] = S754_zero false
  /\ nansum [float_of_Z (2 ^ 53); float_of_Z 1; float_of_Z 1]
     = float_of_Z (2 ^ 53 + 2)
  /\ fadd (fadd (float_of_Z (2 ^ 53)) (float_of_Z 1)) (float_of_Z 1)
     = float_of_Z (2 ^ 53)
  /\ nansum [S754_infinity false; float_of_Z 1] = S754_infinity false.
Proof. vm_compute. repeat split. Qed.

(** ** Character classes *)

Lemma digit_is_word c : is_digit c = true -> is_word c = true.
Proof.
  destruct c as [[] [] [] [] [] [] [] []]; vm_compute; congruence.
Qed.

Lemma digit_not_space c : is_digit c = true -> is_space c = false.
Proof.
  destruct c as [[] [] [] [] [] [] [] []]; vm_compute; congruence.
Qed.

Lemma space_not_word c : is_space c = true -> is_word c = false.
Proof.
  destruct c as [[] [] [] [] [] [] [] []]; vm_compute; congruence.
Qed.

Lemma substring_prefix (w r : string) :
  substring 0 (String.length w) (w ++ r) = w.
Proof.
  induction w as [|c w IH]; simpl.
  - now destruct r.
  - now rewrite IH.
Qed.

Lemma take_class_run cls (y r : string) :
  all_in cls y = true -> take_class (String.length y) cls (y ++ r) = Some r.
Proof.
  induction y as [|c y IH]; simpl; intros H; [reflexivity|].
  apply andb_prop in H as [-> H]. now apply IH.
Qed.

Lemma match_digits (y r : string) :
  four_digits y -> match_here [Exactly 4 is_digit] (y ++ r) = Some [4%nat].
Proof.
  intros [Hl Hd]. cbn [match_here]. rewrite <- Hl at 1.
  now rewrite take_class_run.
Qed.

Lemma four_digits_head (y r : string) :
  four_digits y -> exists c y', y = String c y' /\ is_digit c = true.
Proof.
  intros [Hl Hd]. destruct y as [|c y']; [discriminate|].
  simpl in Hd. apply andb_prop in Hd as [Hc _]. now exists c, y'.
Qed.

(** The tail [\s+\d{4}] over a run of whitespace and a year. *)
Lemma match_spaces_digits (sp y r : string) :
  run_of is_space sp -> four_digits y ->
  match_here [OneOrMore is_space; Exactly 4 is_digit] (sp ++ y ++ r)
  = Some [String.length sp; 4%nat].
Proof.
  intros [Hne Hsp] Hy. induction sp as [|c sp IH]; [congruence|].
  simpl in Hsp. apply andb_prop in Hsp as [Hc Hsp].
  change (match_here [OneOrMore is_space; Exactly 4 is_digit]
            (String c sp ++ y ++ r))
    with (if is_space c then
            match match_here [OneOrMore is_space; Exactly 4 is_digit]
                    (sp ++ y ++ r) with
            | Some (k :: ks) => Some (S k :: ks)
            | _ => option_map (cons 1%nat)
                     (match_here [Exactly 4 is_digit] (sp ++ y ++ r))
            end
          else None).
  rewrite Hc. destruct sp as [|c' sp'].
  - change ("" ++ y ++ r) with (y ++ r).
    destruct (four_digits_head y r Hy) as (d & y' & -> & Hd).
    change (match_here [OneOrMore is_space; Exactly 4 is_digit]
              (String d y' ++ r))
      with (if is_space d then
              match match_here [OneOrMore is_space; Exactly 4 is_digit]
                      (y' ++ r) with
              | Some (k :: ks) => Some (S k :: ks)
              | _ => option_map (cons 1%nat)
                       (match_here [Exactly 4 is_digit] (y' ++ r))
              end
            else None).
    rewrite (digit_not_space d Hd).
    change (String d (y' ++ r)) with (String d y' ++ r).
    now rewrite (match_digits _ r Hy).
  - rewrite IH; [reflexivity | discriminate | assumption].
Qed.

(** The whole month pattern over a word, whitespace and a year. *)
Lemma match_word_spaces_digits (w sp y r : string) :
  run_of is_word w -> run_of is_space sp -> four_digits y ->
  match_here [OneOrMore is_word; OneOrMore is_space; Exactly 4 is_digit]
    (w ++ sp ++ y ++ r)
  = Some [String.length w; String.length sp; 4%nat].
Proof.
  intros [Hne Hw] Hsp Hy. induction w as [|c w IH]; [congruence|].
  simpl in Hw. apply andb_prop in Hw as [Hc Hw].
  change (match_here [OneOrMore is_word; OneOrMore is_space; Exactly 4 is_digit]
            (String c w ++ sp ++ y ++ r))
    with (if is_word c then
            match match_here
                    [OneOrMore is_word; OneOrMore is_space; Exactly 4 is_digit]
                    (w ++ sp ++ y ++ r) with
            | Some (k :: ks) => Some (S k :: ks)
            | _ => option_map (cons 1%nat)
                     (match_here [OneOrMore is_space; Exactly 4 is_digit]
                        (w ++ sp ++ y ++ r))
            end
          else None).
  rewrite Hc. destruct w as [|c' w'].
  - change ("" ++ sp ++ y ++ r) with (sp ++ y ++ r).
    rewrite (match_spaces_digits sp y r Hsp Hy).
    destruct Hsp as [Hsne Hsall]. destruct sp as [|s sp']; [congruence|].
    simpl in Hsall. apply andb_prop in Hsall as [Hs _].
    change (match_here
              [OneOrMore is_word; OneOrMore is_space; Exactly 4 is_digit]
              (String s sp' ++ y ++ r))
      with (if is_word s then
              match match_here
                      [OneOrMore is_word; OneOrMore is_space; Exactly 4 is_digit]
                      (sp' ++ y ++ r) with
              | Some (k :: ks) => Some (S k :: ks)
              | _ => option_map (cons 1%nat)
                       (match_here [OneOrMore is_space; Exactly 4 is_digit]
                          (sp' ++ y ++ r))
              end
            else None).
    now rewrite (space_not_word s Hs).
  - rewrite IH; [reflexivity | discriminate | assumption].
Qed.

Lemma search_unfold (p : pattern) (s : string) :
  search p s =
  match match_group p s with
  | Some g => Some g
  | None =>
      match s with
      | EmptyString => None
      | String _ s' => search p s'
      end
  end.
Proof. now destruct s. Qed.

Lemma extract_month_word (w sp y r : string) :
  run_of is_word w -> run_of is_space sp -> four_digits y ->
  str_extract month_pattern (w ++ sp ++ y ++ r) = Some w.
Proof.
  intros Hw Hsp Hy. unfold str_extract.
  assert (E : match_group month_pattern (w ++ sp ++ y ++ r) = Some w).
  { unfold match_group. cbn [group tail month_pattern app].
    rewrite (match_word_spaces_digits w sp y r Hw Hsp Hy).
    cbn [List.length firstn list_sum fold_right]. rewrite Nat.add_0_r.
    now rewrite substring_prefix. }
  now rewrite search_unfold, E.
Qed.

Lemma match_group_year_digits (y r : string) :
  four_digits y -> match_group year_pattern (y ++ r) = Some y.
Proof.
  intros Hy. unfold match_group. cbn [group tail year_pattern app].
  rewrite (match_digits y r Hy). cbn [List.length firstn list_sum fold_right].
  destruct Hy as [Hl _]. change (4 + 0)%nat with 4%nat. rewrite <- Hl.
  now rewrite substring_prefix.
Qed.

(** The year pattern finds the first run of four digits: after a prefix
    without any digit it is the year that follows. *)
Lemma extract_year_after (u y r : string) :
  all_in (fun c => negb (is_digit c)) u = true -> four_digits y ->
  str_extract year_pattern (u ++ y ++ r) = Some y.
Proof.
  intros Hu Hy. unfold str_extract. induction u as [|c u IH].
  - change ("" ++ y ++ r) with (y ++ r).
    now rewrite search_unfold, (match_group_year_digits y r Hy).
  - simpl in Hu. apply andb_prop in Hu as [Hc Hu].
    apply negb_true_iff in Hc.
    rewrite search_unfold.
    change (String c u ++ y ++ r) with (String c (u ++ y ++ r)).
    unfold match_group at 1.
    cbn [group tail year_pattern app match_here take_class].
    rewrite Hc. now apply IH.
Qed.

Lemma extract_month_bare_year (y : string) :
  four_digits y -> str_extract month_pattern y = None.
Proof.
  intros [Hl Hd].
  destruct y as [|a [|b [|c [|d [|e y]]]]]; try discriminate.
  simpl in Hd.
  repeat (apply andb_prop in Hd as [? Hd]).
  unfold str_extract.
  repeat (rewrite search_unfold; unfold match_group at 1;
          cbn [group tail month_pattern app match_here take_class];
          rewrite ?digit_is_word, ?digit_not_space by assumption;
          cbn [option_map]).
  reflexivity.
Qed.

Lemma append_empty_r (s : string) : s ++ "" = s.
Proof. induction s as [|c s IH]; simpl; congruence. Qed.

Lemma append_assoc (a b c : string) : (a ++ b) ++ c = a ++ b ++ c.
Proof. induction a as [|x a IH]; simpl; congruence. Qed.

Lemma all_in_app cls (a b : string) :
  all_in cls (a ++ b) = (all_in cls a && all_in cls b)%bool.
Proof.
  induction a as [|x a IH]; simpl; [reflexivity|].
  now rewrite IH, andb_assoc.
Qed.

Lemma all_in_weaken (P Q : ascii -> bool) (s : string) :
  (forall c, P c = true -> Q c = true) ->
  all_in P s = true -> all_in Q s = true.
Proof.
  intros HPQ. induction s as [|c s IH]; simpl; [reflexivity|].
  intros H. apply andb_prop in H as [Hc Hs].
  now rewrite (HPQ c Hc), IH.
Qed.

(** ** The period normaliser on "<word> <year>" and on a bare year *)

Lemma Month_of_word (w sp y r : string) :
  run_of is_word w -> run_of is_space sp -> four_digits y ->
  Month_of (w ++ sp ++ y ++ r) = w.
Proof.
  intros Hw Hsp Hy. unfold Month_of.
  now rewrite (extract_month_word w sp y r Hw Hsp Hy).
Qed.

Lemma Year_of_word (t0 w sp y : string) :
  no_digit w = true -> run_of is_space sp -> four_digits y ->
  Year_of t0 (w ++ sp ++ y) = y.
Proof.
  intros Hw [_ Hsp] Hy. unfold Year_of.
  replace (w ++ sp ++ y) with ((w ++ sp) ++ y ++ "")
    by now rewrite append_empty_r, append_assoc.
  rewrite extract_year_after; [reflexivity | | assumption].
  rewrite all_in_app. unfold no_digit in Hw. rewrite Hw. simpl.
  apply (all_in_weaken is_space); [|assumption].
  intros c Hc. apply negb_true_iff.
  destruct (is_digit c) eqn:E; [|reflexivity].
  apply digit_not_space in E. congruence.
Qed.

Lemma normalized_row_word (t0 w sp y c raw : string) (v : float) :
  run_of is_word w -> no_digit w = true ->
  run_of is_space sp -> four_digits y ->
  normalized_row t0 (Raw.mk (w ++ sp ++ y) c raw) v =
  {| Norm.Time := w ++ sp ++ y;
     Norm.Date := Date_of y w (month_map w);
     Norm.Year := y;
     Norm.Month := w;
     Norm.Month_Num := month_map w;
     Norm.Country := c;
     Norm.Value := v |}.
Proof.
  intros Hw Hnd Hsp Hy. unfold normalized_row. cbn [Raw.Time Raw.Country].
  rewrite (Year_of_word t0 w sp y Hnd Hsp Hy).
  assert (E : Month_of (w ++ sp ++ y) = w).
  { replace (w ++ sp ++ y) with (w ++ sp ++ y ++ "")
      by now rewrite append_empty_r.
    now apply Month_of_word. }
  now rewrite E.
Qed.

Lemma normalized_row_bare_year (t0 y c raw : string) (v : float) :
  four_digits y ->
  normalized_row t0 (Raw.mk y c raw) v =
  {| Norm.Time := y;
     Norm.Date := Some y;
     Norm.Year := y;
     Norm.Month := "Annual";
     Norm.Month_Num := Some "00";
     Norm.Country := c;
     Norm.Value := v |}.
Proof.
  intros Hy. unfold normalized_row, Year_of, Month_of.
  cbn [Raw.Time Raw.Country].
  rewrite (extract_month_bare_year y Hy).
  assert (E : str_extract year_pattern y = Some y).
  { replace y with ("" ++ y ++ "") at 1 by (simpl; apply append_empty_r).
    apply (extract_year_after "" y ""); [reflexivity | assumption]. }
  rewrite E. reflexivity.
Qed.

Ltac each_month H :=
  repeat (destruct H as [H | H]; [injection H as <- <- |]); [.. | destruct H].

(** C8.  For every label "<Month> <Year>" made of a month name of the
    calendar table, a space and a four-digit year, the normalised row has
    that month as Month, the table entry of the month ("01" to "12") as
    Month_Num, the year as Year and "<Year>-<Month_Num>-01" as Date.  For
    every label that is a bare four-digit year, Month is "Annual",
    Month_Num is "00", and Year and Date are the label. *)
Theorem period_normalizer_well_formed_labels :
  (forall (t0 m ord y c raw : string) (v : float),
      In (m, ord) calendar_table -> four_digits y ->
      normalized_row t0 (Raw.mk (m ++ " " ++ y) c raw) v =
      {| Norm.Time := m ++ " " ++ y;
         Norm.Date := Some (y ++ "-" ++ ord ++ "-01");
         Norm.Year := y;
         Norm.Month := m;
         Norm.Month_Num := Some ord;
         Norm.Country := c;
         Norm.Value := v |})
  /\
  (forall (t0 y c raw : string) (v : float),
      four_digits y ->
      normalized_row t0 (Raw.mk y c raw) v =
      {| Norm.Time := y;
         Norm.Date := Some y;
         Norm.Year := y;
         Norm.Month := "Annual";
         Norm.Month_Num := Some "00";
         Norm.Country := c;
         Norm.Value := v |}).
Proof.
  split.
  - intros t0 m ord y c raw v Hin Hy.
    assert (Hsp : run_of is_space " ") by (split; [discriminate | reflexivity]).
    unfold calendar_table in Hin.
    each_month Hin;
      (rewrite normalized_row_word;
       [reflexivity | split; [discriminate | reflexivity] | reflexivity
       | exact Hsp | exact Hy]).
  - intros t0 y c raw v Hy. now apply normalized_row_bare_year.
Qed.

Lemma four_digits_2021 : four_digits "2021".
Proof. split; reflexivity. Qed.

(** At "March 2021" and "2021". *)
Lemma period_normalizer_well_formed_labels_witness :
  normalized_row "March 2021"
    (Raw.mk ("March" ++ " " ++ "2021") "Canada" "1,000") (float_of_Z 1000) =
  {| Norm.Time := "March 2021"; Norm.Date := Some "2021-03-01";
     Norm.Year := "2021"; Norm.Month := "March"; Norm.Month_Num := Some "03";
     Norm.Country := "Canada"; Norm.Value := float_of_Z 1000 |}
  /\
  normalized_row "March 2021" (Raw.mk "2021" "Canada" "1,000")
    (float_of_Z 1000) =
  {| Norm.Time := "2021"; Norm.Date := Some "2021";
     Norm.Year := "2021"; Norm.Month := "Annual"; Norm.Month_Num := Some "00";
     Norm.Country := "Canada"; Norm.Value := float_of_Z 1000 |}.
Proof.
  split.
  - apply (proj1 period_normalizer_well_formed_labels
             "March 2021" "March" "03" "2021" "Canada" "1,000").
    + simpl. tauto.
    + exact four_digits_2021.
  - apply (proj2 period_normalizer_well_formed_labels
             "March 2021" "2021" "Canada" "1,000").
    exact four_digits_2021.
Defined.

(** ** The harmoniser *)



Lemma astype_float_inv (col : list string) (xs : list float) :
  astype_float col = Ok xs -> map float_of_string col = map Some xs.
Proof.
  revert xs. induction col as [|v col IH]; simpl; intros xs H.
  - now injection H as <-.
  - destruct (float_of_string v) as [x|]; [|discriminate].
    destruct (astype_float col) as [ys|]; [|discriminate].
    injection H as <-. simpl. now rewrite (IH ys).
Qed.

(** What a successful harmonisation returns: row by row, the normalised
    row of the raw row with its cleaned value. *)
Lemma harmonize_inv (df : list Raw.t) (rows : list Norm.t) :
  harmonize df = Ok rows ->
  Forall2 (fun raw r =>
             exists v, clean_value (Raw.Value raw) = Some v
                       /\ r = normalized_row (time0 df) raw v) df rows.
Proof.
  unfold harmonize. generalize (time0 df) as t0. intros t0.
  destruct (astype_float _) as [xs|] eqn:E; [|discriminate].
  intros H. injection H as <-. apply astype_float_inv in E.
  revert xs E. induction df as [|raw df IH]; intros [|x xs] E;
    simpl in *; try discriminate; constructor.
  - exists x. split; [|reflexivity]. unfold clean_value. now injection E.
  - apply IH. now injection E.
Qed.



Lemma month_map_Annual (m : string) : month_map m = None -> m <> "Annual".
Proof. intros H ->. discriminate. Qed.

Lemma Date_of_unmapped (y m : string) :
  month_map m = None -> Date_of y m (month_map m) = None.
Proof.
  intros H. unfold Date_of. rewrite H.
  destruct (String.eqb_spec m "Annual") as [E|_]; [|reflexivity].
  now apply month_map_Annual in H.
Qed.




(** C3, as the code has it.  For every label made of a leading word,
    whitespace and a four-digit year, Month is that leading word, whatever
    the word is, and Month_Num is its entry in the month table; the Year is
    the four digits when the word holds no digit.  When the word is outside
    the table, Month is not "Annual" and Month_Num and Date are missing. *)
Theorem leading_token_is_the_month
    (t0 w sp y c raw : string) (v : float) :
  run_of is_word w -> run_of is_space sp -> four_digits y ->
  let r := normalized_row t0 (Raw.mk (w ++ sp ++ y) c raw) v in
  Norm.Month r = w
  /\ Norm.Month_Num r = month_map w
  /\ (no_digit w = true -> Norm.Year r = y)
  /\ (month_map w = None ->
      Norm.Month r <> "Annual" /\ Norm.Month_Num r = None
      /\ Norm.Date r = None).
Proof.
  intros Hw Hsp Hy r. subst r. unfold normalized_row.
  cbn [Raw.Time Raw.Country Norm.Month Norm.Month_Num Norm.Year Norm.Date].
  assert (E : Month_of (w ++ sp ++ y) = w).
  { replace (w ++ sp ++ y) with (w ++ sp ++ y ++ "")
      by now rewrite append_empty_r.
    now apply Month_of_word. }
  rewrite E. unfold Month_Num_of.
  split; [reflexivity|]. split; [reflexivity|].
  split; [intros Hnd; now apply Year_of_word|].
  intros Hm. split; [now apply month_map_Annual|].
  split; [exact Hm | now apply Date_of_unmapped].
Qed.

(** At "Blah 2021". *)
Lemma leading_token_is_the_month_witness :
  let r := normalized_row "Blah 2021"
             (Raw.mk ("Blah" ++ " " ++ "2021") "Canada" "1,000")
             (float_of_Z 1000) in
  Norm.Month r = "Blah"
  /\ Norm.Month_Num r = month_map "Blah"
  /\ (no_digit "Blah" = true -> Norm.Year r = "2021")
  /\ (month_map "Blah" = None ->
      Norm.Month r <> "Annual" /\ Norm.Month_Num r = None
      /\ Norm.Date r = None).
Proof.
  apply (leading_token_is_the_month "Blah 2021" "Blah" " " "2021").
  - split; [discriminate | reflexivity].
  - split; [discriminate | reflexivity].
  - exact four_digits_2021.
Defined.

(** C3 as the specification states it fails at "Blah 2021": the month is
    "Blah", not "Annual", and the Date is missing where the bare label
    "2021" has the Date "2021". *)
Lemma blah_2021_counterexample :
  Month_of "Blah 2021" = "Blah"
  /\ Month_of "Blah 2021" <> "Annual"
  /\ Month_of "2021" = "Annual"
  /\ Norm.Date (normalized_row "Blah 2021" (Raw.mk "Blah 2021" "Canada" "1") (float_of_Z 1))
     <> Norm.Date (normalized_row "2021" (Raw.mk "2021" "Canada" "1") (float_of_Z 1)).
Proof.
  split; [reflexivity|]. split; [vm_compute; discriminate|].
  split; [reflexivity|]. vm_compute. discriminate.
Qed.

(** ** Value cleaning *)

Lemma remove_commas_app (a b : string) :
  remove_commas (a ++ b) = remove_commas a ++ remove_commas b.
Proof.
  induction a as [|c a IH]; simpl; [reflexivity|].
  destruct (c =? ",")%char; simpl; congruence.
Qed.

Lemma remove_commas_no_comma (s : string) :
  all_in (fun c => negb (c =? ",")%char) (remove_commas s) = true.
Proof.
  induction s as [|c s IH]; simpl; [reflexivity|].
  destruct (c =? ",")%char eqn:E; simpl; [assumption|].
  now rewrite E, IH.
Qed.

(** C9.  The value cleaning removes every comma, wherever it stands,
    before the conversion to float, and checks no grouping: a comma put
    anywhere in a cell does not change the result, the text that is
    converted holds no comma, "12,34" gives 1234.0 and ",5," gives 5.0. *)
Theorem commas_are_removed_wherever_they_stand :
  (forall s1 s2 : string,
      clean_value (s1 ++ "," ++ s2) = clean_value (s1 ++ s2))
  /\ (forall s : string,
         all_in (fun c => negb (c =? ",")%char) (remove_commas s) = true
         /\ clean_value s = float_of_string (remove_commas s))
  /\ clean_value "12,34" = Some (float_of_Z 1234)
  /\ clean_value ",5," = Some (float_of_Z 5)
  /\ clean_value "1,2,3,4" = clean_value "1234".
Proof.
  split; [|split; [|split; [|split]]]; try (vm_compute; reflexivity).
  - intros s1 s2. unfold clean_value.
    now rewrite !remove_commas_app.
  - intros s. split; [apply remove_commas_no_comma | reflexivity].
Qed.

(** ** The scripts stop at a Value cell that is not a float literal *)





(** ** The engine: structure of the output *)

Lemma calculate_trade_metrics_eq (e i : list Norm.t) :
  calculate_trade_metrics e i = map (metrics (merged_of e i)) (merged_of e i).
Proof. reflexivity. Qed.

Lemma Fact_base_metrics (M : list Merged.t) (m : Merged.t) :
  Fact_base (metrics M m) = m.
Proof. now destruct m. Qed.

Lemma no_row_dropped (e i : list Norm.t) :
  map Fact_base (calculate_trade_metrics e i) = merged_of e i.
Proof.
  rewrite calculate_trade_metrics_eq, map_map.
  rewrite (map_ext _ (fun m => m)); [apply map_id|].
  intros m. apply Fact_base_metrics.
Qed.

Lemma group_column (col : Merged.t -> float) (fcol : Fact.t -> float)
    (M l : list Merged.t) (t : string) :
  (forall m, fcol (metrics M m) = col m) ->
  map fcol (filter (fun r => Fact.Time r =? t) (map (metrics M) l))
  = map col (filter (fun m => Merged.Time m =? t) l).
Proof.
  intros Hcol. induction l as [|m l IH]; simpl; [reflexivity|].
  destruct (Merged.Time m =? t); simpl; [rewrite Hcol|]; now rewrite IH.
Qed.

(** The denominators of the shares are the sums over the rows of the
    output that carry the same Time label. *)
Lemma shares_by_time (e i : list Norm.t) :
  let out := calculate_trade_metrics e i in
  Forall (fun r =>
            let same_time := filter (fun x => Fact.Time x =? Fact.Time r) out in
            Fact.Export_Share r
            = fdiv (Fact.Exports r) (nansum (map Fact.Exports same_time))
            /\ Fact.Import_Share r
               = fdiv (Fact.Imports r) (nansum (map Fact.Imports same_time)))
         out.
Proof.
  intros out. subst out. rewrite calculate_trade_metrics_eq.
  set (M := merged_of e i). apply Forall_forall. intros r Hr.
  apply in_map_iff in Hr as (m & <- & _). cbn zeta.
  rewrite (group_column Merged.Exports Fact.Exports M M) by reflexivity.
  rewrite (group_column Merged.Imports Fact.Imports M M) by reflexivity.
  split; reflexivity.
Qed.

(** ** binary64 facts used by the engine *)

Lemma fsub_nan_r x : fsub x nan = nan. Proof. now destruct x. Qed.
Lemma fsub_nan_l x : fsub nan x = nan. Proof. reflexivity. Qed.
Lemma fadd_nan_r x : fadd x nan = nan. Proof. now destruct x. Qed.
Lemma fadd_nan_l x : fadd nan x = nan. Proof. reflexivity. Qed.
Lemma fdiv_nan_r x : fdiv x nan = nan. Proof. now destruct x. Qed.
Lemma fdiv_nan_l x : fdiv nan x = nan. Proof. reflexivity. Qed.

Create Rewrite HintDb nan_db.

#[local] Hint Rewrite fsub_nan_r fsub_nan_l fadd_nan_r fadd_nan_l
  fdiv_nan_r fdiv_nan_l : nan_db.

(** The sum does not see the missing values. *)
Lemma nansum_skips_missing (xs : list float) :
  nansum xs = nansum (filter (fun x => negb (isna x)) xs).
Proof.
  unfold nansum. generalize (S754_zero false, S754_zero false).
  induction xs as [|x xs IH]; intros st; cbn [fold_left filter];
    [reflexivity|].
  destruct (isna x) eqn:E; cbn [negb fold_left]; [apply IH|].
  rewrite E. apply IH.
Qed.

Lemma fdiv_zero (x : float) (s : bool) :
  fdiv x (S754_zero s) = quotient_by_zero x s.
Proof. now destruct x. Qed.

(** C7, as the code has it.  A joined row whose Imports is a zero is kept,
    and no error is raised: its Export_Import_Ratio is the binary64 quotient
    by zero, an infinity with the product of the signs for an Exports that
    is a nonzero number (the positive infinity for a positive Exports over
    +0), NaN for an Exports that is a zero or missing, never a finite
    value.  RCA_Index is the same quotient of Export_Share by
    Import_Share. *)
Theorem division_by_zero_is_not_an_error
    (e i : list Norm.t) (m : Merged.t) (s : bool) :
  In m (merged_of e i) ->
  Merged.Imports m = S754_zero s ->
  let r := metrics (merged_of e i) m in
  In r (calculate_trade_metrics e i)
  /\ Fact_base r = m
  /\ Fact.Export_Import_Ratio r = quotient_by_zero (Merged.Exports m) s
  /\ is_finite (Fact.Export_Import_Ratio r) = false
  /\ (forall mx ex, Merged.Exports m = S754_finite false mx ex -> s = false ->
        Fact.Export_Import_Ratio r = S754_infinity false)
  /\ (forall sx, Merged.Exports m = S754_zero sx ->
        Fact.Export_Import_Ratio r = nan)
  /\ Fact.RCA_Index r = fdiv (Fact.Export_Share r) (Fact.Import_Share r)
  /\ (forall s', Fact.Import_Share r = S754_zero s' ->
        Fact.RCA_Index r = quotient_by_zero (Fact.Export_Share r) s').
Proof.
  intros Hm Hz r. subst r.
  assert (E : Fact.Export_Import_Ratio (metrics (merged_of e i) m)
              = quotient_by_zero (Merged.Exports m) s)
    by (cbn; rewrite Hz; apply fdiv_zero).
  split; [rewrite calculate_trade_metrics_eq; now apply in_map|].
  split; [apply Fact_base_metrics|].
  split; [exact E|].
  split; [rewrite E; now destruct (Merged.Exports m)|].
  split; [intros mx ex Hx ->; now rewrite E, Hx|].
  split; [intros sx Hx; now rewrite E, Hx|].
  split; [reflexivity|].
  intros s' Hs'. cbn in *. rewrite Hs'. apply fdiv_zero.
Qed.

(** On exports of 100 against imports of 0: the ratio is the positive
    infinity. *)
Lemma division_by_zero_is_not_an_error_witness :
  let e := harmonized exports_100 in
  let i := harmonized imports_0 in
  let r := metrics (merged_of e i) zero_imports_row in
  merged_of e i = [zero_imports_row]
  /\ In r (calculate_trade_metrics e i)
  /\ Fact.Export_Import_Ratio r = S754_infinity false
  /\ is_finite (Fact.Export_Import_Ratio r) = false
  /\ Fact.RCA_Index r = fdiv (Fact.Export_Share r) (Fact.Import_Share r).
Proof.
  intros e i r.
  assert (M : merged_of e i = [zero_imports_row]) by (vm_compute; reflexivity).
  destruct (division_by_zero_is_not_an_error e i zero_imports_row false)
    as (H1 & _ & H3 & H4 & _ & _ & H7 & _).
  - rewrite M. now left.
  - reflexivity.
  - split; [exact M|]. split; [exact H1|]. split; [exact H3|].
    split; [exact H4 | exact H7].
Defined.

(** C7 as the specification states it fails on the nonzero Exports -100
    over the Imports 0: the ratio is the negative infinity. *)
Lemma negative_exports_counterexample :
  map (fun r => (Fact.Exports r, Fact.Imports r, Fact.Export_Import_Ratio r))
    (calculate_trade_metrics (harmonized exports_minus_100)
       (harmonized imports_0))
  = [(S754_finite true 7036874417766400 (-46), S754_zero false,
      S754_infinity true)]
  /\ S754_finite true 7036874417766400 (-46) = float_of_Z (-100)
  /\ S754_infinity true <> S754_infinity false.
Proof.
  split; [vm_compute; reflexivity|].
  split; [vm_compute; reflexivity | discriminate].
Qed.

(** ** The join *)

Lemma insert_key_perm (k : key) (ks : list key) :
  Permutation (insert_key k ks) (k :: ks).
Proof.
  induction ks as [|k' ks IH]; simpl; [reflexivity|].
  destruct (key_leb k k'); [reflexivity|].
  rewrite IH. apply perm_swap.
Qed.

Lemma sort_keys_perm (ks : list key) : Permutation (sort_keys ks) ks.
Proof.
  induction ks as [|k ks IH]; simpl; [reflexivity|].
  rewrite insert_key_perm. now constructor.
Qed.

Lemma has_key_true (k : key) (r : Side.t) :
  has_key k r = true <-> key_of r = k.
Proof.
  unfold has_key, key_eqb. destruct (key_eq_dec (key_of r) k); split;
    congruence.
Qed.

Lemma filter_key_nil (k : key) (l : list Side.t) :
  filter (has_key k) l = [] <-> ~ In k (map key_of l).
Proof.
  induction l as [|r l IH]; simpl; [tauto|].
  destruct (has_key k r) eqn:E.
  - apply has_key_true in E. split; [discriminate | tauto].
  - rewrite IH. split; [|tauto].
    intros H [H1|H1]; [|tauto].
    apply has_key_true in H1. congruence.
Qed.

Lemma filter_key_In (k : key) (l : list Side.t) (r : Side.t) :
  In r (filter (has_key k) l) <-> In r l /\ key_of r = k.
Proof. now rewrite filter_In, has_key_true. Qed.

(** With one row per key, the rows of a key are at most one. *)
Lemma filter_key_unique (k : key) (l : list Side.t) :
  NoDup (map key_of l) ->
  filter (has_key k) l = []
  \/ exists r, filter (has_key k) l = [r].
Proof.
  induction l as [|r l IH]; simpl; intros Hnd; [now left|].
  apply NoDup_cons_iff in Hnd as [Hr Hnd].
  destruct (has_key k r) eqn:E.
  - right. exists r. f_equal. apply filter_key_nil.
    apply has_key_true in E. congruence.
  - now apply IH.
Qed.

Lemma map_flat_map_single {A B : Type} (f : B -> A) (g : A -> list B)
    (ks : list A) :
  (forall k, In k ks -> exists m, g k = [m] /\ f m = k) ->
  map f (flat_map g ks) = ks.
Proof.
  induction ks as [|k ks IH]; simpl; intros H; [reflexivity|].
  destruct (H k (or_introl eq_refl)) as (m & -> & <-). simpl.
  f_equal. apply IH. auto.
Qed.

Section Join.

Variables L R : list Side.t.

Lemma join_key_list_NoDup : NoDup (join_key_list L R).
Proof.
  unfold join_key_list.
  eapply Permutation_NoDup; [symmetry; apply sort_keys_perm|].
  apply NoDup_nodup.
Qed.

Lemma join_key_list_In (k : key) :
  In k (join_key_list L R) <-> In k (map key_of L ++ map key_of R)%list.
Proof.
  unfold join_key_list.
  rewrite <- (nodup_In key_eq_dec (map key_of L ++ map key_of R)%list k).
  split.
  - apply Permutation_in, sort_keys_perm.
  - apply Permutation_in. symmetry. apply sort_keys_perm.
Qed.

Lemma join_group_keys (k : key) :
  Forall (fun m => Merged_key m = k) (join_group L R k).
Proof.
  unfold join_group.
  assert (HL : forall l, In l (filter (has_key k) L) -> key_of l = k)
    by (intros l Hl; now apply filter_key_In in Hl).
  assert (HR : forall r, In r (filter (has_key k) R) -> key_of r = k)
    by (intros r Hr; now apply filter_key_In in Hr).
  apply Forall_forall. intros m Hm.
  destruct (filter (has_key k) L) as [|l ls] eqn:EL.
  - apply in_map_iff in Hm as (r & <- & Hr). now apply HR.
  - destruct (filter (has_key k) R) as [|r rs] eqn:ER.
    + apply in_map_iff in Hm as (l' & <- & Hl). now apply HL.
    + apply in_flat_map in Hm as (l' & Hl & Hm).
      apply in_map_iff in Hm as (r' & <- & _). now apply HL.
Qed.

(** The rows of a key that only the left side has. *)
Lemma join_group_left_only (l : Side.t) :
  In l L -> ~ In (key_of l) (map key_of R) ->
  In (left_only l) (join_group L R (key_of l)).
Proof.
  intros Hl HR. unfold join_group.
  apply filter_key_nil in HR. rewrite HR.
  assert (Hin : In l (filter (has_key (key_of l)) L))
    by now apply filter_key_In.
  destruct (filter (has_key (key_of l)) L); [contradiction|].
  now apply in_map.
Qed.

Lemma join_group_right_only (r : Side.t) :
  In r R -> ~ In (key_of r) (map key_of L) ->
  In (right_only r) (join_group L R (key_of r)).
Proof.
  intros Hr HL. unfold join_group.
  apply filter_key_nil in HL. rewrite HL. apply in_map.
  now apply filter_key_In.
Qed.

Lemma join_group_both (l r : Side.t) :
  In l L -> In r R -> key_of l = key_of r ->
  In (both l r) (join_group L R (key_of l)).
Proof.
  intros Hl Hr E. unfold join_group.
  assert (HinL : In l (filter (has_key (key_of l)) L))
    by now apply filter_key_In.
  assert (HinR : In r (filter (has_key (key_of l)) R))
    by (apply filter_key_In; auto).
  destruct (filter (has_key (key_of l)) L) as [|l0 ls] eqn:EL;
    [contradiction|].
  destruct (filter (has_key (key_of l)) R) as [|r0 rs] eqn:ER;
    [contradiction|].
  apply in_flat_map. exists l. split; [assumption | now apply in_map].
Qed.

Lemma in_merge_outer (k : key) (m : Merged.t) :
  In k (map key_of L ++ map key_of R)%list ->
  In m (join_group L R k) -> In m (merge_outer L R).
Proof.
  intros Hk Hm. unfold merge_outer. apply in_flat_map. exists k.
  split; [|assumption]. now apply join_key_list_In.
Qed.

(** With one row per key on each side. *)
Section One_row_per_key.

Hypothesis HL : NoDup (map key_of L).
Hypothesis HR : NoDup (map key_of R).

(** With one row per key on each side, one joined row per key. *)
Lemma join_group_single (k : key) :
  In k (map key_of L ++ map key_of R)%list ->
  exists m, join_group L R k = [m].
Proof.
  intros Hk. unfold join_group.
  destruct (filter_key_unique k L HL) as [EL | (l & EL)];
    destruct (filter_key_unique k R HR) as [ER | (r & ER)];
    rewrite EL, ER; simpl; eauto.
  apply filter_key_nil in EL, ER. apply in_app_or in Hk. tauto.
Qed.

Lemma merge_outer_keys :
  map Merged_key (merge_outer L R) = join_key_list L R.
Proof.
  unfold merge_outer.
  apply map_flat_map_single. intros k Hk.
  apply join_key_list_In in Hk.
  destruct (join_group_single k Hk) as (m & E).
  exists m. split; [assumption|].
  assert (F := join_group_keys k). rewrite E in F.
  now inversion F.
Qed.

End One_row_per_key.

End Join.

(** ** Outer-join completeness *)

Lemma Norm_key2_key (r : Norm.t) : Norm_key2 r = time_country (Norm_key r).
Proof. reflexivity. Qed.

Lemma Fact_key2_key (r : Fact.t) : Fact_key2 r = time_country (Fact_key r).
Proof. reflexivity. Qed.

Lemma NoDup_side_keys (rows : list Norm.t) :
  NoDup (map Norm_key2 rows) -> NoDup (map key_of (map select rows)).
Proof.
  intros H. rewrite map_map. apply (NoDup_map_inv time_country).
  rewrite map_map. exact H.
Qed.

Lemma side_keys (e i : list Norm.t) :
  (map key_of (map select e) ++ map key_of (map select i))%list
  = (map Norm_key e ++ map Norm_key i)%list.
Proof. now rewrite !map_map. Qed.

Lemma output_keys (e i : list Norm.t) :
  NoDup (map Norm_key2 e) -> NoDup (map Norm_key2 i) ->
  map Fact_key (calculate_trade_metrics e i)
  = join_key_list (map select e) (map select i).
Proof.
  intros He Hi. unfold Fact_key. rewrite <- map_map, no_row_dropped.
  apply merge_outer_keys; now apply NoDup_side_keys.
Qed.

Lemma in_output (e i : list Norm.t) (k : key) (m : Merged.t) :
  In k (map Norm_key e ++ map Norm_key i)%list ->
  In m (join_group (map select e) (map select i) k) ->
  In (metrics (merged_of e i) m) (calculate_trade_metrics e i).
Proof.
  intros Hk Hm. rewrite calculate_trade_metrics_eq. apply in_map.
  apply (in_merge_outer _ _ k); [now rewrite side_keys | assumption].
Qed.

(** C5, as the code has it.  With one row per (Time, Country) on each
    side: every join key (Time, Date, Year, Month, Country) of either side
    is the key of exactly one row of the output, and the output has no
    other key; every (Time, Country) pair is in exactly one row when Date,
    Year and Month are determined by Time across the two sides; a key that
    only one side has gives a row with the value of that side, whose cell
    of the other side and whose indicators that read that cell are missing;
    a key of both sides gives a row with both values; the sums behind the
    shares run over the values that are present in the Time group; the
    derivation keeps the joined rows as they are, one row per key. *)
Theorem outer_join_completeness (e i : list Norm.t) :
  NoDup (map Norm_key2 e) -> NoDup (map Norm_key2 i) ->
  let out := calculate_trade_metrics e i in
  let keys := (map Norm_key e ++ map Norm_key i)%list in
  (forall k, In k keys -> count_occ key_eq_dec (map Fact_key out) k = 1%nat)
  /\ (forall r, In r out -> In (Fact_key r) keys)
  /\ (temporal_by_time (e ++ i) ->
      forall k2, In k2 (map Norm_key2 (e ++ i)) ->
                 count_occ key2_eq_dec (map Fact_key2 out) k2 = 1%nat)
  /\ (forall x, In x e -> ~ In (Norm_key x) (map Norm_key i) ->
        exists r, In r out /\ Fact_key r = Norm_key x
                  /\ Fact.Exports r = Norm.Value x /\ imports_missing r)
  /\ (forall y, In y i -> ~ In (Norm_key y) (map Norm_key e) ->
        exists r, In r out /\ Fact_key r = Norm_key y
                  /\ Fact.Imports r = Norm.Value y /\ exports_missing r)
  /\ (forall x y, In x e -> In y i -> Norm_key x = Norm_key y ->
        exists r, In r out /\ Fact_key r = Norm_key x
                  /\ Fact.Exports r = Norm.Value x
                  /\ Fact.Imports r = Norm.Value y)
  /\ Forall (fun r =>
               let group := time_group (Fact.Time r) out in
               Fact.Export_Share r
               = fdiv (Fact.Exports r)
                   (nansum (filter present (map Fact.Exports group)))
               /\ Fact.Import_Share r
                  = fdiv (Fact.Imports r)
                      (nansum (filter present (map Fact.Imports group))))
            out
  /\ map Fact_base out = merged_of e i
  /\ List.length out = List.length (nodup key_eq_dec keys).
Proof.
  intros He Hi out keys.
  assert (HK : map Fact_key out = join_key_list (map select e) (map select i))
    by now apply output_keys.
  assert (Hnd : NoDup (map Fact_key out))
    by (rewrite HK; apply join_key_list_NoDup).
  assert (Hin : forall k, In k (map Fact_key out) <-> In k keys).
  { intros k. rewrite HK, join_key_list_In, side_keys. reflexivity. }
  split; [|split; [|split; [|split; [|split; [|split; [|split; [|split]]]]]]].
  - intros k Hk. apply (proj1 (NoDup_count_occ' key_eq_dec _) Hnd).
    now apply Hin.
  - intros r Hr. apply Hin. now apply in_map.
  - intros Ht k2 Hk2.
    assert (E2 : map Fact_key2 out = map time_country (map Fact_key out))
      by now rewrite map_map.
    rewrite E2.
    apply (proj1 (NoDup_count_occ' key2_eq_dec _)).
    + apply NoDup_map_NoDup_ForallPairs; [|assumption].
      intros a b Ha Hb Hab. apply Hin in Ha, Hb. subst keys.
      rewrite <- map_app in Ha, Hb.
      apply in_map_iff in Ha as (ra & <- & Hra).
      apply in_map_iff in Hb as (rb & <- & Hrb).
      unfold Norm_key, key_of, select, time_country in *. cbn in *.
      injection Hab as Et Ec.
      destruct (Ht ra rb Hra Hrb Et) as (Ed & Ey & Em).
      congruence.
    + apply in_map_iff in Hk2 as (r & <- & Hr).
      rewrite Norm_key2_key. apply in_map. apply Hin. subst keys.
      rewrite <- map_app. now apply in_map.
  - intros x Hx Hni.
    exists (metrics (merged_of e i) (left_only (select x))).
    split.
    + apply (in_output e i (Norm_key x)).
      * apply in_or_app. left. now apply in_map.
      * apply join_group_left_only; [now apply in_map|].
        now rewrite map_map.
    + split; [reflexivity|]. split; [reflexivity|].
      unfold imports_missing. cbn. autorewrite with nan_db. auto 10.
  - intros y Hy Hni.
    exists (metrics (merged_of e i) (right_only (select y))).
    split.
    + apply (in_output e i (Norm_key y)).
      * apply in_or_app. right. now apply in_map.
      * apply join_group_right_only; [now apply in_map|].
        now rewrite map_map.
    + split; [reflexivity|]. split; [reflexivity|].
      unfold exports_missing. cbn. auto 10.
  - intros x y Hx Hy E.
    exists (metrics (merged_of e i) (both (select x) (select y))).
    split.
    + apply (in_output e i (Norm_key x)).
      * apply in_or_app. left. now apply in_map.
      * apply join_group_both; [now apply in_map | now apply in_map | exact E].
    + repeat split.
  - assert (F := shares_by_time e i). cbn zeta in F. fold out in F.
    revert F. apply Forall_impl. intros r [FE FI]. cbn zeta.
    unfold time_group, present. rewrite <- !nansum_skips_missing. now split.
  - apply no_row_dropped.
  - rewrite <- (length_map Fact_key), HK. unfold join_key_list.
    rewrite (Permutation_length (sort_keys_perm _)), side_keys. reflexivity.
Qed.

(** C5 as the specification states it fails in two places.  The Imports of
    Canada are missing and the Import_Share of Mexico, which divides by the
    sum of the Imports of the period, is 1: the sum takes the missing value
    for nothing, as it takes a zero.  And a (Time, Country) pair to which
    the two sides give different Date or Year cells comes out twice. *)
Lemma missing_imports_counterexample :
  let e := harmonized canada_mexico_exports in
  NoDup (map Norm_key2 e)
  /\ NoDup (map Norm_key2 (harmonized mexico_imports))
  /\ imports_columns (calculate_trade_metrics e (harmonized mexico_imports))
     = [("Canada", nan, nan); ("Mexico", float_of_Z 30, float_of_Z 1)]
  /\ imports_columns
       (calculate_trade_metrics e (harmonized canada_zero_imports))
     = [("Canada", S754_zero false, S754_zero false);
        ("Mexico", float_of_Z 30, float_of_Z 1)]
  /\ map Fact_key2 (calculate_trade_metrics dated_by_year dated_by_day)
     = [("2021", "Canada"); ("2021", "Canada")]
  /\ map Fact_key2
       (calculate_trade_metrics (harmonized exports_with_foo)
          (harmonized imports_with_foo))
     = [("2020", "Canada"); ("2021", "Canada"); ("foo", "Canada");
        ("foo", "Canada")].
Proof.
  intros e.
  split; [vm_compute; repeat (constructor; [simpl; intuition discriminate|]);
          constructor|].
  split; [vm_compute; repeat (constructor; [simpl; intuition discriminate|]);
          constructor|].
  split; [vm_compute; reflexivity|].
  split; [vm_compute; reflexivity|].
  split; vm_compute; reflexivity.
Qed.

Ltac each_row H :=
  simpl in H; repeat (destruct H as [H | H]; [subst |]); [.. | destruct H].

(** On exports of Canada and Mexico against imports of Canada in two
    years: three rows, the row of Mexico without imports. *)
Lemma outer_join_completeness_witness :
  let e := harmonized one_sided_exports in
  let i := harmonized one_sided_imports in
  let out := calculate_trade_metrics e i in
  NoDup (map Norm_key2 e) /\ NoDup (map Norm_key2 i)
  /\ temporal_by_time (e ++ i)
  /\ (forall k, In k (map Norm_key e ++ map Norm_key i)%list ->
                count_occ key_eq_dec (map Fact_key out) k = 1%nat)
  /\ (forall k2, In k2 (map Norm_key2 (e ++ i)) ->
                 count_occ key2_eq_dec (map Fact_key2 out) k2 = 1%nat)
  /\ (exists r, In r out
                /\ Fact_key2 r = ("2021", "Mexico")
                /\ Fact.Exports r = float_of_Z 200 /\ imports_missing r)
  /\ List.length out = 3%nat.
Proof.
  intros e i out.
  assert (He : NoDup (map Norm_key2 e)).
  { vm_compute. repeat (constructor; [simpl; intuition discriminate|]).
    constructor. }
  assert (Hi : NoDup (map Norm_key2 i)).
  { vm_compute. repeat (constructor; [simpl; intuition discriminate|]).
    constructor. }
  assert (Ht : temporal_by_time (e ++ i)).
  { intros r r' Hr Hr' E. vm_compute in Hr, Hr'.
    each_row Hr; each_row Hr'; try discriminate E; repeat split. }
  destruct (outer_join_completeness e i He Hi)
    as (H1 & _ & H3 & H4 & _ & _ & _ & _ & H8).
  split; [exact He|]. split; [exact Hi|]. split; [exact Ht|].
  split; [exact H1|]. split; [exact (H3 Ht)|]. split; [|exact H8].
  destruct (H4 (normalized_row "2021" (Raw.mk "2021" "Mexico" "200")
                  (float_of_Z 200)))
    as (r & Hr & Hk & Hx & Hmiss).
  - vm_compute. tauto.
  - vm_compute. intuition discriminate.
  - exists r. split; [exact Hr|]. split; [|split; [exact Hx | exact Hmiss]].
    rewrite Fact_key2_key, Hk. reflexivity.
Defined.

(** ** The shares of a Time group *)


Lemma time_group_time (t : string) (out : list Fact.t) (r : Fact.t) :
  In r (time_group t out) -> Fact.Time r = t /\ In r out.
Proof.
  unfold time_group. rewrite filter_In. intros [Hin E].
  apply String.eqb_eq in E. auto.
Qed.

Lemma share_in_group (e i : list Norm.t) (t : string) (s : side) (r : Fact.t) :
  let group := time_group t (calculate_trade_metrics e i) in
  In r group ->
  side_share s r = fdiv (side_value s r) (nansum (map (side_value s) group)).
Proof.
  intros group Hr. subst group.
  apply time_group_time in Hr as [<- Hin].
  assert (F := shares_by_time e i). cbn zeta in F.
  rewrite Forall_forall in F. destruct (F r Hin) as [FE FI].
  destruct s; [exact FE | exact FI].
Qed.




(** ** The end-to-end scenario *)

(** On the scenario of the specification, its reports being text tables,
    the pipeline writes a fact table of one row: Year 2021, Month Annual,
    Exports 1000, Imports 500,
    Trade_Balance 500, Trade_Volume 1500, Export_Import_Ratio 2.0,
    Export_Share 1.0, Import_Share 1.0, RCA_Index 1.0.  In every fact
    table the denominator of a share is the sum over the rows that carry
    the same Time label: the annual row of a year and the rows of one of
    its months do not share a denominator. *)
Theorem end_to_end_scenario :
  trade_metrics scenario_exports scenario_imports = Ok [scenario_row]
  /\ fst (pipeline (initial_store scenario_exports scenario_imports)) = Ok tt
  /\ snd (pipeline (initial_store scenario_exports scenario_imports))
       metrics_path = Some (MetricsTable [scenario_row])
  /\ (forall e i : list Norm.t,
         let out := calculate_trade_metrics e i in
         Forall (fun r =>
                   Fact.Export_Share r
                   = fdiv (Fact.Exports r)
                       (nansum (map Fact.Exports (time_group (Fact.Time r) out)))
                   /\ Fact.Import_Share r
                      = fdiv (Fact.Imports r)
                          (nansum (map Fact.Imports
                                     (time_group (Fact.Time r) out))))
                out)
  /\ map (fun r => (Fact.Time r, Fact.Country r, Fact.Export_Share r))
       (calculate_trade_metrics (harmonized annual_and_monthly)
          (harmonized annual_and_monthly))
     = [("2021", "Canada", float_of_Z 1);
        ("March 2021", "Canada", fdiv (float_of_Z 1) (float_of_Z 4));
        ("March 2021", "Mexico", fdiv (float_of_Z 3) (float_of_Z 4))].
Proof.
  split; [vm_compute; reflexivity|].
  split; [vm_compute; reflexivity|].
  split; [vm_compute; reflexivity|].
  split; [|vm_compute; reflexivity].
  intros e i. apply shares_by_time.
Qed.

(** ** Month_Num and the columns of the fact table *)

Lemma harmonize_Month_Num (df : list Raw.t) (rows : list Norm.t) :
  harmonize df = Ok rows ->
  Forall (fun r => Norm.Month_Num r = month_map (Norm.Month r)) rows.
Proof.
  intros H. apply harmonize_inv in H.
  assert (H' : Forall2 (fun (_ : Raw.t) r =>
                          Norm.Month_Num r = month_map (Norm.Month r))
                       df rows).
  { revert H. apply Forall2_impl. now intros raw r (v & _ & ->). }
  clear H. induction H'; constructor; auto.
Qed.

Lemma select_forget (rows : list Norm.t) :
  map select (map forget_Month_Num rows) = map select rows.
Proof. rewrite map_map. apply map_ext. now intros []. Qed.

(** C1, as the code has it.  In the harmonised tables Month_Num is a
    column and holds the month-table entry of Month in every row.
    combined.py selects the columns of each side without it: the fact table
    has the thirteen columns Time, Date, Year, Month, Country, Exports,
    Imports, Trade_Balance, Trade_Volume, Export_Import_Ratio, Export_Share,
    Import_Share, RCA_Index, every row has thirteen cells and none under
    Month_Num, Month is carried through, and the fact table is the same
    when the Month_Num of the inputs is erased. *)
Theorem month_num_stops_at_the_join
    (df_e df_i : list Raw.t) (e i : list Norm.t) :
  harmonize df_e = Ok e -> harmonize df_i = Ok i ->
  let out := calculate_trade_metrics e i in
  let frame := trade_metrics_frame out in
  Forall (fun r => Norm.Month_Num r = month_map (Norm.Month r)) (e ++ i)
  /\ In "Month_Num" (columns (harmonised_frame e))
  /\ columns frame =
     ["Time"; "Date"; "Year"; "Month"; "Country"; "Exports"; "Imports";
      "Trade_Balance"; "Trade_Volume"; "Export_Import_Ratio";
      "Export_Share"; "Import_Share"; "RCA_Index"]
  /\ Forall (fun row =>
               List.length row = List.length (columns frame)
               /\ cell_under "Month_Num" (columns frame) row = None)
            (data frame)
  /\ Forall (fun r =>
               cell_under "Month" (columns frame) (Fact_cells r)
               = Some (Text (Some (Fact.Month r))))
            out
  /\ out = calculate_trade_metrics (map forget_Month_Num e)
             (map forget_Month_Num i).
Proof.
  intros He Hi out frame.
  split; [apply Forall_app; split; eapply harmonize_Month_Num; eassumption|].
  split; [simpl; tauto|].
  split; [reflexivity|].
  split; [|split].
  - subst frame. cbn [data trade_metrics_frame]. apply Forall_map.
    apply Forall_forall. intros r _. split; reflexivity.
  - apply Forall_forall. intros r _. reflexivity.
  - subst out. unfold calculate_trade_metrics. now rewrite !select_forget.
Qed.

(** On the end-to-end scenario. *)
Lemma month_num_stops_at_the_join_witness :
  let e := harmonized scenario_exports in
  let i := harmonized scenario_imports in
  let out := calculate_trade_metrics e i in
  let frame := trade_metrics_frame out in
  harmonize scenario_exports = Ok e /\ harmonize scenario_imports = Ok i
  /\ Forall (fun r => Norm.Month_Num r = month_map (Norm.Month r)) (e ++ i)
  /\ In "Month_Num" (columns (harmonised_frame e))
  /\ columns frame =
     ["Time"; "Date"; "Year"; "Month"; "Country"; "Exports"; "Imports";
      "Trade_Balance"; "Trade_Volume"; "Export_Import_Ratio";
      "Export_Share"; "Import_Share"; "RCA_Index"]
  /\ Forall (fun row =>
               List.length row = List.length (columns frame)
               /\ cell_under "Month_Num" (columns frame) row = None)
            (data frame)
  /\ Forall (fun r =>
               cell_under "Month" (columns frame) (Fact_cells r)
               = Some (Text (Some (Fact.Month r))))
            out
  /\ out = calculate_trade_metrics (map forget_Month_Num e)
             (map forget_Month_Num i).
Proof.
  intros e i out frame.
  split; [reflexivity|]. split; [reflexivity|].
  apply (month_num_stops_at_the_join scenario_exports scenario_imports e i);
    reflexivity.
Defined.

(** C1 as the specification states it fails on the end-to-end scenario:
    the fact table has not the columns of the specification, and no cell
    of its row stands under Month_Num, which the harmonised table holds. *)
Lemma month_num_counterexample :
  let out := calculate_trade_metrics (harmonized scenario_exports)
               (harmonized scenario_imports) in
  let frame := trade_metrics_frame out in
  out = [scenario_row]
  /\ columns frame <> specified_columns
  /\ ~ In "Month_Num" (columns frame)
  /\ Forall (fun row => cell_under "Month_Num" (columns frame) row = None)
            (data frame)
  /\ map Norm.Month_Num (harmonized scenario_exports) = [Some "00"].
Proof.
  intros out frame.
  split; [vm_compute; reflexivity|].
  split; [vm_compute; discriminate|].
  split.
  - vm_compute. intuition discriminate.
  - split; [|reflexivity]. vm_compute in (value of out).
    subst frame out. repeat constructor.
Qed.

(** * Further properties *)

(** ** What the matcher accepts *)

Lemma take_class_inv (n : nat) cls (s r : string) :
  take_class n cls s = Some r ->
  exists seg, s = seg ++ r /\ String.length seg = n /\ all_in cls seg = true.
Proof.
  revert s. induction n as [|n IH]; simpl; intros s H.
  - injection H as <-. now exists "".
  - destruct s as [|c s]; [discriminate|].
    destruct (cls c) eqn:Hc; [|discriminate].
    destruct (IH s H) as (seg & -> & Hl & Ha).
    exists (String c seg). simpl. now rewrite Hl, Hc, Ha.
Qed.

Lemma match_here_plus cls (p : list atom) (c : ascii) (s : string) :
  match_here (OneOrMore cls :: p) (String c s) =
  if cls c then
    match match_here (OneOrMore cls :: p) s with
    | Some (k :: ks) => Some (S k :: ks)
    | _ => option_map (cons 1%nat) (match_here p s)
    end
  else None.
Proof. reflexivity. Qed.

Lemma match_here_plus_empty cls (p : list atom) :
  match_here (OneOrMore cls :: p) "" = None.
Proof. reflexivity. Qed.

(** A match splits the text into one segment per atom, each accepted by
    its atom, and a rest. *)
Lemma match_here_sound (p : list atom) :
  forall (s : string) (ks : list nat),
    match_here p s = Some ks ->
    exists segs rest,
      s = concat_all segs ++ rest
      /\ Forall2 accepts p segs
      /\ ks = map String.length segs.
Proof.
  induction p as [|a p IH]; intros s ks H.
  - injection H as <-. exists [], s. repeat split. constructor.
  - destruct a as [n cls | cls].
    + cbn [match_here] in H.
      destruct (take_class n cls s) as [s'|] eqn:Ht; [|discriminate].
      destruct (match_here p s') as [ks'|] eqn:Hm; [|discriminate].
      injection H as <-.
      destruct (take_class_inv n cls s s' Ht) as (seg & -> & Hl & Ha).
      destruct (IH s' ks' Hm) as (segs & rest & -> & HF & ->).
      exists (seg :: segs), rest. simpl. rewrite append_assoc.
      repeat split; [|now rewrite Hl]. constructor; [now split | assumption].
    + revert ks H. induction s as [|c s IHs]; intros ks H.
      * now rewrite match_here_plus_empty in H.
      * rewrite match_here_plus in H.
        destruct (cls c) eqn:Hc; [|discriminate].
        destruct (match_here (OneOrMore cls :: p) s) as [[|k ks']|] eqn:Hm.
        -- destruct (IHs [] eq_refl) as (segs & rest & _ & HF & Hk).
           inversion HF; subst; discriminate.
        -- injection H as <-.
           destruct (IHs (k :: ks') eq_refl) as (segs & rest & -> & HF & Hk).
           inversion HF as [|a seg p' segs' Hacc HF' E1 E2]; subst.
           destruct Hacc as [Hne Hall].
           exists (String c seg :: segs'), rest. simpl in *.
           injection Hk as -> ->.
           repeat split. constructor; [|assumption].
           split; [discriminate | simpl; now rewrite Hc, Hall].
        -- destruct (match_here p s) as [ks'|] eqn:Hp; [|discriminate].
           injection H as <-.
           destruct (IH s ks' Hp) as (segs & rest & -> & HF & ->).
           exists (String c "" :: segs), rest. simpl.
           repeat split. constructor; [|assumption].
           split; [discriminate | simpl; now rewrite Hc].
Qed.

(** A successful search found its match somewhere in the text. *)
Lemma search_sound (p : pattern) (s g : string) :
  search p s = Some g ->
  exists a s', s = a ++ s' /\ match_group p s' = Some g.
Proof.
  induction s as [|c s IH]; rewrite search_unfold.
  - destruct (match_group p "") eqn:E; [|discriminate].
    intros H. injection H as <-. now exists "", "".
  - destruct (match_group p (String c s)) eqn:E.
    + intros H. injection H as <-. now exists "", (String c s).
    + intros H. destruct (IH H) as (a & s' & -> & Hm).
      now exists (String c a), s'.
Qed.

Lemma length_append (a b : string) :
  String.length (a ++ b) = (String.length a + String.length b)%nat.
Proof. induction a as [|c a IH]; simpl; congruence. Qed.

(** The captured month is a word of the label that whitespace and four
    digits follow. *)
Lemma extract_month_inv (t w : string) :
  str_extract month_pattern t = Some w ->
  run_of is_word w
  /\ exists a sp y b,
       t = a ++ w ++ sp ++ y ++ b /\ run_of is_space sp /\ four_digits y.
Proof.
  unfold str_extract. intros H.
  destruct (search_sound _ _ _ H) as (a & s' & -> & Hm).
  unfold match_group in Hm. cbn [group tail month_pattern app] in Hm.
  destruct (match_here _ s') as [ks|] eqn:E; [|discriminate].
  destruct (match_here_sound _ _ _ E) as (segs & rest & -> & HF & ->).
  inversion HF as [|a1 w' p1 segs1 Hw HF1]; subst.
  inversion HF1 as [|a2 sp p2 segs2 Hsp HF2]; subst.
  inversion HF2 as [|a3 y p3 segs3 Hy HF3]; subst.
  inversion HF3; subst.
  cbn [List.length map firstn list_sum fold_right concat_all] in Hm.
  rewrite Nat.add_0_r in Hm. rewrite append_assoc in Hm.
  rewrite substring_prefix in Hm.
  injection Hm as <-. split; [exact Hw|].
  exists a, sp, y, rest. cbn [concat_all fold_right].
  rewrite append_empty_r, !append_assoc.
  split; [reflexivity|]. split; [exact Hsp | exact Hy].
Qed.

Lemma match_group_year_inv (s y : string) :
  match_group year_pattern s = Some y ->
  four_digits y /\ exists b, s = y ++ b.
Proof.
  unfold match_group. cbn [group tail year_pattern app]. intros Hm.
  destruct (match_here _ s) as [ks|] eqn:E; [|discriminate].
  destruct (match_here_sound _ _ _ E) as (segs & rest & -> & HF & ->).
  inversion HF as [|a1 y' p1 segs1 Hy HF1]; subst. inversion HF1; subst.
  cbn [List.length map firstn list_sum fold_right concat_all] in Hm.
  rewrite Nat.add_0_r in Hm. rewrite append_assoc in Hm.
  rewrite substring_prefix in Hm.
  injection Hm as <-. split; [exact Hy|].
  exists rest. cbn [concat_all fold_right]. now rewrite append_empty_r.
Qed.

(** The captured year is the leftmost run of four digits of the label. *)
Lemma extract_year_inv (t y : string) :
  str_extract year_pattern t = Some y ->
  four_digits y
  /\ exists a b,
       t = a ++ y ++ b
       /\ forall a' y' b', t = a' ++ y' ++ b' -> four_digits y' ->
                           (String.length a <= String.length a')%nat.
Proof.
  unfold str_extract. revert y. induction t as [|c t IH]; intros y;
    rewrite search_unfold.
  - destruct (match_group year_pattern "") as [g|] eqn:E; [|discriminate].
    intros H. injection H as <-.
    destruct (match_group_year_inv _ _ E) as (Hy & b & Hb).
    split; [exact Hy|]. exists "", b. split; [exact Hb|].
    intros. simpl. lia.
  - destruct (match_group year_pattern (String c t)) as [g|] eqn:E.
    + intros H. injection H as <-.
      destruct (match_group_year_inv _ _ E) as (Hy & b & Hb).
      split; [exact Hy|]. exists "", b. split; [exact Hb|].
      intros. simpl. lia.
    + intros H. destruct (IH y H) as (Hy & a & b & -> & Hleft).
      split; [exact Hy|]. exists (String c a), b. split; [reflexivity|].
      intros a' y' b' Ht Hy'. destruct a' as [|c' a'].
      * simpl in Ht. rewrite Ht in E.
        rewrite (match_group_year_digits y' b' Hy') in E. discriminate.
      * simpl in Ht. injection Ht as <- Ht. simpl.
        apply le_n_S. now apply (Hleft a' y' b').
Qed.

Lemma extract_year_complete (t : string) :
  has_four_digits t -> exists y, str_extract year_pattern t = Some y.
Proof.
  intros (a & y & b & -> & Hy). unfold str_extract.
  induction a as [|c a IH]; rewrite search_unfold.
  - change ("" ++ y ++ b) with (y ++ b).
    rewrite (match_group_year_digits y b Hy). eauto.
  - destruct (match_group year_pattern (String c a ++ y ++ b)); eauto.
Qed.

Lemma has_four_digits_iff (t : string) :
  has_four_digits t <-> str_extract year_pattern t <> None.
Proof.
  split.
  - intros H. destruct (extract_year_complete t H) as (y & ->). discriminate.
  - destruct (str_extract year_pattern t) as [y|] eqn:E; [|congruence].
    intros _. destruct (extract_year_inv t y E) as (Hy & a & b & -> & _).
    now exists a, y, b.
Qed.

Lemma no_space_run (sp : string) :
  run_of is_space sp -> no_space sp = false.
Proof.
  intros [Hne Hall]. destruct sp as [|c sp]; [congruence|].
  unfold no_space. simpl in *. apply andb_prop in Hall as [-> _]. reflexivity.
Qed.

Lemma no_space_app (a b : string) :
  no_space (a ++ b) = (no_space a && no_space b)%bool.
Proof. apply all_in_app. Qed.

(** No month is captured from a label without whitespace or without four
    digits in a row. *)
Lemma extract_month_none (t : string) :
  no_space t = true \/ ~ has_four_digits t ->
  str_extract month_pattern t = None.
Proof.
  intros H. destruct (str_extract month_pattern t) as [w|] eqn:E;
    [|reflexivity].
  destruct (extract_month_inv t w E)
    as (_ & a & sp & y & b & -> & Hsp & Hy).
  destruct H as [H | H].
  - rewrite !no_space_app, (no_space_run sp Hsp) in H.
    rewrite !andb_false_r, ?andb_false_l in H. discriminate.
  - exfalso. apply H. exists (a ++ w ++ sp), y, b.
    split; [now rewrite !append_assoc | exact Hy].
Qed.

(** X1.  The Year of a harmonised row is the leftmost run of four digits
    of its Time label; a label without four digits in a row takes the Time
    label of the first row of its report. *)
Theorem year_is_leftmost_four_digits_or_first_label
    (df : list Raw.t) (rows : list Norm.t) :
  harmonize df = Ok rows ->
  Forall2 (fun raw r =>
             (has_four_digits (Raw.Time raw) ->
              four_digits (Norm.Year r)
              /\ exists a b,
                   Raw.Time raw = a ++ Norm.Year r ++ b
                   /\ forall a' y' b',
                        Raw.Time raw = a' ++ y' ++ b' -> four_digits y' ->
                        (String.length a <= String.length a')%nat)
             /\ (~ has_four_digits (Raw.Time raw) ->
                 Norm.Year r = time0 df))
          df rows.
Proof.
  intros H. apply harmonize_inv in H. revert H. apply Forall2_impl.
  intros raw r (v & _ & ->). cbn [normalized_row Norm.Year].
  unfold Year_of. split.
  - intros Hh. destruct (extract_year_complete _ Hh) as (y & E).
    rewrite E. cbn [fillna]. now apply extract_year_inv.
  - intros Hn. destruct (str_extract year_pattern (Raw.Time raw)) eqn:E;
      [|reflexivity].
    exfalso. apply Hn. apply has_four_digits_iff. congruence.
Qed.

Lemma year_is_leftmost_four_digits_or_first_label_witness :
  harmonize report_with_plain_label
  = Ok (harmonized report_with_plain_label)
  /\ map Norm.Year (harmonized report_with_plain_label)
     = ["1234"; "FY 12345/2021"]
  /\ Forall2 (fun raw r =>
             (has_four_digits (Raw.Time raw) ->
              four_digits (Norm.Year r)
              /\ exists a b,
                   Raw.Time raw = a ++ Norm.Year r ++ b
                   /\ forall a' y' b',
                        Raw.Time raw = a' ++ y' ++ b' -> four_digits y' ->
                        (String.length a <= String.length a')%nat)
             /\ (~ has_four_digits (Raw.Time raw) ->
                 Norm.Year r = time0 report_with_plain_label))
          report_with_plain_label (harmonized report_with_plain_label).
Proof.
  split; [reflexivity|]. split; [reflexivity|].
  apply (year_is_leftmost_four_digits_or_first_label
           report_with_plain_label (harmonized report_with_plain_label)).
  reflexivity.
Defined.

(** X2.  The Month of a harmonised row is a non-empty word and holds no
    whitespace.  It is "Annual" when the label has no whitespace or no four
    digits in a row; when it is another word, whitespace and four digits
    follow that word in the label. *)
Theorem month_is_a_word_of_the_label
    (df : list Raw.t) (rows : list Norm.t) :
  harmonize df = Ok rows ->
  Forall2 (fun raw r =>
             run_of is_word (Norm.Month r)
             /\ no_space (Norm.Month r) = true
             /\ (no_space (Raw.Time raw) = true
                 \/ ~ has_four_digits (Raw.Time raw) ->
                 Norm.Month r = "Annual")
             /\ (Norm.Month r <> "Annual" ->
                 exists a sp y b,
                   Raw.Time raw = a ++ Norm.Month r ++ sp ++ y ++ b
                   /\ run_of is_space sp /\ four_digits y))
          df rows.
Proof.
  intros H. apply harmonize_inv in H. revert H. apply Forall2_impl.
  intros raw r (v & _ & ->). cbn [normalized_row Norm.Month].
  unfold Month_of.
  destruct (str_extract month_pattern (Raw.Time raw)) as [w|] eqn:E;
    cbn [fillna].
  - destruct (extract_month_inv _ w E) as (Hw & Hdec).
    split; [exact Hw|]. split.
    + destruct Hw as [_ Hall]. revert Hall. apply all_in_weaken.
      intros c Hc. destruct (is_space c) eqn:Es; [|reflexivity].
      apply space_not_word in Es. congruence.
    + split; [|intros _; exact Hdec].
      intros Hn. apply extract_month_none in Hn. congruence.
  - split; [split; [discriminate | reflexivity]|].
    split; [reflexivity|]. split; [reflexivity | congruence].
Qed.

Lemma month_is_a_word_of_the_label_witness :
  harmonize report_without_space = Ok (harmonized report_without_space)
  /\ map Norm.Month (harmonized report_without_space) = ["Annual"; "Q1"]
  /\ Forall2 (fun raw r =>
             run_of is_word (Norm.Month r)
             /\ no_space (Norm.Month r) = true
             /\ (no_space (Raw.Time raw) = true
                 \/ ~ has_four_digits (Raw.Time raw) ->
                 Norm.Month r = "Annual")
             /\ (Norm.Month r <> "Annual" ->
                 exists a sp y b,
                   Raw.Time raw = a ++ Norm.Month r ++ sp ++ y ++ b
                   /\ run_of is_space sp /\ four_digits y))
          report_without_space (harmonized report_without_space).
Proof.
  split; [reflexivity|]. split; [reflexivity|].
  apply (month_is_a_word_of_the_label
           report_without_space (harmonized report_without_space)).
  reflexivity.
Defined.

(** ** The harmonised table, row by row *)

Lemma month_map_ordinal (m n : string) :
  month_map m = Some n -> In n ordinals /\ (n = "00" <-> m = "Annual").
Proof.
  unfold month_map.
  repeat match goal with
         | |- context [String.eqb m ?x] =>
             destruct (String.eqb_spec m x) as [->|?];
             [intros H; injection H as <-;
              split; [simpl; tauto
                     | split; intros E; first [reflexivity | discriminate E]]|]
         end.
  discriminate.
Qed.

(** X3.  In every harmonised row the Date is missing exactly when the
    Month_Num is missing, that is when the Month is outside the month
    table.  Otherwise the Month_Num is one of "00" to "12", "00" going
    with "Annual" only, and the Date is the Year for "Annual" and
    "<Year>-<Month_Num>-01" for a month. *)
Theorem date_follows_month_num (df : list Raw.t) (rows : list Norm.t) :
  harmonize df = Ok rows ->
  Forall (fun r =>
            (Norm.Date r = None <-> Norm.Month_Num r = None)
            /\ (Norm.Month_Num r = None <-> month_map (Norm.Month r) = None)
            /\ forall n, Norm.Month_Num r = Some n ->
                 In n ordinals
                 /\ (n = "00" <-> Norm.Month r = "Annual")
                 /\ Norm.Date r
                    = Some (if n =? "00" then Norm.Year r
                            else Norm.Year r ++ "-" ++ n ++ "-01"))
         rows.
Proof.
  intros H. apply harmonize_inv in H.
  assert (H' : Forall2 (fun (_ : Raw.t) r =>
     (Norm.Date r = None <-> Norm.Month_Num r = None)
     /\ (Norm.Month_Num r = None <-> month_map (Norm.Month r) = None)
     /\ forall n, Norm.Month_Num r = Some n ->
          In n ordinals
          /\ (n = "00" <-> Norm.Month r = "Annual")
          /\ Norm.Date r
             = Some (if n =? "00" then Norm.Year r
                     else Norm.Year r ++ "-" ++ n ++ "-01")) df rows).
  { revert H. apply Forall2_impl. intros raw r (v & _ & ->).
    cbn [normalized_row Norm.Date Norm.Month_Num Norm.Month Norm.Year].
    unfold Month_Num_of.
    set (m := Month_of (Raw.Time raw)). set (y := Year_of _ _).
    split; [|split; [reflexivity|]].
    - unfold Date_of. destruct (String.eqb_spec m "Annual") as [->|Hm].
      + split; discriminate.
      + destruct (month_map m); split; congruence.
    - intros n Hn. destruct (month_map_ordinal m n Hn) as (Hin & Hz).
      split; [exact Hin|]. split; [exact Hz|].
      unfold Date_of. rewrite Hn.
      destruct (String.eqb_spec m "Annual") as [Hm|Hm];
        destruct (String.eqb_spec n "00") as [Hn0|Hn0];
        try reflexivity; tauto. }
  clear H. induction H'; constructor; auto.
Qed.

Lemma date_follows_month_num_witness :
  harmonize report_of_three_kinds = Ok (harmonized report_of_three_kinds)
  /\ map (fun r => (Norm.Month_Num r, Norm.Date r))
       (harmonized report_of_three_kinds)
     = [(Some "00", Some "2021"); (Some "05", Some "2021-05-01");
        (None, None)]
  /\ Forall (fun r =>
            (Norm.Date r = None <-> Norm.Month_Num r = None)
            /\ (Norm.Month_Num r = None <-> month_map (Norm.Month r) = None)
            /\ forall n, Norm.Month_Num r = Some n ->
                 In n ordinals
                 /\ (n = "00" <-> Norm.Month r = "Annual")
                 /\ Norm.Date r
                    = Some (if n =? "00" then Norm.Year r
                            else Norm.Year r ++ "-" ++ n ++ "-01"))
         (harmonized report_of_three_kinds).
Proof.
  split; [reflexivity|]. split; [reflexivity|].
  apply (date_follows_month_num report_of_three_kinds). reflexivity.
Defined.

(** X4.  A harmonisation that succeeds keeps the rows of the report one
    by one and in their order: the Time and the Country cells are
    untouched and the Value of each row is its cleaned cell. *)
Theorem harmonize_keeps_the_rows (df : list Raw.t) (rows : list Norm.t) :
  harmonize df = Ok rows ->
  List.length rows = List.length df
  /\ map Norm.Time rows = map Raw.Time df
  /\ map Norm.Country rows = map Raw.Country df
  /\ map (fun r => Some (Norm.Value r)) rows
     = map (fun raw => clean_value (Raw.Value raw)) df.
Proof.
  intros H. apply harmonize_inv in H.
  assert (H' : Forall2 (fun raw r =>
     Norm.Time r = Raw.Time raw /\ Norm.Country r = Raw.Country raw
     /\ Some (Norm.Value r) = clean_value (Raw.Value raw)) df rows).
  { revert H. apply Forall2_impl. intros raw r (v & Hv & ->).
    cbn. now rewrite Hv. }
  clear H. induction H' as [|raw r df rows (Ht & Hc & Hv) _ IH]; simpl.
  - repeat split.
  - destruct IH as (Hl & HT & HC & HV).
    now rewrite Hl, Ht, Hc, Hv, HT, HC, HV.
Qed.

Lemma harmonize_keeps_the_rows_witness :
  harmonize annual_and_monthly = Ok (harmonized annual_and_monthly)
  /\ List.length (harmonized annual_and_monthly) = 3%nat
  /\ map Norm.Time (harmonized annual_and_monthly)
     = ["2021"; "March 2021"; "March 2021"]
  /\ map Norm.Country (harmonized annual_and_monthly)
     = ["Canada"; "Canada"; "Mexico"].
Proof.
  split; [reflexivity|].
  destruct (harmonize_keeps_the_rows annual_and_monthly
              (harmonized annual_and_monthly) eq_refl)
    as (Hl & Ht & Hc & _).
  split; [exact Hl|]. split; [exact Ht | exact Hc].
Defined.





(** ** Whole numbers with grouping commas *)

Lemma digit_plain (c : ascii) :
  is_digit c = true ->
  is_float_space c = false /\ to_lower c = c
  /\ (c =? "-")%char = false /\ (c =? "+")%char = false
  /\ (c =? "i")%char = false /\ (c =? "n")%char = false
  /\ (c =? ",")%char = false.
Proof.
  destruct c as [[] [] [] [] [] [] [] []]; vm_compute; intros H;
    first [discriminate H | repeat split].
Qed.

Lemma digits_more_all (s : string) :
  forall acc n,
    all_in is_digit s = true ->
    digits_more acc n s
    = (decimal_from acc s, (n + String.length s)%nat, EmptyString).
Proof.
  induction s as [|c s IH]; intros acc n H; simpl in *.
  - now rewrite Nat.add_0_r.
  - apply andb_prop in H as [Hc Hs]. rewrite Hc.
    rewrite (IH _ _ Hs). now rewrite Nat.add_succ_r.
Qed.

Lemma rstrip_digits (s : string) :
  all_in is_digit s = true -> rstrip s = s.
Proof.
  induction s as [|c s IH]; simpl; intros H; [reflexivity|].
  apply andb_prop in H as [Hc Hs]. rewrite (IH Hs).
  destruct (digit_plain c Hc) as (-> & _). now destruct s.
Qed.

Lemma lower_digits (s : string) :
  all_in is_digit s = true -> lower s = s.
Proof.
  induction s as [|c s IH]; simpl; intros H; [reflexivity|].
  apply andb_prop in H as [Hc Hs]. rewrite (IH Hs).
  now destruct (digit_plain c Hc) as (_ & -> & _).
Qed.

Lemma float_of_decimal_whole (v : N) :
  float_of_decimal false v 0 = float_of_Z (Z.of_N v).
Proof. now destruct v. Qed.

(** [float] on a text of digits. *)
Lemma float_of_string_digits (d : string) :
  d <> EmptyString -> all_in is_digit d = true ->
  float_of_string d = Some (float_of_Z (Z.of_N (decimal_value d))).
Proof.
  intros Hne Hd. destruct d as [|c d]; [congruence|].
  assert (Hall := Hd). simpl in Hd. apply andb_prop in Hd as [Hc Hd].
  destruct (digit_plain c Hc) as (Hsp & _ & Hm & Hp & Hi & Hn & _).
  unfold float_of_string.
  assert (El : lstrip (String c d) = String c d) by (simpl; now rewrite Hsp).
  rewrite El, (rstrip_digits _ Hall).
  assert (Es : sign (String c d) = (false, String c d)).
  { unfold sign. destruct c as [[] [] [] [] [] [] [] []];
      first [discriminate Hm | discriminate Hp | reflexivity]. }
  rewrite Es, (lower_digits _ Hall).
  assert (E1 : (String c d =? "inf") = false) by (simpl; now rewrite Hi).
  assert (E2 : (String c d =? "infinity") = false) by (simpl; now rewrite Hi).
  assert (E3 : (String c d =? "nan") = false) by (simpl; now rewrite Hn).
  rewrite E1, E2, E3. cbn [orb].
  unfold number, digitpart. rewrite Hc, (digits_more_all d _ _ Hd).
  cbn [exponent]. unfold decimal_value. cbn [decimal_from]. rewrite Hc.
  change (0 - Z.of_nat 0)%Z with 0%Z.
  now rewrite float_of_decimal_whole.
Qed.

Lemma remove_commas_digits (s : string) :
  all_in digit_or_comma s = true ->
  all_in is_digit (remove_commas s) = true
  /\ forall acc, decimal_from acc (remove_commas s) = decimal_from acc s.
Proof.
  induction s as [|c s IH]; simpl; intros H; [now split|].
  apply andb_prop in H as [Hc Hs]. destruct (IH Hs) as [Ha Hv].
  unfold digit_or_comma in Hc. destruct (is_digit c) eqn:Ed.
  - destruct (digit_plain c Ed) as (_ & _ & _ & _ & _ & _ & ->).
    simpl. rewrite Ed, Ha. split; [reflexivity|]. intros acc. apply Hv.
  - simpl in Hc. rewrite Hc. split; [exact Ha|]. intros acc. apply Hv.
Qed.

(** X6.  A Value cell made of digits and commas, with a digit at least,
    is cleaned to the binary64 nearest to the whole number that its digits
    spell, wherever the commas stand. *)
Theorem whole_numbers_with_commas (s : string) :
  all_in digit_or_comma s = true ->
  remove_commas s <> EmptyString ->
  clean_value s = Some (float_of_Z (Z.of_N (decimal_value s))).
Proof.
  intros Hs Hne. destruct (remove_commas_digits s Hs) as [Hd Hv].
  unfold clean_value. rewrite (float_of_string_digits _ Hne Hd).
  unfold decimal_value. now rewrite Hv.
Qed.

Lemma whole_numbers_with_commas_witness :
  clean_value "12,345,678" = Some (float_of_Z 12345678)
  /\ clean_value "1,2,,3" = Some (float_of_Z 123).
Proof.
  split.
  - apply (whole_numbers_with_commas "12,345,678"); [reflexivity|].
    discriminate.
  - apply (whole_numbers_with_commas "1,2,,3"); [reflexivity|].
    discriminate.
Defined.

(** ** binary64: quotients and sums of numbers *)

Lemma new_location_zero (n : Z) : new_location n 0 = loc_Exact.
Proof. unfold new_location. now destruct (Z.even n). Qed.

(** A nonzero number divided by itself is 1. *)
Lemma fdiv_self (s : bool) (m : positive) (e : Z) :
  fdiv (S754_finite s m e) (S754_finite s m e) = float_of_Z 1.
Proof.
  unfold fdiv, SFdiv, SFdiv_core_binary.
  rewrite !Z.sub_diag.
  change (Z.min (fexp prec emax 0) 0) with (-53)%Z.
  change (0 - -53)%Z with 53%Z. cbv iota.
  rewrite Z.shiftl_mul_pow2 by lia.
  assert (E : Z.div_eucl (Z.pos m * 2 ^ 53) (Z.pos m) = ((2 ^ 53)%Z, 0%Z)).
  { assert (Hd : (Z.pos m * 2 ^ 53 / Z.pos m = 2 ^ 53)%Z)
      by (rewrite Z.mul_comm; apply Z.div_mul; lia).
    assert (Hm : (Z.pos m * 2 ^ 53 mod Z.pos m = 0)%Z)
      by (rewrite Z.mul_comm; apply Z.mod_mul; lia).
    unfold Z.div, Z.modulo in Hd, Hm.
    destruct (Z.div_eucl (Z.pos m * 2 ^ 53) (Z.pos m)) as [q r].
    now subst. }
  rewrite E, new_location_zero. now destruct s.
Qed.

Lemma shr_1_nonneg (mrs : shr_record) :
  (0 <= shr_m mrs)%Z -> (0 <= shr_m (shr_1 mrs))%Z.
Proof.
  destruct mrs as [[|[p|p|]|p] r s]; simpl; lia.
Qed.

Lemma iter_pos_shr_1_nonneg (p : positive) :
  forall mrs, (0 <= shr_m mrs)%Z -> (0 <= shr_m (iter_pos shr_1 p mrs))%Z.
Proof.
  induction p as [p IH|p IH|]; intros mrs H; simpl.
  - apply IH, IH. now apply shr_1_nonneg.
  - now apply IH, IH.
  - now apply shr_1_nonneg.
Qed.

Lemma shr_fexp_nonneg (m e : Z) (l : location) :
  (0 <= m)%Z -> (0 <= shr_m (fst (shr_fexp prec emax m e l)))%Z.
Proof.
  intros H. unfold shr_fexp, shr.
  assert (H0 : (0 <= shr_m (shr_record_of_loc m l))%Z)
    by (destruct l as [|[]]; exact H).
  destruct (fexp prec emax (Zdigits2 m + e) - e)%Z; simpl; auto.
  now apply iter_pos_shr_1_nonneg.
Qed.

Lemma round_nearest_even_nonneg (m : Z) (l : location) :
  (0 <= m)%Z -> (0 <= round_nearest_even m l)%Z.
Proof.
  intros H. destruct l as [|[]]; simpl; try lia.
  destruct (Z.even m); lia.
Qed.

(** Rounding a non-negative mantissa never gives NaN. *)
Lemma binary_round_aux_number (s : bool) (m e : Z) (l : location) :
  (0 <= m)%Z -> isna (binary_round_aux prec emax s m e l) = false.
Proof.
  intros H. unfold binary_round_aux.
  assert (H1 := shr_fexp_nonneg m e l H).
  destruct (shr_fexp prec emax m e l) as [mrs' e'].
  cbn [fst] in H1.
  assert (H2 := shr_fexp_nonneg _ e' loc_Exact
                  (round_nearest_even_nonneg _ (loc_of_shr_record mrs') H1)).
  destruct (shr_fexp prec emax _ e' loc_Exact) as [mrs'' e''].
  cbn [fst] in H2.
  destruct (shr_m mrs'') as [|p|p]; [reflexivity| |lia].
  now destruct (e'' <=? emax - prec)%Z.
Qed.

Lemma binary_normalize_number (m e : Z) (sz : bool) :
  isna (binary_normalize prec emax m e sz) = false.
Proof.
  destruct m as [|p|p]; [reflexivity| |];
    unfold binary_normalize, binary_round;
    destruct (shl_align _ _ _) as [mz ez];
    apply binary_round_aux_number; lia.
Qed.

(** Sums and differences of finite numbers are numbers; so are their
    quotients, but for 0/0. *)
Lemma fadd_number (x y : float) :
  is_finite x = true -> is_finite y = true -> isna (fadd x y) = false.
Proof.
  destruct x as [sx|sx| |sx mx ex], y as [sy|sy| |sy my ey];
    try discriminate; intros _ _; try reflexivity.
  - now destruct sx, sy.
  - apply binary_normalize_number.
Qed.

Lemma fsub_number (x y : float) :
  is_finite x = true -> is_finite y = true -> isna (fsub x y) = false.
Proof.
  destruct x as [sx|sx| |sx mx ex], y as [sy|sy| |sy my ey];
    try discriminate; intros _ _; try reflexivity.
  - now destruct sx, sy.
  - apply binary_normalize_number.
Qed.

Lemma fdiv_number (x y : float) :
  is_finite x = true -> is_finite y = true ->
  isna (fdiv x y) = (is_zero x && is_zero y)%bool.
Proof.
  destruct x as [sx|sx| |sx mx ex], y as [sy|sy| |sy my ey];
    try discriminate; intros _ _; try reflexivity.
  unfold fdiv, SFdiv.
  destruct (SFdiv_core_binary prec emax (Z.pos mx) ex (Z.pos my) ey)
    as [[q e'] l] eqn:E.
  apply binary_round_aux_number.
  unfold SFdiv_core_binary in E.
  set (m' := match _ with Z.pos _ => _ | Z0 => _ | Z.neg _ => _ end) in E.
  assert (Hm' : (0 <= m')%Z).
  { subst m'. destruct (_ - _ - _)%Z; try lia.
    apply Z.shiftl_nonneg. lia. }
  assert (Hq : (0 <= m' / Z.pos my)%Z) by (apply Z.div_pos; lia).
  unfold Z.div in Hq.
  destruct (Z.div_eucl m' (Z.pos my)) as [q' r']. now injection E as <- _ _.
Qed.

(** ** The indicators of a row *)

Lemma not_infinite_cases (x : float) :
  is_infinite x = false -> isna x = true \/ is_finite x = true.
Proof. destruct x; simpl; auto; discriminate. Qed.

(** X7.  In a row whose Exports and Imports are not infinite, Trade_Balance
    and Trade_Volume are missing exactly when Exports or Imports is
    missing, and Export_Import_Ratio is missing exactly then and when both
    are zero: rounding and overflow never produce a missing value. *)
Theorem missing_indicators_have_a_missing_operand (e i : list Norm.t) :
  Forall (fun r =>
            is_infinite (Fact.Exports r) = false ->
            is_infinite (Fact.Imports r) = false ->
            let missing :=
              (isna (Fact.Exports r) || isna (Fact.Imports r))%bool in
            isna (Fact.Trade_Balance r) = missing
            /\ isna (Fact.Trade_Volume r) = missing
            /\ isna (Fact.Export_Import_Ratio r)
               = (missing
                  || (is_zero (Fact.Exports r) && is_zero (Fact.Imports r)))%bool)
         (calculate_trade_metrics e i).
Proof.
  rewrite calculate_trade_metrics_eq. apply Forall_map, Forall_forall.
  intros m _. cbn. intros HE HI.
  destruct (not_infinite_cases _ HE) as [NE | FE].
  - destruct (Merged.Exports m); try discriminate. now rewrite fsub_nan_l.
  - destruct (not_infinite_cases _ HI) as [NI | FI].
    + destruct (Merged.Imports m); try discriminate.
      rewrite fsub_nan_r, fadd_nan_r, fdiv_nan_r.
      now rewrite !orb_true_r.
    + rewrite (fsub_number _ _ FE FI), (fadd_number _ _ FE FI),
        (fdiv_number _ _ FE FI).
      destruct (Merged.Exports m), (Merged.Imports m); try discriminate;
        repeat split.
Qed.

Lemma missing_indicators_have_a_missing_operand_witness :
  map (fun r => (isna (Fact.Trade_Balance r), isna (Fact.Trade_Volume r),
                 isna (Fact.Export_Import_Ratio r)))
    (calculate_trade_metrics (harmonized zero_zero_exports)
       (harmonized zero_zero_imports))
  = [(false, false, true); (false, false, false)]
  /\ Forall (fun r =>
            is_infinite (Fact.Exports r) = false ->
            is_infinite (Fact.Imports r) = false ->
            let missing :=
              (isna (Fact.Exports r) || isna (Fact.Imports r))%bool in
            isna (Fact.Trade_Balance r) = missing
            /\ isna (Fact.Trade_Volume r) = missing
            /\ isna (Fact.Export_Import_Ratio r)
               = (missing
                  || (is_zero (Fact.Exports r) && is_zero (Fact.Imports r)))%bool)
         (calculate_trade_metrics (harmonized zero_zero_exports)
            (harmonized zero_zero_imports)).
Proof.
  split; [vm_compute; reflexivity|].
  apply (missing_indicators_have_a_missing_operand
           (harmonized zero_zero_exports) (harmonized zero_zero_imports)).
Defined.

Lemma fsub_self (s : bool) (m : positive) (e : Z) :
  fsub (S754_finite s m e) (S754_finite s m e) = S754_zero false.
Proof.
  unfold fsub, SFsub. now rewrite Z.sub_diag.
Qed.

(** The sum of one number is that number: the compensation is 0. *)
Lemma nansum_single (s : bool) (m : positive) (e : Z) :
  nansum [S754_finite s m e] = S754_finite s m e.
Proof.
  unfold nansum. cbn [fold_left isna kahan_step].
  change (fsub (S754_finite s m e) (S754_zero false))
    with (S754_finite s m e).
  change (fadd (S754_zero false) (S754_finite s m e))
    with (S754_finite s m e).
  reflexivity.
Qed.

(** X8.  A country that is alone in its period, with a nonzero finite
    value on one side, has the share 1 on that side, exactly; with nonzero
    finite values on both sides its RCA_Index is 1. *)
Theorem sole_country_has_share_one
    (e i : list Norm.t) (r : Fact.t) (s : side) :
  let out := calculate_trade_metrics e i in
  In r out ->
  time_group (Fact.Time r) out = [r] ->
  is_finite (side_value s r) = true -> is_zero (side_value s r) = false ->
  side_share s r = float_of_Z 1
  /\ (is_finite (Fact.Exports r) = true -> is_zero (Fact.Exports r) = false ->
      is_finite (Fact.Imports r) = true -> is_zero (Fact.Imports r) = false ->
      Fact.RCA_Index r = float_of_Z 1).
Proof.
  intros out Hin Hg Hf Hz.
  assert (Hs : forall s', is_finite (side_value s' r) = true ->
                          is_zero (side_value s' r) = false ->
                          side_share s' r = float_of_Z 1).
  { intros s' Hf' Hz'.
    assert (Hr : In r (time_group (Fact.Time r) out))
      by (rewrite Hg; now left).
    rewrite (share_in_group e i (Fact.Time r) s' r Hr).
    fold out. rewrite Hg. cbn [map].
    destruct (side_value s' r) as [| | |sx mx ex]; try discriminate.
    rewrite nansum_single. apply fdiv_self. }
  split; [now apply Hs|].
  intros FE ZE FI ZI.
  assert (HE := Hs ExportsSide FE ZE). assert (HI := Hs ImportsSide FI ZI).
  cbn [side_share] in HE, HI.
  assert (Hrca : Fact.RCA_Index r
                 = fdiv (Fact.Export_Share r) (Fact.Import_Share r)).
  { subst out. rewrite calculate_trade_metrics_eq in Hin.
    apply in_map_iff in Hin as (m & <- & _). reflexivity. }
  rewrite Hrca, HE, HI. reflexivity.
Qed.

Lemma sole_country_has_share_one_witness :
  let out := calculate_trade_metrics (harmonized scenario_exports)
               (harmonized scenario_imports) in
  out = [scenario_row]
  /\ side_share ExportsSide scenario_row = float_of_Z 1
  /\ Fact.RCA_Index scenario_row = float_of_Z 1.
Proof.
  intros out.
  assert (E : out = [scenario_row]) by (vm_compute; reflexivity).
  split; [exact E|].
  destruct (sole_country_has_share_one (harmonized scenario_exports)
              (harmonized scenario_imports) scenario_row ExportsSide)
    as [H1 H2].
  - fold out. rewrite E. now left.
  - fold out. rewrite E. reflexivity.
  - reflexivity.
  - reflexivity.
  - split; [exact H1|]. apply H2; reflexivity.
Defined.

(** X9.  A row whose Exports and Imports are the same nonzero finite
    number has the Trade_Balance +0 and the Export_Import_Ratio 1. *)
Theorem balanced_trade_row (e i : list Norm.t) :
  Forall (fun r =>
            Fact.Exports r = Fact.Imports r ->
            is_finite (Fact.Exports r) = true ->
            is_zero (Fact.Exports r) = false ->
            Fact.Trade_Balance r = S754_zero false
            /\ Fact.Export_Import_Ratio r = float_of_Z 1)
         (calculate_trade_metrics e i).
Proof.
  rewrite calculate_trade_metrics_eq. apply Forall_map, Forall_forall.
  intros m _. cbn. intros <- Hf Hz.
  destruct (Merged.Exports m) as [| | |s mx ex]; try discriminate.
  split; [apply fsub_self | apply fdiv_self].
Qed.

Lemma balanced_trade_row_witness :
  map (fun r => (Fact.Trade_Balance r, Fact.Export_Import_Ratio r))
    (calculate_trade_metrics (harmonized balanced_report)
       (harmonized balanced_report))
  = [(S754_zero false, float_of_Z 1)]
  /\ Forall (fun r =>
            Fact.Exports r = Fact.Imports r ->
            is_finite (Fact.Exports r) = true ->
            is_zero (Fact.Exports r) = false ->
            Fact.Trade_Balance r = S754_zero false
            /\ Fact.Export_Import_Ratio r = float_of_Z 1)
         (calculate_trade_metrics (harmonized balanced_report)
            (harmonized balanced_report)).
Proof.
  split; [vm_compute; reflexivity|].
  apply (balanced_trade_row (harmonized balanced_report)
           (harmonized balanced_report)).
Defined.

(** ** Rows per key *)

Lemma count_occ_keys (k : key) (l : list Side.t) :
  count_occ key_eq_dec (map key_of l) k
  = List.length (filter (has_key k) l).
Proof.
  induction l as [|x l IH]; [reflexivity|].
  cbn [map count_occ filter]. unfold has_key at 1, key_eqb.
  destruct (key_eq_dec (key_of x) k); cbn [List.length]; now rewrite IH.
Qed.

Lemma length_flat_map_const {A B : Type} (f : A -> list B) (n : nat)
    (l : list A) :
  (forall a, List.length (f a) = n) ->
  List.length (flat_map f l) = (List.length l * n)%nat.
Proof.
  intros H. induction l as [|a l IH]; simpl; [reflexivity|].
  now rewrite length_app, H, IH.
Qed.

Lemma join_group_length (L R : list Side.t) (k : key) :
  List.length (join_group L R k)
  = rows_per_key (List.length (filter (has_key k) L))
      (List.length (filter (has_key k) R)).
Proof.
  unfold join_group.
  destruct (filter (has_key k) L) as [|l ls].
  - now rewrite length_map.
  - destruct (filter (has_key k) R) as [|r rs].
    + now rewrite length_map.
    + rewrite (length_flat_map_const _ (List.length (r :: rs)))
        by (intros a; now rewrite length_map).
      reflexivity.
Qed.

Lemma count_occ_all {A : Type} (dec : forall x y : A, {x = y} + {x <> y})
    (l : list A) (k k' : A) :
  Forall (fun x => x = k') l ->
  count_occ dec l k = if dec k' k then List.length l else 0%nat.
Proof.
  induction 1 as [|x l -> _ IH]; simpl.
  - now destruct (dec k' k).
  - rewrite IH. now destruct (dec k' k).
Qed.

Lemma count_occ_flat_map {A B : Type}
    (dec : forall x y : A, {x = y} + {x <> y})
    (f : B -> A) (g : A -> list B) (ks : list A) (k : A) :
  NoDup ks ->
  (forall k', Forall (fun m => f m = k') (g k')) ->
  count_occ dec (map f (flat_map g ks)) k
  = if in_dec dec k ks then List.length (g k) else 0%nat.
Proof.
  intros Hnd Hg. induction Hnd as [|k0 ks Hk0 Hnd IH]; [reflexivity|].
  cbn [flat_map]. rewrite map_app, count_occ_app, IH.
  rewrite (count_occ_all dec _ k k0)
    by (rewrite Forall_map; apply Hg).
  rewrite length_map.
  destruct (dec k0 k) as [->|Hne].
  - destruct (in_dec dec k ks) as [Hin|_]; [contradiction|].
    destruct (in_dec dec k (k :: ks)) as [_|Hn]; [lia|].
    exfalso. apply Hn. now left.
  - destruct (in_dec dec k ks) as [Hin|Hn];
      destruct (in_dec dec k (k0 :: ks)) as [Hin'|Hn']; try reflexivity.
    + exfalso. apply Hn'. now right.
    + destruct Hin' as [E|Hin']; [congruence | contradiction].
Qed.

Lemma merge_outer_count (L R : list Side.t) (k : key) :
  count_occ key_eq_dec (map Merged_key (merge_outer L R)) k
  = rows_per_key (count_occ key_eq_dec (map key_of L) k)
      (count_occ key_eq_dec (map key_of R) k).
Proof.
  unfold merge_outer.
  rewrite (count_occ_flat_map key_eq_dec Merged_key (join_group L R))
    by (try apply join_key_list_NoDup; intros k'; apply join_group_keys).
  rewrite !count_occ_keys.
  destruct (in_dec key_eq_dec k (join_key_list L R)) as [Hin|Hn].
  - apply join_group_length.
  - rewrite join_key_list_In, in_app_iff in Hn.
    assert (EL : filter (has_key k) L = []) by (apply filter_key_nil; tauto).
    assert (ER : filter (has_key k) R = []) by (apply filter_key_nil; tauto).
    now rewrite EL, ER.
Qed.

(** X10.  A key that the exports table has l times and the imports table
    r times is the key of l * r rows of the fact table when both have it,
    and of as many rows as the one side has when the other has none:
    duplicate (Time, Date, Year, Month, Country) rows are neither rejected
    nor merged, they multiply. *)
Theorem duplicate_keys_multiply (e i : list Norm.t) (k : key) :
  count_occ key_eq_dec (map Fact_key (calculate_trade_metrics e i)) k
  = rows_per_key (count_occ key_eq_dec (map Norm_key e) k)
      (count_occ key_eq_dec (map Norm_key i) k).
Proof.
  unfold Fact_key. rewrite <- map_map, no_row_dropped.
  unfold merged_of. rewrite merge_outer_count, !map_map. reflexivity.
Qed.

Example six_rows_from_two_and_three :
  map (fun r => (Fact.Exports r, Fact.Imports r))
    (calculate_trade_metrics (harmonized twice_canada)
       (harmonized thrice_canada))
  = [(float_of_Z 1, float_of_Z 10); (float_of_Z 1, float_of_Z 20);
     (float_of_Z 1, float_of_Z 30); (float_of_Z 2, float_of_Z 10);
     (float_of_Z 2, float_of_Z 20); (float_of_Z 2, float_of_Z 30)].
Proof. vm_compute. reflexivity. Qed.

(** X11.  When both tables have the same keys and no missing value, no row
    of the fact table lacks Exports or Imports. *)
Theorem same_keys_leave_no_gap (e i : list Norm.t) :
  (forall k, In k (map Norm_key e) <-> In k (map Norm_key i)) ->
  Forall (fun r => present (Norm.Value r) = true) e ->
  Forall (fun r => present (Norm.Value r) = true) i ->
  Forall (fun r => present (Fact.Exports r) = true
                   /\ present (Fact.Imports r) = true)
         (calculate_trade_metrics e i).
Proof.
  intros Hk He Hi.
  rewrite calculate_trade_metrics_eq. apply Forall_map, Forall_forall.
  intros m Hm. cbn.
  unfold merged_of, merge_outer in Hm.
  apply in_flat_map in Hm as (k & Hkin & Hm).
  apply join_key_list_In in Hkin. rewrite !map_map in Hkin.
  fold Norm_key in Hkin.
  change (fun x => key_of (select x)) with Norm_key in Hkin.
  assert (HkE : In k (map Norm_key e))
    by (apply in_app_or in Hkin as [H|H]; [assumption | now apply Hk]).
  assert (HkI : In k (map Norm_key i)) by now apply Hk.
  unfold join_group in Hm.
  destruct (filter (has_key k) (map select e)) as [|l ls] eqn:EL.
  { apply filter_key_nil in EL. rewrite map_map in EL. contradiction. }
  destruct (filter (has_key k) (map select i)) as [|r rs] eqn:ER.
  { apply filter_key_nil in ER. rewrite map_map in ER. contradiction. }
  apply in_flat_map in Hm as (l' & Hl & Hm).
  apply in_map_iff in Hm as (r' & <- & Hr).
  rewrite <- EL in Hl. rewrite <- ER in Hr.
  apply filter_key_In in Hl as [Hl _]. apply filter_key_In in Hr as [Hr _].
  apply in_map_iff in Hl as (x & <- & Hx).
  apply in_map_iff in Hr as (y & <- & Hy).
  rewrite Forall_forall in He, Hi. cbn. split; [now apply He | now apply Hi].
Qed.

Lemma same_keys_leave_no_gap_witness :
  Forall (fun r => present (Fact.Exports r) = true
                   /\ present (Fact.Imports r) = true)
         (calculate_trade_metrics (harmonized scenario_exports)
            (harmonized scenario_imports)).
Proof.
  apply (same_keys_leave_no_gap (harmonized scenario_exports)
           (harmonized scenario_imports)).
  - intros k. vm_compute. tauto.
  - vm_compute. repeat constructor.
  - vm_compute. repeat constructor.
Defined.

(** ** The scripts on the files *)

(** X13.  The two preparation scripts do not depend on each other: when
    each of them succeeds on the files as they are, running them in
    either order succeeds and leaves the same files, and running one of
    them a second time changes nothing. *)
Theorem preparation_scripts_commute (st : store) :
  fst (nafta_exports st) = Ok tt -> fst (nafta_imports st) = Ok tt ->
  fst ((nafta_exports ;; nafta_imports) st) = Ok tt
  /\ fst ((nafta_imports ;; nafta_exports) st) = Ok tt
  /\ (forall p, snd ((nafta_exports ;; nafta_imports) st) p
                = snd ((nafta_imports ;; nafta_exports) st) p)
  /\ (forall p, snd ((nafta_exports ;; nafta_exports) st) p
                = snd (nafta_exports st) p)
  /\ (forall p, snd ((nafta_imports ;; nafta_imports) st) p
                = snd (nafta_imports st) p).
Proof.
  unfold nafta_exports, nafta_imports, bind, read_raw, lift, to_csv.
  destruct (st exports_input_path) as [[ex| |]|] eqn:Hex;
    try (intros H; discriminate H).
  destruct (harmonize ex) as [e'|e] eqn:He; [|intros H; discriminate H].
  destruct (st imports_input_path) as [[im| |]|] eqn:Him;
    try (intros _ H; discriminate H).
  destruct (harmonize im) as [i'|e] eqn:Hi; [|intros _ H; discriminate H].
  intros _ _. cbn. rewrite Hex, Him, He, Hi. cbn.
  split; [reflexivity|]. split; [reflexivity|].
  split; [|split].
  - intros p.
    destruct (p =? imports_path) eqn:E1; destruct (p =? exports_path) eqn:E2;
      try reflexivity.
    apply String.eqb_eq in E1, E2. subst p. discriminate E2.
  - intros p. now destruct (p =? exports_path).
  - intros p. now destruct (p =? imports_path).
Qed.

Lemma preparation_scripts_commute_witness :
  let st := initial_store scenario_exports scenario_imports in
  snd ((nafta_exports ;; nafta_imports) st) exports_path
  = snd ((nafta_imports ;; nafta_exports) st) exports_path.
Proof.
  intros st.
  destruct (preparation_scripts_commute st) as (_ & _ & H & _).
  - vm_compute. reflexivity.
  - vm_compute. reflexivity.
  - apply H.
Defined.

(** ** The charts *)

Lemma unique_In (l : list string) (v : string) : In v (unique l) <-> In v l.
Proof.
  induction l as [|w l IH]; simpl; [tauto|].
  rewrite filter_In, IH, negb_true_iff, String.eqb_neq.
  destruct (string_dec w v) as [->|Hne]; [tauto|].
  split; [tauto|]. intros [H|H]; [tauto|]. right. split; [assumption|].
  congruence.
Qed.

Lemma unique_NoDup (l : list string) : NoDup (unique l).
Proof.
  induction l as [|w l IH]; simpl; constructor.
  - rewrite filter_In, String.eqb_refl. intros [_ H]. discriminate H.
  - now apply NoDup_filter.
Qed.

Lemma filter_cons_inv {A : Type} (p : A -> bool) (u : list A) (v : A) :
  forall a r, filter p u = (a ++ v :: r)%list ->
  exists a' r', u = (a' ++ v :: r')%list
                /\ filter p a' = a /\ filter p r' = r /\ p v = true.
Proof.
  induction u as [|w u IH]; intros a r E; [now destruct a|].
  cbn [filter] in E. destruct (p w) eqn:Ew.
  - destruct a as [|z a].
    + injection E as -> E. exists [], u. repeat split; assumption.
    + injection E as -> E. destruct (IH a r E) as (a' & r' & -> & Ea & Er & Ev).
      exists (z :: a'), r'. cbn [filter app]. rewrite Ew, Ea.
      repeat split; assumption.
  - destruct (IH a r E) as (a' & r' & -> & Ea & Er & Ev).
    exists (w :: a'), r'. cbn [filter app]. rewrite Ew.
    repeat split; assumption.
Qed.

(** [unique] lists the values in the order of their first appearance:
    a value that it lists before another appears in the column before
    the other does. *)
Lemma unique_order (l : list string) :
  forall a c1 b c2 c,
    unique l = (a ++ c1 :: b ++ c2 :: c)%list ->
    exists before after,
      l = (before ++ c1 :: after)%list
      /\ ~ In c1 before /\ ~ In c2 before.
Proof.
  induction l as [|v l IH]; intros a c1 b c2 c E; [now destruct a|].
  cbn [unique] in E. destruct a as [|z a].
  - injection E as -> _. exists [], l. repeat split; auto.
  - injection E as -> E.
    apply filter_cons_inv in E as (a1 & r1 & E1 & _ & Er & H1).
    apply filter_cons_inv in Er as (b1 & r2 & -> & _ & _ & H2).
    destruct (IH a1 c1 b1 c2 r2 E1) as (before & after & -> & N1 & N2).
    apply negb_true_iff, String.eqb_neq in H1, H2.
    exists (z :: before), after. split; [reflexivity|].
    split; intros [H|H]; congruence || contradiction.
Qed.

Lemma flat_map_ext_in {A B : Type} (f g : A -> list B) (l : list A) :
  (forall a, In a l -> f a = g a) -> flat_map f l = flat_map g l.
Proof.
  induction l as [|a l IH]; simpl; intros H; [reflexivity|].
  rewrite (H a) by now left. f_equal. apply IH. auto.
Qed.

(** Grouping rows by a text key, over a duplicate-free list of the keys,
    only rearranges the rows. *)
Lemma groups_partition {A : Type} (k : A -> string) (rows : list A) :
  forall keys, NoDup keys -> (forall r, In r rows -> In (k r) keys) ->
  Permutation (flat_map (fun c => filter (fun r => k r =? c) rows) keys) rows.
Proof.
  induction rows as [|r rows IH]; intros keys Hnd Hin.
  - clear Hnd Hin. induction keys as [|c keys IHk]; simpl; [constructor|].
    exact IHk.
  - assert (Hr : In (k r) keys) by (apply Hin; now left).
    destruct (in_split _ _ Hr) as (k1 & k2 & ->).
    apply NoDup_remove in Hnd as Hnd'. destruct Hnd' as [_ Hnot].
    rewrite flat_map_app. cbn [flat_map filter]. rewrite String.eqb_refl.
    rewrite (flat_map_ext_in _ (fun c => filter (fun r0 => k r0 =? c) rows) k1).
    2:{ intros c Hc. cbn [filter].
        destruct (String.eqb_spec (k r) c) as [<-|_]; [|reflexivity].
        exfalso. apply Hnot, in_or_app. now left. }
    rewrite (flat_map_ext_in _ (fun c => filter (fun r0 => k r0 =? c) rows) k2).
    2:{ intros c Hc. cbn [filter].
        destruct (String.eqb_spec (k r) c) as [<-|_]; [|reflexivity].
        exfalso. apply Hnot, in_or_app. now right. }
    rewrite <- app_comm_cons. 
    etransitivity; [symmetry; apply Permutation_middle|].
    constructor.
    specialize (IH (k1 ++ k r :: k2)%list Hnd (fun r0 H => Hin r0 (or_intror H))).
    rewrite flat_map_app in IH. exact IH.
Qed.

Lemma points_of_line (column : Fact.t -> float) (annual : list Fact.t)
    (c : string) :
  points (Plot.mk c (map Fact.Year (country_data annual c))
            (map column (country_data annual c)))
  = map (point_of column) (country_data annual c).
Proof.
  unfold points, country_data. cbn [Plot.label Plot.x Plot.y].
  induction annual as [|r annual IH]; [reflexivity|].
  cbn [filter]. destruct (String.eqb_spec (Fact.Country r) c) as [E|_];
    [|exact IH].
  cbn [map combine fst snd]. rewrite IH. unfold point_of at 2. now rewrite E.
Qed.

(** X15.  A chart has one line per country that has an annual row, each
    country once, in the order of first appearance: when the line of a
    country comes before the line of another, the annual rows have the
    first country before they have the other.  No line is empty, every
    line has as many x as y values, and the three charts that are saved
    have the same lines up to their y values. *)
Theorem one_line_per_annual_country
    (column : Fact.t -> float) (trade_metrics : list Fact.t) :
  let ls := plot_by_country column (annual_data trade_metrics) in
  NoDup (map Plot.label ls)
  /\ (forall c, In c (map Plot.label ls)
                <-> exists r, In r trade_metrics
                              /\ Fact.Month r = "Annual"
                              /\ Fact.Country r = c)
  /\ (forall a c1 b c2 c,
        map Plot.label ls = (a ++ c1 :: b ++ c2 :: c)%list ->
        exists before after,
          map Fact.Country (annual_data trade_metrics)
          = (before ++ c1 :: after)%list
          /\ ~ In c1 before /\ ~ In c2 before)
  /\ Forall (fun l => Plot.x l <> []
                      /\ List.length (Plot.x l) = List.length (Plot.y l)) ls
  /\ (forall column',
        let ls' := plot_by_country column' (annual_data trade_metrics) in
        map Plot.label ls' = map Plot.label ls
        /\ map Plot.x ls' = map Plot.x ls)
  /\ Forall (fun f => map Plot.label (Plot.lines (snd f)) = map Plot.label ls
                      /\ map Plot.x (Plot.lines (snd f)) = map Plot.x ls)
       (figures trade_metrics).
Proof.
  intros ls. subst ls. unfold plot_by_country.
  set (annual := annual_data trade_metrics).
  rewrite map_map. cbn [Plot.label]. rewrite map_id.
  split; [apply unique_NoDup|].
  split.
  { intros c. rewrite unique_In, in_map_iff. unfold annual, annual_data.
    split.
    - intros (r & E & Hr). apply filter_In in Hr as [Hr Hm].
      apply String.eqb_eq in Hm. eauto.
    - intros (r & Hr & Hm & E). exists r. split; [assumption|].
      apply filter_In. split; [assumption|]. now apply String.eqb_eq. }
  split; [apply unique_order|].
  split.
  { apply Forall_map, Forall_forall. intros c Hc. cbn [Plot.x Plot.y].
    rewrite !length_map. split; [|reflexivity].
    apply unique_In, in_map_iff in Hc as (r & E & Hr).
    assert (Hin : In r (country_data annual c))
      by (apply filter_In; split; [assumption | now apply String.eqb_eq]).
    intros Hnil. destruct (country_data annual c); [contradiction|].
    discriminate Hnil. }
  assert (Hsame : forall column',
             map Plot.label
               (map (fun country =>
                       Plot.mk country
                         (map Fact.Year (country_data annual country))
                         (map column' (country_data annual country)))
                  (unique (map Fact.Country annual)))
             = unique (map Fact.Country annual)
             /\ map Plot.x
                  (map (fun country =>
                          Plot.mk country
                            (map Fact.Year (country_data annual country))
                            (map column' (country_data annual country)))
                     (unique (map Fact.Country annual)))
                = map Plot.x
                    (map (fun country =>
                            Plot.mk country
                              (map Fact.Year (country_data annual country))
                              (map column (country_data annual country)))
                       (unique (map Fact.Country annual)))).
  { intros column'. rewrite !map_map. cbn [Plot.label Plot.x].
    split; [now rewrite map_id | reflexivity]. }
  split; [exact Hsame|].
  unfold figures, annual_trade_balance, export_import_ratio, rca_index,
    plot_by_country. fold annual.
  repeat constructor; cbn [snd Plot.lines]; apply Hsame.
Qed.

(** X16.  Every annual row of the fact table is one point of the chart, on
    the line of its country, and the chart has no other point: rows of a
    month are never plotted and no annual row is plotted twice or left
    out, whatever its values (a missing value is a point as well). *)
Theorem each_annual_row_is_one_point
    (column : Fact.t -> float) (trade_metrics : list Fact.t) :
  Permutation
    (flat_map points (plot_by_country column (annual_data trade_metrics)))
    (map (point_of column)
       (filter (fun r => Fact.Month r =? "Annual") trade_metrics)).
Proof.
  fold (annual_data trade_metrics). set (annual := annual_data trade_metrics).
  unfold plot_by_country. rewrite flat_map_concat_map, map_map.
  rewrite (map_ext _ (fun c => map (point_of column) (country_data annual c)))
    by (intros c; apply points_of_line).
  rewrite <- map_map, <- concat_map, <- flat_map_concat_map.
  apply Permutation_map.
  apply (groups_partition Fact.Country annual).
  - apply unique_NoDup.
  - intros r Hr. apply unique_In. now apply in_map.
Qed.

Example chart_of_two_countries :
  Plot.lines
    (export_import_ratio
       (calculate_trade_metrics (harmonized chart_exports)
          (harmonized chart_imports)))
  = [Plot.mk "Canada" ["2020"; "2021"] [float_of_Z 2; float_of_Z 2];
     Plot.mk "Mexico" ["2020"; "2021"] [nan; nan]].
Proof. vm_compute. reflexivity. Qed.

(** ** The reports as labelled columns *)




















(** ** The catalogue of strategic HTS codes *)

Lemma count_occ_flat_map_sum {A B : Type}
    (dec : forall x y : B, {x = y} + {x <> y}) (f : A -> list B)
    (l : list A) (b : B) :
  count_occ dec (flat_map f l) b
  = list_sum (map (fun a => count_occ dec (f a) b) l).
Proof.
  induction l as [|a l IH]; [reflexivity|].
  cbn [flat_map map list_sum]. now rewrite count_occ_app, IH.
Qed.

Lemma count_occ_NoDup_existsb (l : list string) (v : string) :
  NoDup l ->
  count_occ string_dec l v
  = if existsb (String.eqb v) l then 1%nat else 0%nat.
Proof.
  induction 1 as [|w l Hw _ IH]; [reflexivity|].
  cbn [count_occ existsb].
  destruct (string_dec w v) as [->|Hne].
  - rewrite String.eqb_refl. cbn [orb].
    apply f_equal. now apply count_occ_not_In.
  - destruct (String.eqb_spec v w) as [->|_]; [contradiction|]. exact IH.
Qed.

Lemma reference_codes (entry : string * Hts.info) :
  map Hts.HTS_Code (reference_data [entry]) = map fst (Hts.codes (snd entry)).
Proof.
  destruct entry as [category info]. cbn. rewrite app_nil_r, map_map.
  apply map_ext. now intros [code description].
Qed.

Lemma reference_data_cons (entry : string * Hts.info)
    (l : list (string * Hts.info)) :
  reference_data (entry :: l)
  = (reference_data [entry] ++ reference_data l)%list.
Proof. unfold reference_data. cbn [flat_map]. now rewrite app_nil_r. Qed.

Lemma reference_data_length (l : list (string * Hts.info)) :
  List.length (reference_data l)
  = list_sum (map (fun entry => List.length (Hts.codes (snd entry))) l).
Proof.
  induction l as [|entry l IH]; [reflexivity|].
  rewrite reference_data_cons, length_app, IH.
  rewrite <- (length_map Hts.HTS_Code (reference_data [entry])).
  rewrite reference_codes, length_map. reflexivity.
Qed.

(** X19.  The reference sheet has one row for each code of each category,
    with the levels and the note of the category; when a category lists
    no code twice, a code has as many rows as there are categories that
    list it, so that a code of two categories has two rows. *)
Theorem reference_has_a_row_per_listing
    (strategic_codes : list (string * Hts.info)) (code : string) :
  (forall entry, In entry strategic_codes ->
                 NoDup (map fst (Hts.codes (snd entry)))) ->
  List.length (reference_data strategic_codes)
  = list_sum (map (fun entry => List.length (Hts.codes (snd entry)))
                strategic_codes)
  /\ (forall r, In r (reference_data strategic_codes)
                <-> exists category info,
                      In (category, info) strategic_codes
                      /\ In (Hts.HTS_Code r, Hts.Description r)
                            (Hts.codes info)
                      /\ Hts.Category r = category
                      /\ Hts.Trade_Impact r = Hts.trade_impact info
                      /\ Hts.Dependency_Level r = Hts.dependency_level info
                      /\ Hts.Strategic_Note r = Hts.description info)
  /\ count_occ string_dec
       (map Hts.HTS_Code (reference_data strategic_codes)) code
     = List.length (listing code strategic_codes).
Proof.
  intros Hnd. split; [|split].
  - apply reference_data_length.
  - intros r. unfold reference_data. rewrite in_flat_map. split.
    + intros ([category info] & Hin & Hr).
      apply in_map_iff in Hr as ([c d] & <- & Hcd).
      exists category, info. cbn. repeat split; assumption.
    + intros (category & info & Hin & Hcd & E1 & E2 & E3 & E4).
      exists (category, info). split; [assumption|].
      apply in_map_iff. exists (Hts.HTS_Code r, Hts.Description r).
      split; [|assumption]. destruct r. cbn in *. congruence.
  - induction strategic_codes as [|entry l IH]; [reflexivity|].
    rewrite reference_data_cons, map_app, count_occ_app, reference_codes.
    rewrite count_occ_NoDup_existsb by (apply Hnd; now left).
    rewrite IH by (intros e He; apply Hnd; now right).
    unfold listing. cbn [filter].
    destruct (existsb (String.eqb code) (map fst (Hts.codes (snd entry))));
      reflexivity.
Qed.

Lemma reference_has_a_row_per_listing_witness :
  List.length (reference_data define_strategic_hts_codes) = 62%nat
  /\ count_occ string_dec
       (map Hts.HTS_Code (reference_data define_strategic_hts_codes)) "8541"
     = 2%nat
  /\ map fst (listing "8541" define_strategic_hts_codes)
     = ["SEMICONDUCTORS & ELECTRONICS"; "ENERGY & BATTERIES"].
Proof.
  destruct (reference_has_a_row_per_listing define_strategic_hts_codes "8541")
    as (H1 & _ & H3).
  - intros entry Hin.
    repeat (destruct Hin as [<-|Hin];
            [repeat constructor; simpl; intuition discriminate|]).
    destruct Hin.
  - split; [rewrite H1; reflexivity|].
    split; [rewrite H3; reflexivity | reflexivity].
Defined.

Lemma impact_mapping_range (k : string) (x : Q) :
  impact_mapping k = Some x -> inside_the_axes x.
Proof.
  unfold impact_mapping, inside_the_axes.
  repeat match goal with
         | |- context [String.eqb k ?s] => destruct (String.eqb k s)
         end;
    intros E; try discriminate E; injection E as <-;
    split; unfold Qle; simpl; lia.
Qed.

Lemma dependency_mapping_range (k : string) (x : Q) :
  dependency_mapping k = Some x -> inside_the_axes x.
Proof.
  unfold dependency_mapping, inside_the_axes.
  repeat match goal with
         | |- context [String.eqb k ?s] => destruct (String.eqb k s)
         end;
    intros E; try discriminate E; injection E as <-;
    split; unfold Qle; simpl; lia.
Qed.

Lemma append_category_known (m : Hts.matrix) (entry : string * Hts.info) :
  known_levels entry ->
  exists impact dependency,
    impact_mapping (split_head " - " (Hts.trade_impact (snd entry)))
    = Some impact
    /\ dependency_mapping (Hts.dependency_level (snd entry)) = Some dependency
    /\ append_category m entry
       = Ok {| Hts.categories := (Hts.categories m ++ [fst entry])%list;
               Hts.trade_impacts := (Hts.trade_impacts m ++ [impact])%list;
               Hts.dependency_levels :=
                 (Hts.dependency_levels m ++ [dependency])%list;
               Hts.code_counts :=
                 (Hts.code_counts m
                  ++ [List.length (Hts.codes (snd entry))])%list |}.
Proof.
  destruct entry as [category info]. unfold known_levels, append_category,
    lookup. cbn [fst snd]. intros [Hi Hd].
  destruct (impact_mapping _) as [impact|]; [|contradiction].
  destruct (dependency_mapping _) as [dependency|]; [|contradiction].
  now exists impact, dependency.
Qed.

Lemma append_category_unknown (m : Hts.matrix) (entry : string * Hts.info) :
  ~ known_levels entry ->
  append_category m entry = Raise (KeyError (unknown_level entry)).
Proof.
  destruct entry as [category info]. unfold known_levels, append_category,
    unknown_level, lookup. cbn [fst snd]. intros H.
  destruct (impact_mapping _) as [impact|]; [|reflexivity].
  destruct (dependency_mapping _) as [dependency|]; [|reflexivity].
  exfalso. apply H. split; discriminate.
Qed.

Lemma fill_matrix_known (strategic_codes : list (string * Hts.info)) :
  Forall known_levels strategic_codes ->
  forall m, exists impacts dependencies,
    fill_matrix m strategic_codes
    = Ok {| Hts.categories :=
              (Hts.categories m ++ map fst strategic_codes)%list;
            Hts.trade_impacts := (Hts.trade_impacts m ++ impacts)%list;
            Hts.dependency_levels :=
              (Hts.dependency_levels m ++ dependencies)%list;
            Hts.code_counts :=
              (Hts.code_counts m
               ++ map (fun entry => List.length (Hts.codes (snd entry)))
                    strategic_codes)%list |}
    /\ map Some impacts
       = map (fun entry =>
                impact_mapping
                  (split_head " - " (Hts.trade_impact (snd entry))))
           strategic_codes
    /\ map Some dependencies
       = map (fun entry =>
                dependency_mapping (Hts.dependency_level (snd entry)))
           strategic_codes.
Proof.
  induction 1 as [|entry l Hk _ IH]; intros m.
  - exists [], []. cbn. rewrite !app_nil_r. now destruct m.
  - destruct (append_category_known m entry Hk) as (x & y & Ex & Ey & E).
    cbn [fill_matrix]. rewrite E.
    destruct (IH {| Hts.categories := (Hts.categories m ++ [fst entry])%list;
                    Hts.trade_impacts := (Hts.trade_impacts m ++ [x])%list;
                    Hts.dependency_levels :=
                      (Hts.dependency_levels m ++ [y])%list;
                    Hts.code_counts :=
                      (Hts.code_counts m
                       ++ [List.length (Hts.codes (snd entry))])%list |})
      as (xs & ys & E' & Exs & Eys).
    exists (x :: xs), (y :: ys). rewrite E'. cbn.
    rewrite <- !app_assoc. cbn. repeat split; congruence.
Qed.

Lemma fill_matrix_unknown (before : list (string * Hts.info))
    (entry : string * Hts.info) (after : list (string * Hts.info)) :
  Forall known_levels before -> ~ known_levels entry ->
  forall m, fill_matrix m (before ++ entry :: after)%list
            = Raise (KeyError (unknown_level entry)).
Proof.
  intros Hb He. induction Hb as [|e l Hk _ IH]; intros m.
  - cbn. now rewrite append_category_unknown.
  - destruct (append_category_known m e Hk) as (x & y & _ & _ & E).
    cbn [app fill_matrix]. rewrite E. apply IH.
Qed.

Lemma Forall_map_Some {A : Type} (P : A -> Prop) (f : string -> option A)
    (ks : list string) (xs : list A) :
  (forall k x, f k = Some x -> P x) ->
  map Some xs = map f ks -> Forall P xs.
Proof.
  intros H. revert ks. induction xs as [|x xs IH]; intros [|k ks] E;
    try discriminate E; constructor.
  - injection E as E _. symmetry in E. eauto.
  - injection E as _ E. eauto.
Qed.

(** X20.  The priority matrix is drawn when the impact of every category,
    read up to its first " - ", and its dependency level are keys of the
    two mappings: it then has one point per category, in the order of the
    catalogue, with the number of codes of the category, and every point
    lies inside the axes.  Otherwise the first category with a level
    that is no key raises KeyError at that level, the impact being looked
    up first, and no figure is drawn. *)
Theorem priority_matrix_needs_known_levels
    (strategic_codes : list (string * Hts.info)) :
  (Forall known_levels strategic_codes ->
   exists m,
     priority_matrix strategic_codes = Ok m
     /\ Hts.categories m = map fst strategic_codes
     /\ Hts.code_counts m
        = map (fun entry => List.length (Hts.codes (snd entry)))
            strategic_codes
     /\ map Some (Hts.trade_impacts m)
        = map (fun entry =>
                 impact_mapping
                   (split_head " - " (Hts.trade_impact (snd entry))))
            strategic_codes
     /\ map Some (Hts.dependency_levels m)
        = map (fun entry =>
                 dependency_mapping (Hts.dependency_level (snd entry)))
            strategic_codes
     /\ Forall inside_the_axes (Hts.trade_impacts m)
     /\ Forall inside_the_axes (Hts.dependency_levels m))
  /\ (forall before entry after,
        strategic_codes = (before ++ entry :: after)%list ->
        Forall known_levels before -> ~ known_levels entry ->
        priority_matrix strategic_codes
        = Raise (KeyError (unknown_level entry))).
Proof.
  split.
  - intros Hk.
    destruct (fill_matrix_known strategic_codes Hk (Hts.mk_matrix [] [] [] []))
      as (xs & ys & E & Exs & Eys).
    eexists. split; [exact E|]. cbn.
    split; [reflexivity|]. split; [reflexivity|].
    split; [exact Exs|]. split; [exact Eys|]. split.
    + rewrite <- (map_map (fun entry =>
                             split_head " - " (Hts.trade_impact (snd entry)))
                    impact_mapping) in Exs.
      exact (Forall_map_Some _ _ _ _ impact_mapping_range Exs).
    + rewrite <- (map_map (fun entry => Hts.dependency_level (snd entry))
                    dependency_mapping) in Eys.
      exact (Forall_map_Some _ _ _ _ dependency_mapping_range Eys).
  - intros before entry after -> Hb He. now apply fill_matrix_unknown.
Qed.

Lemma priority_matrix_needs_known_levels_witness :
  priority_matrix define_strategic_hts_codes = Raise (KeyError "Low-Medium")
  /\ exists m, priority_matrix two_known_categories = Ok m
               /\ Hts.trade_impacts m = [3%Q; (5 # 2)%Q]
               /\ Hts.code_counts m = [8%nat; 9%nat].
Proof.
  split.
  - destruct (priority_matrix_needs_known_levels define_strategic_hts_codes)
      as [_ H].
    apply (H (firstn 7 define_strategic_hts_codes)
             (nth 7 define_strategic_hts_codes ("", Hts.mk_info "" "" "" []))
             []).
    + reflexivity.
    + repeat constructor; discriminate.
    + intros [_ H']. apply H'. reflexivity.
  - destruct (priority_matrix_needs_known_levels two_known_categories)
      as [H _].
    destruct H as (m & E & _ & Hc & Hi & _).
    + repeat constructor; discriminate.
    + exists m. split; [exact E|]. split; [|exact Hc].
      cbn in Hi. destruct (Hts.trade_impacts m) as [|x [|y [|z l]]];
        try discriminate Hi. injection Hi as -> ->. reflexivity.
Defined.

(** X21.  The script as it ships does not reach its end: it writes the
    reference sheet of 62 rows and then raises KeyError at the dependency
    level Low-Medium of the last category, which is no key of
    [dependency_mapping]; the figure and the guide are not written and
    no other file is touched. *)
Theorem main_stops_at_the_priority_matrix (fs : Hts.files) :
  fst (main fs) = Raise (KeyError "Low-Medium")
  /\ snd (main fs) reference_path
     = Some (Hts.Reference (reference_data define_strategic_hts_codes))
  /\ List.length (reference_data define_strategic_hts_codes) = 62%nat
  /\ (forall p, p <> reference_path -> snd (main fs) p = fs p)
  /\ snd (main fs) priority_matrix_path = fs priority_matrix_path
  /\ snd (main fs) guide_path = fs guide_path.
Proof.
  assert (E : priority_matrix define_strategic_hts_codes
              = Raise (KeyError "Low-Medium")) by (vm_compute; reflexivity).
  unfold main, create_hts_code_reference, create_hts_priority_matrix.
  rewrite E. cbn [fst snd]. unfold write.
  split; [reflexivity|]. split; [reflexivity|]. split; [reflexivity|].
  split; [|split; reflexivity].
  intros p Hp. destruct (String.eqb_spec p reference_path); [contradiction|].
  reflexivity.
Qed.

(** ** Blanks and signs in a Value cell *)

Lemma space_not_comma (c : ascii) :
  is_float_space c = true -> (c =? ",")%char = false.
Proof.
  destruct (Ascii.eqb_spec c ","%char) as [->|_]; [|reflexivity].
  intros H. discriminate H.
Qed.

Lemma remove_commas_blank (w : string) :
  all_in is_float_space w = true -> remove_commas w = w.
Proof.
  induction w as [|c w IH]; simpl; [reflexivity|].
  intros H. apply andb_prop in H as [Hc Hw].
  now rewrite (space_not_comma c Hc), IH.
Qed.

Lemma lstrip_blank (w x : string) :
  all_in is_float_space w = true -> lstrip (w ++ x) = lstrip x.
Proof.
  induction w as [|c w IH]; simpl; [reflexivity|].
  intros H. apply andb_prop in H as [Hc Hw]. now rewrite Hc, IH.
Qed.

Lemma rstrip_blank (w : string) :
  all_in is_float_space w = true -> rstrip w = "".
Proof.
  induction w as [|c w IH]; simpl; [reflexivity|].
  intros H. apply andb_prop in H as [Hc Hw]. now rewrite IH, Hc.
Qed.

Lemma rstrip_app_blank (x w : string) :
  all_in is_float_space w = true -> rstrip (x ++ w) = rstrip x.
Proof.
  intros Hw. induction x as [|c x IH]; simpl.
  - now apply rstrip_blank.
  - now rewrite IH.
Qed.

Lemma strip_app_blank (s w : string) :
  all_in is_float_space w = true ->
  rstrip (lstrip (s ++ w)) = rstrip (lstrip s).
Proof.
  intros Hw. induction s as [|c s IH].
  - cbn [append]. rewrite <- (append_empty_r w) at 1.
    rewrite lstrip_blank by assumption. reflexivity.
  - cbn [append lstrip]. destruct (is_float_space c); [exact IH|].
    change (String c (s ++ w)) with (String c s ++ w).
    now apply rstrip_app_blank.
Qed.

Lemma float_of_string_strip (s t : string) :
  rstrip (lstrip s) = rstrip (lstrip t) ->
  float_of_string s = float_of_string t.
Proof. unfold float_of_string. now intros ->. Qed.

(** X22.  Blanks around a Value cell are ignored, and a cell of blanks
    and commas only is refused. *)
Theorem blanks_around_a_value_are_ignored (w1 s w2 : string) :
  all_in is_float_space w1 = true -> all_in is_float_space w2 = true ->
  clean_value (w1 ++ s ++ w2) = clean_value s
  /\ (all_in (fun c => is_float_space c || (c =? ",")%char)%bool s = true ->
      clean_value s = None).
Proof.
  intros H1 H2. split.
  - unfold clean_value. rewrite !remove_commas_app.
    rewrite (remove_commas_blank w1 H1), (remove_commas_blank w2 H2).
    apply float_of_string_strip.
    rewrite lstrip_blank by assumption. now apply strip_app_blank.
  - intros Hs. unfold clean_value.
    assert (Hb : all_in is_float_space (remove_commas s) = true).
    { clear -Hs. induction s as [|c s IH]; [reflexivity|].
      cbn [all_in] in Hs. apply andb_prop in Hs as [Hc Hs].
      cbn [remove_commas]. destruct (c =? ",")%char eqn:E; [now apply IH|].
      cbn [all_in]. rewrite orb_false_r in Hc. now rewrite Hc, IH. }
    rewrite (float_of_string_strip _ "").
    + reflexivity.
    + rewrite <- (append_empty_r (remove_commas s)).
      now rewrite lstrip_blank.
Qed.

Lemma blanks_around_a_value_are_ignored_witness :
  clean_value "  1,234.5 " = clean_value "1,234.5"
  /\ clean_value " , " = None.
Proof.
  split.
  - apply (blanks_around_a_value_are_ignored "  " "1,234.5" " ");
      reflexivity.
  - apply (blanks_around_a_value_are_ignored "" " , " ""); reflexivity.
Defined.

Lemma binary_round_aux_neg (s : bool) (m e : Z) (l : location) :
  binary_round_aux prec emax (negb s) m e l
  = fneg (binary_round_aux prec emax s m e l).
Proof.
  unfold binary_round_aux.
  destruct (shr_fexp prec emax m e l) as [mrs' e'].
  destruct (shr_fexp prec emax _ e' loc_Exact) as [mrs'' e''].
  destruct (shr_m mrs''); try reflexivity.
  match goal with
  | |- context [if ?b then _ else _] => destruct b
  end; reflexivity.
Qed.

Lemma binary_round_neg (s : bool) (m : positive) (e : Z) :
  binary_round prec emax (negb s) m e = fneg (binary_round prec emax s m e).
Proof.
  unfold binary_round.
  destruct (shl_align m e _) as [mz ez].
  apply binary_round_aux_neg.
Qed.

Lemma float_of_decimal_neg (m : N) (e : Z) :
  float_of_decimal true m e = fneg (float_of_decimal false m e).
Proof.
  unfold float_of_decimal. destruct m as [|p]; [reflexivity|].
  destruct e as [|k|k].
  - apply (binary_round_neg false).
  - apply (binary_round_neg false).
  - destruct (SFdiv_core_binary prec emax (Z.pos p) 0 (Z.pow_pos 10 k) 0)
      as [[q e'] l].
    apply (binary_round_aux_neg false).
Qed.

Lemma lstrip_unsigned (s : string) : unsigned s = true -> lstrip s = s.
Proof.
  destruct s as [|c s]; [reflexivity|]. cbn.
  destruct (is_float_space c); [discriminate | reflexivity].
Qed.

Lemma rstrip_head (c : ascii) (s : string) :
  is_float_space c = false ->
  rstrip (String c s) = String c (rstrip s).
Proof. intros H. cbn. rewrite H. now destruct (rstrip s). Qed.

Lemma sign_unsigned (s : string) : unsigned s = true -> sign s = (false, s).
Proof.
  destruct s as [|c s]; [reflexivity|]. cbn. intros H.
  apply negb_true_iff in H. apply orb_false_iff in H as [H Hp].
  apply orb_false_iff in H as [_ Hm].
  apply Ascii.eqb_neq in Hp, Hm. unfold sign.
  destruct c as [[] [] [] [] [] [] [] []]; try reflexivity; congruence.
Qed.

Lemma unsigned_rstrip (s : string) :
  unsigned s = true -> unsigned (rstrip s) = true.
Proof.
  destruct s as [|c s]; [reflexivity|]. intros H.
  assert (Hc : is_float_space c = false).
  { cbn in H. apply negb_true_iff in H.
    apply orb_false_iff in H as [H _]. now apply orb_false_iff in H as [H _]. }
  now rewrite rstrip_head.
Qed.

(** X23.  A minus sign in front of a Value cell that, once its commas are
    removed, begins with neither a blank nor a sign gives the opposite of
    the value of the cell, and is refused when the cell is: negative
    values pass the cleaning. *)
Theorem leading_minus_negates (s : string) :
  unsigned (remove_commas s) = true ->
  clean_value ("-" ++ s) = option_map fneg (clean_value s).
Proof.
  unfold clean_value.
  change (remove_commas ("-" ++ s)) with (String "-" (remove_commas s)).
  generalize (remove_commas s) as t. clear s. intros t Hu.
  unfold float_of_string.
  assert (E1 : rstrip (lstrip (String "-" t)) = String "-" (rstrip t))
    by (change (lstrip (String "-" t)) with (String "-" t);
        now rewrite rstrip_head).
  rewrite E1, (lstrip_unsigned t Hu).
  rewrite (sign_unsigned (rstrip t)) by now apply unsigned_rstrip.
  cbn [sign].
  destruct ((lower (rstrip t) =? "inf") || (lower (rstrip t) =? "infinity"))%bool;
    [reflexivity|].
  destruct (lower (rstrip t) =? "nan"); [reflexivity|].
  destruct (number (rstrip t)) as [[[m k] r]|]; [|reflexivity].
  destruct (exponent r) as [e|]; [|reflexivity].
  cbn [option_map]. f_equal. apply float_of_decimal_neg.
Qed.

Lemma leading_minus_negates_witness :
  unsigned (remove_commas "1,234,567.89") = true
  /\ clean_value ("-" ++ "1,234,567.89")
     = Some (S754_finite true 5302428712241725 (-32)).
Proof.
  split; [reflexivity|].
  rewrite (leading_minus_negates "1,234,567.89" eq_refl).
  vm_compute. reflexivity.
Defined.

(** ** The end-to-end scenario read from its files *)

(** On text columns the script as it is read is the script on text. *)
Lemma harmonize_read_text (infer : list string -> dtype) (df : frame)
    (values times : list string) :
  getitem "Value ($US)" df = Ok values -> infer values = object ->
  getitem "Time" df = Ok times -> infer times = object ->
  harmonize_read infer df = harmonize_frame df.
Proof.
  intros Hv Iv Ht It. unfold harmonize_read, str_column.
  rewrite Hv, Iv, Ht, It. cbn [str_accessor].
  unfold harmonize_frame. rewrite Hv.
  now destruct (astype_float (map remove_commas values)).
Qed.

(** C6.  The scenario of the specification does not reach the fact table
    when its two reports are read from files as the scripts read them:
    [read_csv] gives the Time column of the exports report, which holds
    2021 only, and the value column of the imports report, which holds 500
    only, the type int64, and [.str] raises AttributeError at line 24 of
    nafta-exports.py and at line 29 of nafta-imports.py.  On the same
    cells held as text the two scripts harmonise the rows of the
    scenario. *)
Theorem scenario_files_raise_AttributeError (infer : list string -> dtype) :
  whole_numbers_are_int64 infer ->
  nafta_exports_read infer scenario_exports_file
  = Raise (AttributeError "Can only use .str accessor with string values!")
  /\ nafta_imports_read infer scenario_imports_file
     = Raise (AttributeError "Can only use .str accessor with string values!")
  /\ nafta_exports_on scenario_exports_file = harmonize scenario_exports
  /\ nafta_imports_on scenario_imports_file = harmonize scenario_imports.
Proof.
  intros H.
  assert (Htime : infer ["2021"] = int64)
    by (apply H; [discriminate | reflexivity]).
  assert (Hvalue : infer ["500"] = int64)
    by (apply H; [discriminate | reflexivity]).
  split; [|split; [|split; vm_compute; reflexivity]].
  - unfold nafta_exports_read, harmonize_read, str_column.
    change (getitem "Value ($US)" scenario_exports_file)
      with (Ok ["1,000"] : result (list string)).
    change (getitem "Time" scenario_exports_file)
      with (Ok ["2021"] : result (list string)).
    cbv beta iota. rewrite Htime.
    destruct (infer ["1,000"]); reflexivity.
  - unfold nafta_imports_read, harmonize_read, str_column.
    change (getitem "Value ($US)" (prepare_imports scenario_imports_file))
      with (Ok ["500"] : result (list string)).
    cbv beta iota. rewrite Hvalue. reflexivity.
Qed.

Lemma scenario_files_raise_AttributeError_witness :
  whole_numbers_are_int64 infer_whole_numbers
  /\ nafta_exports_read infer_whole_numbers scenario_exports_file
     = Raise (AttributeError "Can only use .str accessor with string values!")
  /\ nafta_imports_read infer_whole_numbers scenario_imports_file
     = Raise (AttributeError "Can only use .str accessor with string values!").
Proof.
  assert (H : whole_numbers_are_int64 infer_whole_numbers).
  { intros cells Hne Hall. unfold infer_whole_numbers.
    destruct cells; [contradiction|]. now rewrite Hall. }
  split; [exact H|].
  destruct (scenario_files_raise_AttributeError infer_whole_numbers H)
    as (He & Hi & _).
  split; assumption.
Defined.
